(** * ITS_LIVE datacube assembly: a shallow embedding of [itscube.py]

    The development follows the class [ITSCube] of [src/src/itscube.py]:
    duplicate resolution over granule file names, the per-granule
    pre-processing and routing of its result, the per-layer attribute lookup,
    the combination of a batch of layers and the drivers that write batches
    to the Zarr store. *)

From Stdlib Require Import ZArith Lia String Ascii List Permutation.
From stdpp Require Import base option list gmap strings pretty.

Local Open Scope string_scope.
Local Open Scope list_scope.
Local Open Scope Z_scope.

(** ** Exceptions and fallible computations *)

(** The Python exceptions the modelled code can raise. *)
Inductive exn : Type :=
| IndexError
| ValueError
| RuntimeError
| OverflowError
| AttributeError
| KeyError
| TypeError
| ZeroDivisionError.

#[global] Instance exn_eq_dec : EqDecision exn.
Proof. solve_decision. Defined.

(** A call either returns a value or raises. *)
Inductive result (A : Type) : Type :=
| Ok (a : A)
| Raise (e : exn).
Arguments Ok {A} a.
Arguments Raise {A} e.

#[global] Instance result_ret : MRet result := fun A a => Ok a.
#[global] Instance result_bind : MBind result := fun A B f m =>
  match m with
  | Ok a => f a
  | Raise e => Raise e
  end.

Definition is_Ok {A} (r : result A) : Prop := ∃ a, r = Ok a.

(** ** Naive datetimes

    A naive [datetime] is its position on the proleptic Gregorian time
    line, in microseconds, with day ordinal 1 = 0001-01-01 as in
    [datetime.toordinal]; a [timedelta] is a signed number of
    microseconds.  Python's [==], [>=], [-] and [+] on these objects are
    the ones of these numbers; [+] checks the range of its result. *)

Definition datetime := Z.
Definition timedelta := Z.

Definition US_PER_MS : Z := 1000.
Definition US_PER_DAY : Z := 86400000000.
Definition MAXORDINAL : Z := 3652059.      (* date(9999, 12, 31).toordinal() *)

(** [timedelta.days]: the normalised day field is the floor. *)
Definition td_days (td : timedelta) : Z := td / US_PER_DAY.

(** [datetime - datetime]. *)
Definition dt_sub (a b : datetime) : timedelta := a - b.

(** [datetime + timedelta]: raises OverflowError unless
    [0 < delta.days <= _MAXORDINAL]. *)
Definition dt_add (a : datetime) (td : timedelta) : result datetime :=
  let r := a + td in
  if (0 <? r / US_PER_DAY) && (r / US_PER_DAY <=? MAXORDINAL)
  then Ok r else Raise OverflowError.

(** [timedelta(days=n/2, milliseconds=ms)] for integers [n] and [ms].  The
    quotient [n/2] is a float that is a multiple of one half, which the
    constructor splits exactly into whole days and 43200 seconds. *)
Definition timedelta_half_days_ms (n ms : Z) : timedelta :=
  n * (US_PER_DAY / 2) + ms * US_PER_MS.

(** [timedelta(milliseconds=ms)]. *)
Definition timedelta_ms (ms : Z) : timedelta := ms * US_PER_MS.

(** *** Calendar dates (datetime.py: [_is_leap], [_days_in_month],
    [_days_before_year], [_days_before_month], [_ymd2ord]) *)

Definition is_leap (year : Z) : bool :=
  (year mod 4 =? 0) && (negb (year mod 100 =? 0) || (year mod 400 =? 0)).

Definition days_in_month (year month : Z) : Z :=
  if month =? 2 then (if is_leap year then 29 else 28)
  else if (month =? 4) || (month =? 6) || (month =? 9) || (month =? 11) then 30
  else 31.

Definition days_before_year (year : Z) : Z :=
  let y := year - 1 in y * 365 + y / 4 - y / 100 + y / 400.

Definition days_before_month (year month : Z) : Z :=
  (match month with
   | 1 => 0 | 2 => 31 | 3 => 59 | 4 => 90 | 5 => 120 | 6 => 151
   | 7 => 181 | 8 => 212 | 9 => 243 | 10 => 273 | 11 => 304 | _ => 334
   end) + (if (2 <? month) && is_leap year then 1 else 0).

Definition ymd2ord (year month day : Z) : Z :=
  days_before_year year + days_before_month year month + day.

(** [datetime(year, month, day)]: midnight of a valid calendar date. *)
Definition datetime_ymd (year month day : Z) : result datetime :=
  if (1 <=? year) && (year <=? 9999) && (1 <=? month) && (month <=? 12)
     && (1 <=? day) && (day <=? days_in_month year month)
  then Ok (ymd2ord year month day * US_PER_DAY)
  else Raise ValueError.

(** *** [datetime.strptime(s, "%Y%m%d")]

    [_strptime] compiles the format to the regular expression
    [(\d\d\d\d)(1[0-2]|0[1-9]|[1-9])(3[01]|[12]\d|0[1-9]|[1-9]| [1-9])],
    matches it at the start of the string with the alternatives tried in
    order, and rejects the string when text remains after the match.
    Strings are byte strings here, so only the ASCII digits are digits. *)

Definition digit_val (c : ascii) : option Z :=
  let n := Z.of_N (N_of_ascii c) in
  if (48 <=? n) && (n <=? 57) then Some (n - 48) else None.

Definition digit_in (lo hi : Z) (c : ascii) : option Z :=
  match digit_val c with
  | Some d => if (lo <=? d) && (d <=? hi) then Some d else None
  | None => None
  end.

Definition is_char (x : ascii) (c : ascii) : option unit :=
  if Ascii.eqb x c then Some () else None.

(** [%Y]: four digits. *)
Definition match_Y (s : string) : option (Z * string) :=
  match s with
  | String a (String b (String c (String d rest))) =>
      a ← digit_val a; b ← digit_val b; c ← digit_val c; d ← digit_val d;
      Some (1000 * a + 100 * b + 10 * c + d, rest)
  | _ => None
  end.

(** [%m]: every way the month group can match, in the order the regular
    expression engine tries them. *)
Definition match_m (s : string) : list (Z * string) :=
  match s with
  | String a rest1 =>
      (match rest1 with
       | String b rest2 =>
           option_list (_ ← is_char "1" a; d ← digit_in 0 2 b; Some (10 + d, rest2))
           ++ option_list (_ ← is_char "0" a; d ← digit_in 1 9 b; Some (d, rest2))
       | EmptyString => []
       end)
      ++ option_list (d ← digit_in 1 9 a; Some (d, rest1))
  | EmptyString => []
  end.

(** [%d]: the first alternative of the day group that matches. *)
Definition match_d (s : string) : option (Z * string) :=
  match s with
  | String a rest1 =>
      let two :=
        match rest1 with
        | String b rest2 =>
            (_ ← is_char "3" a; d ← digit_in 0 1 b; Some (30 + d, rest2))
            ∪ (t ← digit_in 1 2 a; d ← digit_val b; Some (10 * t + d, rest2))
            ∪ (_ ← is_char "0" a; d ← digit_in 1 9 b; Some (d, rest2))
        | EmptyString => None
        end in
      let sp :=
        match rest1 with
        | String b rest2 => (_ ← is_char " " a; d ← digit_in 1 9 b; Some (d, rest2))
        | EmptyString => None
        end in
      two ∪ (d ← digit_in 1 9 a; Some (d, rest1)) ∪ sp
  | EmptyString => None
  end.

(** The first month match after which the day group matches too. *)
Fixpoint first_md (ms : list (Z * string)) : option (Z * Z * string) :=
  match ms with
  | [] => None
  | (m, rest) :: ms' =>
      match match_d rest with
      | Some (d, rest') => Some (m, d, rest')
      | None => first_md ms'
      end
  end.

Definition strptime_Ymd (s : string) : result datetime :=
  match match_Y s with
  | None => Raise ValueError
  | Some (year, rest) =>
      match first_md (match_m rest) with
      | None => Raise ValueError
      | Some (month, day, rest') =>
          if decide (rest' = "") then datetime_ymd year month day
          else Raise ValueError          (* unconverted data remains *)
      end
  end.

(** ** File names *)

(** [s.split(sep)] for a one-character separator. *)
Fixpoint split (sep : ascii) (s : string) : list string :=
  match s with
  | EmptyString => [""]
  | String c rest =>
      if Ascii.eqb c sep then "" :: split sep rest
      else match split sep rest with
           | t :: ts => String c t :: ts
           | [] => [String c ""]
           end
  end.

(** [os.path.basename(p)]: the text after the last slash. *)
Definition basename (p : string) : string := List.last (split "/" p) "".

(** [tokens[i]] raises IndexError out of range. *)
Definition token (tokens : list string) (i : nat) : result string :=
  match tokens !! i with
  | Some t => Ok t
  | None => Raise IndexError
  end.

(** The four dates of a granule: acquisition and processing date of image 1,
    then of image 2. *)
Definition granule_dates : Type := datetime * datetime * datetime * datetime.

(** [ITSCube.get_dates_from_filename] *)
Definition get_dates_from_filename (filename : string) : result granule_dates :=
  let url_tokens := split "_" (basename filename) in
  url_acq_date_1 ← token url_tokens 3 ≫= strptime_Ymd;
  url_proc_date_1 ← token url_tokens 4 ≫= strptime_Ymd;
  url_acq_date_2 ← token url_tokens 11 ≫= strptime_Ymd;
  url_proc_date_2 ← token url_tokens 12 ≫= strptime_Ymd;
  Ok (url_acq_date_1, url_proc_date_1, url_acq_date_2, url_proc_date_2).

(** ** Decoded granules *)

(** The value of a NetCDF attribute.  Numbers are carried around, compared
    with nothing and never computed with; they are integers here. *)
Inductive attr_value : Type :=
| ANum (n : Z)                 (* a number *)
| AStr (s : string)            (* a string *)
| AArr (ns : list Z).          (* an array of numbers *)

#[global] Instance attr_value_eq_dec : EqDecision attr_value.
Proof. solve_decision. Defined.

(** A 2-D array indexed [row (y)][column (x)]; [None] is a missing cell
    (NaN). *)
Definition grid : Type := list (list (option Z)).

Record data_var : Type := mk_data_var {
  attrs : gmap string attr_value;
  values : grid
}.

(** What the decode collaborator hands over for one granule ([xr.Dataset]):
    the attributes the program reads in the scalar groups [UTM_Projection]
    and [img_pair_info], the coordinate arrays, and the gridded data
    variables by name.  A granule need not have the groups (granules in a
    polar stereographic projection carry no [UTM_Projection]): [None] is a
    group or an attribute that is not there. *)
Record dataset : Type := mk_dataset {
  spatial_epsg : option Z;     (* int(ds.UTM_Projection.spatial_epsg) *)
  date_center : option string; (* ds.img_pair_info.date_center *)
  date_dt : option Z;          (* int(ds.img_pair_info.date_dt) *)
  ds_x : list Z;               (* ds.x *)
  ds_y : list Z;               (* ds.y *)
  data_vars : gmap string data_var
}.

(** [ds.group.attribute]: AttributeError when the group or the attribute is
    not there. *)
Definition ds_attr {A} (o : option A) : result A :=
  match o with
  | Some a => Ok a
  | None => Raise AttributeError
  end.

(** [grid.Bounds]: the extent of the polygon along one axis. *)
Record Bounds : Type := mk_Bounds { b_min : Z; b_max : Z }.

(** ** The cube under construction *)

(** One variable of the combined table: its attributes and one entry per
    time slice.  The slice of a measurement is a grid indexed by label, as
    the array library keeps it: the [x] and [y] labels of the variable and
    the cells that are not missing, by their ([y], [x]) label; a cell of
    the labels that is not in the map is missing (NaN).  The slice of a
    per-layer attribute is a value. *)
Inductive slice : Type :=
| SGrid (xs ys : gset Z) (cells : gmap (Z * Z) Z)
| SVal (v : attr_value).

Record cube_var : Type := mk_cube_var {
  cv_attrs : gmap string attr_value;
  cv_slices : list slice
}.

(** [self.layers]: the [mid_date] coordinate and the variables. *)
Record cube_table : Type := mk_cube_table {
  mid_date_coord : list (option datetime);
  cube_vars : gmap string cube_var
}.

(** The attributes of a [ITSCube] object. *)
Record ITSCube : Type := mk_ITSCube {
  projection : string;
  x : Bounds;
  y : Bounds;
  ds : list dataset;
  dates : list (option datetime);
  urls : list string;
  num_urls_from_api : option nat;
  skipped_proj_granules : gmap Z (list string);
  skipped_empty_granules : list string;
  skipped_double_granules : list string;
  layers : option cube_table
}.

(** ** Duplicate resolution ([ITSCube.skip_duplicate_granules]) *)

(** [x in l] and [l.index(x)]: the position of the first element equal to
    [x]. *)
Fixpoint py_index {A} `{EqDecision A} (x : A) (l : list A) : option nat :=
  match l with
  | [] => None
  | y :: l' => if decide (x = y) then Some 0%nat else S <$> py_index x l'
  end.

(** [l[i]] raises IndexError out of range. *)
Definition getitem {A} (l : list A) (i : nat) : result A :=
  match l !! i with
  | Some a => Ok a
  | None => Raise IndexError
  end.

(** The mid-point key of a granule: lines 249-250 of the loop body. *)
Definition mid_date_of (d : granule_dates) : result datetime :=
  let '(url_acq_1, _, url_acq_2, _) := d in
  let day_separation := td_days (dt_sub url_acq_1 url_acq_2) in
  dt_add url_acq_2 (timedelta_half_days_ms day_separation day_separation).

(** The local variables of the loop, with [self.skipped_double_granules]. *)
Record dedup_vars : Type := mk_dedup_vars {
  url_mid_dates : list datetime;
  keep_urls : list string;
  skipped : list string
}.

Definition dedup_init : dedup_vars := mk_dedup_vars [] [] [].

Section Dedup.
(** The loop is written over the function that extracts the four dates of
    a granule from its name; the program uses
    [get_dates_from_filename]. *)
Variable get_dates : string → result granule_dates.

(** One iteration of the loop over [found_urls]. *)
Definition dedup_step (st : dedup_vars) (each_url : string) : result dedup_vars :=
  d ← get_dates each_url;
  let '(url_acq_1, url_proc_1, url_acq_2, url_proc_2) := d in
  mid_date ← mid_date_of d;
  match py_index mid_date (url_mid_dates st) with
  | Some index =>
      found_url ← getitem (keep_urls st) index;
      d' ← get_dates found_url;
      let '(found_acq_1, found_proc_1, found_acq_2, found_proc_2) := d' in
      if bool_decide (url_acq_1 ≠ found_acq_1) || bool_decide (url_acq_2 ≠ found_acq_2)
      then Raise RuntimeError
      else if (found_proc_1 <=? url_proc_1) && (found_proc_2 <=? url_proc_2)
      then Ok (mk_dedup_vars (url_mid_dates st)
                             (<[index := each_url]> (keep_urls st))
                             (skipped st ++ [found_url]))
      else Ok (mk_dedup_vars (url_mid_dates st)
                             (keep_urls st)
                             (skipped st ++ [each_url]))
  | None =>
      Ok (mk_dedup_vars (url_mid_dates st ++ [mid_date])
                        (keep_urls st ++ [each_url])
                        (skipped st))
  end.

(** The loop: the variables when it ends, and the exception that ended it
    if one was raised. *)
Fixpoint dedup_loop (st : dedup_vars) (found_urls : list string)
  : dedup_vars * option exn :=
  match found_urls with
  | [] => (st, None)
  | each_url :: rest =>
      match dedup_step st each_url with
      | Ok st' => dedup_loop st' rest
      | Raise e => (st, Some e)
      end
  end.

(** The method: what it returns or raises, and the object afterwards. *)
Definition skip_duplicate_granules_with (self : ITSCube) (found_urls : list string)
  : result (list string) * ITSCube :=
  let '(st, e) := dedup_loop dedup_init found_urls in
  let self' :=
    mk_ITSCube (projection self) (x self) (y self) (ds self) (dates self)
      (urls self) (Some (length found_urls)) (skipped_proj_granules self)
      (skipped_empty_granules self) (skipped st) (layers self) in
  match e with
  | None => (Ok (keep_urls st), self')
  | Some e => (Raise e, self')
  end.

(** The mid-point key of a granule name. *)
Definition mid_of (u : string) : result datetime := get_dates u ≫= mid_date_of.

(** The acquisition pair of a granule name. *)
Definition acq_of (u : string) : result (datetime * datetime) :=
  d ← get_dates u; Ok (d.1.1.1, d.1.2).

(** The processing pair of a granule name. *)
Definition proc_of (u : string) : result (datetime * datetime) :=
  d ← get_dates u; Ok (d.1.1.2, d.2).

End Dedup.

(** The program's instance. *)
Definition skip_duplicate_granules : ITSCube → list string → result (list string) * ITSCube :=
  skip_duplicate_granules_with get_dates_from_filename.

(** ** Constants ([Coords], [DataVars]) *)

Module Coords.
Definition MID_DATE : string := "mid_date".
Definition X : string := "x".
Definition Y : string := "y".
End Coords.

Module DataVars.
Definition MISSING_VALUE_ATTR : string := "missing_value".
Definition FILL_VALUE_ATTR : string := "_FillValue".
Definition DESCRIPTION : string := "description".
Definition GRID_MAPPING : string := "grid_mapping".
Definition STABLE_COUNT : string := "stable_count".
Definition STABLE_SHIFT : string := "stable_shift".
Definition FLAG_STABLE_SHIFT_MEANINGS : string := "flag_stable_shift_meanings".
Definition STABLE_APPLY_DATE : string := "stable_apply_date".
Definition V : string := "v".
Definition MAP_SCALE_CORRECTED : string := "map_scale_corrected".
Definition VX : string := "vx".
Definition VX_ERROR : string := "vx_error".
Definition FLAG_STABLE_SHIFT : string := "flag_stable_shift".
Definition STABLE_RMSE : string := "stable_rmse".
Definition VY : string := "vy".
Definition VY_ERROR : string := "vy_error".
Definition CHIP_SIZE_HEIGHT : string := "chip_size_height".
Definition CHIP_SIZE_COORDINATES : string := "chip_size_coordinates".
Definition CHIP_SIZE_WIDTH : string := "chip_size_width".
Definition INTERP_MASK : string := "interp_mask".
Definition V_ERROR : string := "v_error".
Definition URL : string := "url".
Definition VX_STABLE_SHIFT : string := "vx_stable_shift".   (* '_'.join([VX, STABLE_SHIFT]) *)
Definition VY_STABLE_SHIFT : string := "vy_stable_shift".   (* '_'.join([VY, STABLE_SHIFT]) *)
Definition MISSING_BYTE : attr_value := ANum 0.
Definition MISSING_VALUE : attr_value := ANum (-32767).
Definition MISSING_POS_VALUE : attr_value := ANum 32767.
Definition V_DESCRIPTION_STR : string := "velocity magnitude".
Definition VX_DESCRIPTION_STR : string := "velocity component in x direction".
Definition VY_DESCRIPTION_STR : string := "velocity component in y direction".
Definition CHIP_SIZE_COORDINATES_STR : string :=
  "Optical data: chip_size_coordinates = 'image projection geometry: width = x, height = y'. Radar data: chip_size_coordinates = 'radar geometry: width = range, height = azimuth'".
Definition CHIP_SIZE_HEIGHT_STR : string := "height of search window".
Definition FLAG_STABLE_SHIFT_MEANINGS_STR : string :=
  "flag for applying velocity bias correction over stable surfaces (stationary or slow-flowing surfaces with velocity < 15 m/yr): 0 = there is no stable surface available and no correction is applied; 1 = there are stable surfaces and velocity bias is corrected;".
End DataVars.

(** ** Pre-processing of one granule ([ITSCube.preprocess_dataset]) *)

(** The Python values a returned tuple is made of. *)
Inductive pyval : Type :=
| PyNone
| PyBool (b : bool)
| PyInt (n : Z)
| PyStr (s : string)
| PyDatetime (d : datetime)
| PyDataset (d : dataset).

Definition py_opt {A} (f : A → pyval) (o : option A) : pyval :=
  match o with
  | Some a => f a
  | None => PyNone
  end.

(** [ds.name]: the data variable of that name, AttributeError without it. *)
Definition ds_var (ds : dataset) (name : string) : result data_var :=
  match data_vars ds !! name with
  | Some v => Ok v
  | None => Raise AttributeError
  end.

(** The elements of [l] at the positions where [mask] holds. *)
Fixpoint select {A} (mask : list bool) (l : list A) : list A :=
  match mask, l with
  | b :: mask', a :: l' => if b then a :: select mask' l' else select mask' l'
  | _, _ => []
  end.

(** [(c >= bounds.min) & (c <= bounds.max)] *)
Definition in_bounds (b : Bounds) (c : Z) : bool := (b_min b <=? c) && (c <=? b_max b).

(** [ds.where(mask_lon & mask_lat, drop=True)]: the coordinate labels at
    which the mask holds somewhere are kept, the others dropped, along both
    axes and in every data variable. *)
Definition where_drop (mask_lon mask_lat : list bool) (ds : dataset) : dataset :=
  let any_lon := existsb id mask_lon in
  let any_lat := existsb id mask_lat in
  let crop (g : grid) : grid :=
    if any_lon then select mask_lon <$> select mask_lat g else [] in
  mk_dataset (spatial_epsg ds) (date_center ds) (date_dt ds)
    (if any_lat then select mask_lon (ds_x ds) else [])
    (if any_lon then select mask_lat (ds_y ds) else [])
    ((λ v, mk_data_var (attrs v) (crop (values v))) <$> data_vars ds).

(** [np.any(a.notnull())] *)
Definition any_notnull (g : grid) : bool :=
  existsb (existsb (λ c : option Z, match c with Some _ => true | None => false end)) g.

Definition preprocess_dataset (self : ITSCube) (ds : dataset) (ds_url : string)
  : result (list pyval) :=
  epsg ← ds_attr (spatial_epsg ds);
  r ← (if decide (pretty epsg = projection self) then
         center ← ds_attr (date_center ds);
         d ← strptime_Ymd center;
         dt ← ds_attr (date_dt ds);
         mid_date ← dt_add d (timedelta_ms dt);
         let mask_lon := in_bounds (x self) <$> ds_x ds in
         let mask_lat := in_bounds (y self) <$> ds_y ds in
         let mask_data := where_drop mask_lon mask_lat ds in
         v ← ds_var mask_data DataVars.V;
         if any_notnull (values v)
         then Ok (false, Some mid_date, Some mask_data)
         else Ok (true, None, None)
       else Ok (false, None, None));
  let '(empty, mid_date, mask_data) := r in
  Ok [PyBool empty; PyInt epsg; py_opt PyDatetime mid_date;
      PyStr ds_url; py_opt PyDataset mask_data].

(** ** Routing of a pre-processed granule ([ITSCube.add_layer]) *)

Definition add_layer (self : ITSCube) (is_empty : bool) (layer_projection : Z)
    (mid_date : option datetime) (url : string) (data : option dataset) : ITSCube :=
  match data with
  | Some d =>
      mk_ITSCube (projection self) (x self) (y self) (ds self ++ [d])
        (dates self ++ [mid_date]) (urls self ++ [url]) (num_urls_from_api self)
        (skipped_proj_granules self) (skipped_empty_granules self)
        (skipped_double_granules self) (layers self)
  | None =>
      if is_empty then
        mk_ITSCube (projection self) (x self) (y self) (ds self)
          (dates self) (urls self) (num_urls_from_api self)
          (skipped_proj_granules self) (skipped_empty_granules self ++ [url])
          (skipped_double_granules self) (layers self)
      else
        (* setdefault(layer_projection, []).append(url) *)
        mk_ITSCube (projection self) (x self) (y self) (ds self)
          (dates self) (urls self) (num_urls_from_api self)
          (<[layer_projection :=
               default [] (skipped_proj_granules self !! layer_projection) ++ [url]]>
             (skipped_proj_granules self))
          (skipped_empty_granules self)
          (skipped_double_granules self) (layers self)
  end.

(** The call of [self.add_layer] with the tuple of [preprocess_dataset]
    unpacked into its arguments; another number of values is a
    TypeError. *)
Definition add_layer_star (self : ITSCube) (results : list pyval) : result ITSCube :=
  match results with
  | [PyBool is_empty; PyInt layer_projection; mid_date; PyStr url; data] =>
      mid_date ← match mid_date with
                 | PyNone => Ok None
                 | PyDatetime d => Ok (Some d)
                 | _ => Raise TypeError
                 end;
      data ← match data with
             | PyNone => Ok None
             | PyDataset d => Ok (Some d)
             | _ => Raise TypeError
             end;
      Ok (add_layer self is_empty layer_projection mid_date url data)
  | _ => Raise TypeError
  end.

(** ** Per-layer attributes ([ITSCube.get_data_var_attr]) *)

(** [a[0]] on an attribute value: the first number of an array, the first
    character of a string; a scalar cannot be indexed. *)
Definition getitem0 (a : attr_value) : result attr_value :=
  match a with
  | AArr (n :: _) => Ok (ANum n)
  | AArr [] => Raise IndexError
  | AStr (String c _) => Ok (AStr (String c EmptyString))
  | AStr EmptyString => Raise IndexError
  | ANum _ => Raise IndexError
  end.

Definition get_data_var_attr (ds : dataset) (var_name attr_name : string)
    (missing_value : option attr_value) : result attr_value :=
  match data_vars ds !! var_name ≫= λ v, attrs v !! attr_name with
  | Some a => getitem0 a
  | None =>
      match missing_value with
      | None => Raise RuntimeError
      | Some mv => Ok mv
      end
  end.

(** ** Combination of a batch ([ITSCube.combine_layers]) *)

(** A [xr.DataArray] over [y] and [x], indexed by label: its attributes,
    its labels along the two axes, and its cells that are not missing. *)
Record data_array : Type := mk_data_array {
  da_attrs : gmap string attr_value;
  da_x : gset Z;
  da_y : gset Z;
  da_cells : gmap (Z * Z) Z
}.

(** The cell of a grid at the labels [y] and [x]: row [i] has the [i]-th
    [y] label, column [j] the [j]-th [x] label; None is a missing cell, and
    so is a cell at a label the grid does not have. *)
Definition cell_at (xs ys : list Z) (g : grid) (y x : Z) : option Z :=
  i ← py_index y ys; j ← py_index x xs; row ← g !! i; c ← row !! j; c.

(** The cells of a grid that are not missing, by label. *)
Definition cells_of (xs ys : list Z) (g : grid) : gmap (Z * Z) Z :=
  list_to_map
    (omap (λ k : Z * Z, (λ z : Z, (k, z)) <$> cell_at xs ys g k.1 k.2)
          (list_prod ys xs)).

(** [ds.name] as an array: the variable with the coordinates of the
    dataset. *)
Definition ds_array (ds : dataset) (name : string) : result data_array :=
  v ← ds_var ds name;
  Ok (mk_data_array (attrs v) (list_to_set (ds_x ds)) (list_to_set (ds_y ds))
        (cells_of (ds_x ds) (ds_y ds) (values v))).

(** [xr.concat(arrays, mid_date_coord)], the library's concatenation along
    a new dimension: one slice per array, in the order of the list, with
    the attributes of the first array; the arrays are aligned on the union
    of their [x] and [y] labels (outer join), so every slice has the labels
    of the union and, at the labels its array does not have, missing
    cells.  ValueError on an empty list. *)
Definition concat (arrays : list data_array) : result cube_var :=
  match arrays with
  | [] => Raise ValueError
  | a :: _ =>
      let xs := ⋃ (da_x <$> arrays) in
      let ys := ⋃ (da_y <$> arrays) in
      Ok (mk_cube_var (da_attrs a) ((λ a, SGrid xs ys (da_cells a)) <$> arrays))
  end.

(** [xr.DataArray(data=vals, coords=[mid_date_coord], dims=[MID_DATE])] *)
Definition attr_array (vals : list attr_value) : cube_var :=
  mk_cube_var ∅ (SVal <$> vals).

(** [layers[name].attrs[key] = val] *)
Definition set_attr (name key : string) (val : attr_value)
    (L : gmap string cube_var) : gmap string cube_var :=
  alter (λ cv, mk_cube_var (<[key := val]> (cv_attrs cv)) (cv_slices cv)) name L.

(** [if key not in layers[name].attrs: layers[name].attrs[key] = val] *)
Definition set_attr_absent (name key : string) (val : attr_value)
    (L : gmap string cube_var) : gmap string cube_var :=
  alter (λ cv, match cv_attrs cv !! key with
               | Some _ => cv
               | None => mk_cube_var (<[key := val]> (cv_attrs cv)) (cv_slices cv)
               end) name L.

(** [if key in layers[name].attrs: del layers[name].attrs[key]] *)
Definition del_attr (name key : string)
    (L : gmap string cube_var) : gmap string cube_var :=
  alter (λ cv, mk_cube_var (delete key (cv_attrs cv)) (cv_slices cv)) name L.

(** [ds.drop_vars(name)] for a variable the dataset has. *)
Definition drop_vars (name : string) (ds : dataset) : dataset :=
  mk_dataset (spatial_epsg ds) (date_center ds) (date_dt ds) (ds_x ds) (ds_y ds)
    (delete name (data_vars ds)).

(** [ds.v.attrs[key]] *)
Definition var_attr (ds : dataset) (var_name key : string) : result attr_value :=
  v ← ds_var ds var_name;
  match attrs v !! key with
  | Some a => Ok a
  | None => Raise KeyError
  end.

(** The [x] and [y] labels of a variable of the table
    ([self.layers.v.coords[Coords.X]], [...[Coords.Y]]): those of its
    slices, which all have the labels of the concatenation. *)
Definition cv_coords (cv : cube_var) : gset Z * gset Z :=
  match cv_slices cv with
  | SGrid xs ys _ :: _ => (xs, ys)
  | _ => (∅, ∅)
  end.

(** [ITSCube.get_data_var]: the variable of the layer, or an array of
    missing cells over the coordinates of [self.layers.v]. *)
Definition get_data_var (L : gmap string cube_var) (ds : dataset) (var_name : string)
  : result data_array :=
  match data_vars ds !! var_name with
  | Some _ => ds_array ds var_name
  | None =>
      match L !! DataVars.V with
      | Some lv => Ok (mk_data_array ∅ (cv_coords lv).1 (cv_coords lv).2 ∅)
      | None => Raise AttributeError
      end
  end.

(** The table [self.layers] that [combine_layers] builds before it writes,
    statement by statement. *)
Definition build_layers (self : ITSCube) (is_first_write : bool) : result cube_table :=
  let dsl := ds self in
  v_layers ← mapM (λ each_ds, ds_array each_ds DataVars.V) dsl ≫= concat;
  (* xr.Dataset(...) refuses a url variable and a mid_date coordinate of
     different sizes *)
  _ ← (if decide (length (urls self) = length (dates self))
       then Ok () else Raise ValueError);
  let L : gmap string cube_var :=
    {[ DataVars.URL := mk_cube_var ∅ ((λ u, SVal (AStr u)) <$> urls self) ]} in
  (* Process 'v' *)
  let L := <[DataVars.V := v_layers]> L in
  let L := set_attr DataVars.V DataVars.DESCRIPTION (AStr DataVars.V_DESCRIPTION_STR) L in
  let L := if is_first_write
           then set_attr_absent DataVars.V DataVars.MISSING_VALUE_ATTR DataVars.MISSING_VALUE L
           else L in
  grid_mapping ← mapM (λ d, var_attr d DataVars.V DataVars.GRID_MAPPING) dsl;
  let L := <[DataVars.GRID_MAPPING := attr_array grid_mapping]> L in
  let L := del_attr DataVars.V DataVars.GRID_MAPPING L in
  map_scale_corrected ←
    mapM (λ d, get_data_var_attr d DataVars.V DataVars.MAP_SCALE_CORRECTED
                 (Some DataVars.MISSING_BYTE)) dsl;
  let L := <[DataVars.MAP_SCALE_CORRECTED := attr_array map_scale_corrected]> L in
  let L := if is_first_write
           then set_attr DataVars.MAP_SCALE_CORRECTED DataVars.MISSING_VALUE_ATTR
                  DataVars.MISSING_BYTE L
           else L in
  let L := del_attr DataVars.V DataVars.MAP_SCALE_CORRECTED L in
  let dsl := drop_vars DataVars.V <$> dsl in
  (* Process 'vx' *)
  vx_layers ← mapM (λ d, ds_array d DataVars.VX) dsl ≫= concat;
  let L := <[DataVars.VX := vx_layers]> L in
  let L := set_attr DataVars.VX DataVars.DESCRIPTION (AStr DataVars.VX_DESCRIPTION_STR) L in
  let L := if is_first_write
           then set_attr_absent DataVars.VX DataVars.MISSING_VALUE_ATTR DataVars.MISSING_VALUE L
           else L in
  let L := del_attr DataVars.VX DataVars.STABLE_APPLY_DATE L in
  vx_error ←
    mapM (λ d, get_data_var_attr d DataVars.VX DataVars.VX_ERROR
                 (Some DataVars.MISSING_VALUE)) dsl;
  let L := <[DataVars.VX_ERROR := attr_array vx_error]> L in
  let L := del_attr DataVars.VX DataVars.VX_ERROR L in
  stable_rmse ←
    mapM (λ d, get_data_var_attr d DataVars.VX DataVars.STABLE_RMSE
                 (Some DataVars.MISSING_VALUE)) dsl;
  let L := <[DataVars.STABLE_RMSE := attr_array stable_rmse]> L in
  let L := del_attr DataVars.VX DataVars.STABLE_RMSE L in
  stable_count ←
    mapM (λ d, get_data_var_attr d DataVars.VX DataVars.STABLE_COUNT None) dsl;
  let L := <[DataVars.STABLE_COUNT := attr_array stable_count]> L in
  let L := del_attr DataVars.VX DataVars.STABLE_COUNT L in
  let missing_stable_shift_value := ANum 0 in
  flag_stable_shift ←
    mapM (λ d, get_data_var_attr d DataVars.VX DataVars.FLAG_STABLE_SHIFT
                 (Some missing_stable_shift_value)) dsl;
  let L := <[DataVars.FLAG_STABLE_SHIFT := attr_array flag_stable_shift]> L in
  let L := set_attr DataVars.FLAG_STABLE_SHIFT DataVars.FLAG_STABLE_SHIFT_MEANINGS
             (AStr DataVars.FLAG_STABLE_SHIFT_MEANINGS_STR) L in
  vx_stable_shift ←
    mapM (λ d, get_data_var_attr d DataVars.VX DataVars.STABLE_SHIFT None) dsl;
  let L := <[DataVars.VX_STABLE_SHIFT := attr_array vx_stable_shift]> L in
  let L := del_attr DataVars.VX DataVars.STABLE_SHIFT L in
  let dsl := drop_vars DataVars.VX <$> dsl in
  (* Process 'vy' *)
  vy_layers ← mapM (λ d, ds_array d DataVars.VY) dsl ≫= concat;
  let L := <[DataVars.VY := vy_layers]> L in
  let L := set_attr DataVars.VY DataVars.DESCRIPTION (AStr DataVars.VY_DESCRIPTION_STR) L in
  let L := if is_first_write
           then set_attr_absent DataVars.VY DataVars.MISSING_VALUE_ATTR DataVars.MISSING_VALUE L
           else L in
  let L := del_attr DataVars.VY DataVars.STABLE_APPLY_DATE L in
  vy_error ←
    mapM (λ d, get_data_var_attr d DataVars.VY DataVars.VY_ERROR
                 (Some DataVars.MISSING_VALUE)) dsl;
  let L := <[DataVars.VY_ERROR := attr_array vy_error]> L in
  let L := del_attr DataVars.VY DataVars.VY_ERROR L in
  vy_stable_shift ←
    mapM (λ d, get_data_var_attr d DataVars.VY DataVars.STABLE_SHIFT None) dsl;
  let L := <[DataVars.VY_STABLE_SHIFT := attr_array vy_stable_shift]> L in
  let L := del_attr DataVars.VY DataVars.STABLE_SHIFT L in
  let dsl := drop_vars DataVars.VY <$> dsl in
  (* chip_size_height, chip_size_width, interp_mask *)
  chip_size_height ← mapM (λ d, ds_array d DataVars.CHIP_SIZE_HEIGHT) dsl ≫= concat;
  let L := <[DataVars.CHIP_SIZE_HEIGHT := chip_size_height]> L in
  let L := set_attr DataVars.CHIP_SIZE_HEIGHT DataVars.CHIP_SIZE_COORDINATES
             (AStr DataVars.CHIP_SIZE_COORDINATES_STR) L in
  let L := set_attr DataVars.CHIP_SIZE_HEIGHT DataVars.DESCRIPTION
             (AStr DataVars.CHIP_SIZE_HEIGHT_STR) L in
  let dsl := drop_vars DataVars.CHIP_SIZE_HEIGHT <$> dsl in
  chip_size_width ← mapM (λ d, ds_array d DataVars.CHIP_SIZE_WIDTH) dsl ≫= concat;
  let L := <[DataVars.CHIP_SIZE_WIDTH := chip_size_width]> L in
  let dsl := drop_vars DataVars.CHIP_SIZE_WIDTH <$> dsl in
  interp_mask ← mapM (λ d, ds_array d DataVars.INTERP_MASK) dsl ≫= concat;
  let L := <[DataVars.INTERP_MASK := interp_mask]> L in
  let dsl := drop_vars DataVars.INTERP_MASK <$> dsl in
  (* v_error *)
  v_error ← mapM (λ d, get_data_var L d DataVars.V_ERROR) dsl ≫= concat;
  let L := <[DataVars.V_ERROR := v_error]> L in
  let L := if is_first_write
           then set_attr_absent DataVars.V_ERROR DataVars.MISSING_VALUE_ATTR
                  DataVars.MISSING_VALUE L
           else L in
  Ok (mk_cube_table (dates self) L).

(** [encoding_settings]: the [_FillValue] forced on seven variables when
    the store is created. *)
Definition encoding_settings : gmap string (gmap string attr_value) :=
  list_to_map
    [(DataVars.V, {[ DataVars.FILL_VALUE_ATTR := DataVars.MISSING_VALUE ]});
     (DataVars.MAP_SCALE_CORRECTED, {[ DataVars.FILL_VALUE_ATTR := DataVars.MISSING_BYTE ]});
     (DataVars.VX, {[ DataVars.FILL_VALUE_ATTR := DataVars.MISSING_VALUE ]});
     (DataVars.VX_ERROR, {[ DataVars.FILL_VALUE_ATTR := DataVars.MISSING_VALUE ]});
     (DataVars.VY, {[ DataVars.FILL_VALUE_ATTR := DataVars.MISSING_VALUE ]});
     (DataVars.VY_ERROR, {[ DataVars.FILL_VALUE_ATTR := DataVars.MISSING_VALUE ]});
     (DataVars.V_ERROR, {[ DataVars.FILL_VALUE_ATTR := DataVars.MISSING_VALUE ]})].

(** ** The Zarr store *)

(** The store at [output_dir]: the time coordinate, the variables with
    their attributes, and the encoding fixed for each variable. *)
Record zarr_store : Type := mk_zarr_store {
  zs_mid_date : list (option datetime);
  zs_vars : gmap string cube_var;
  zs_encoding : gmap string (gmap string attr_value)
}.

(** Modelled from the spec: the store collaborator ([xr.Dataset.to_zarr],
    a library outside the repository).  Create mode writes the table as a
    new store with the given per-variable encoding and refuses a target
    that exists. *)
Definition to_zarr_create (table : cube_table)
    (encoding : gmap string (gmap string attr_value))
    (target : option zarr_store) : result zarr_store :=
  match target with
  | Some _ => Raise ValueError
  | None => Ok (mk_zarr_store (mid_date_coord table) (cube_vars table) encoding)
  end.

(** Modelled from the spec: the store collaborator, append mode.  The
    slices of the table are appended along [mid_date]; the existing
    variables keep their attributes and encoding.  A table that asserts
    [missing_value] again is refused (the ValueError quoted in
    [combine_layers]). *)
Definition to_zarr_append (table : cube_table) (target : option zarr_store)
  : result zarr_store :=
  match target with
  | None => Ok (mk_zarr_store (mid_date_coord table) (cube_vars table) ∅)
  | Some z =>
      if decide (map_Exists (λ name cv,
                   is_Some (zs_vars z !! name)
                   ∧ is_Some (cv_attrs cv !! DataVars.MISSING_VALUE_ATTR))
                   (cube_vars table))
      then Raise ValueError
      else Ok (mk_zarr_store
                 (zs_mid_date z ++ mid_date_coord table)
                 (union_with (λ zv tv,
                    Some (mk_cube_var (cv_attrs zv) (cv_slices zv ++ cv_slices tv)))
                    (zs_vars z) (cube_vars table))
                 (zs_encoding z))
  end.

(** What the program has done outside the object: the store at
    [output_dir] and the granules opened so far. *)
Record World : Type := mk_World {
  store : option zarr_store;
  opened : list string
}.

(** A method call returns a value with the object and the world after it,
    or raises, and then the world is what remains to be observed. *)
Inductive outcome (A : Type) : Type :=
| Returned (a : A) (self : ITSCube) (w : World)
| Raised (e : exn) (w : World).
Arguments Returned {A} a self w.
Arguments Raised {A} e w.

Definition clear_vars (self : ITSCube) : ITSCube :=
  mk_ITSCube (projection self) (x self) (y self) [] [] []
    (num_urls_from_api self) (skipped_proj_granules self)
    (skipped_empty_granules self) (skipped_double_granules self) None.

Definition clear (self : ITSCube) : ITSCube :=
  mk_ITSCube (projection self) (x self) (y self) [] [] [] None ∅ [] [] None.

Definition combine_layers (self : ITSCube) (is_first_write : bool) (w : World)
  : outcome unit :=
  match build_layers self is_first_write with
  | Raise e => Raised e w
  | Ok table =>
      match (if is_first_write
             then to_zarr_create table encoding_settings (store w)
             else to_zarr_append table (store w)) with
      | Raise e => Raised e w
      | Ok z => Returned () (clear_vars self) (mk_World (Some z) (opened w))
      end
  end.

(** [ITSCube.format_stats] prints percentages of [num_urls_from_api]. *)
Definition format_stats (self : ITSCube) : result unit :=
  match num_urls_from_api self with
  | None => Raise TypeError
  | Some O => Raise ZeroDivisionError
  | Some (S _) => Ok ()
  end.

(** ** Granule search ([ITSCube.request_granules]) *)

(** [l[:n]] *)
Definition py_slice_to {A} (l : list A) (n : Z) : list A :=
  if n <? 0 then take (Z.to_nat (Z.of_nat (length l) + n)) l
  else take (Z.to_nat n) l.

(** [search_result] is the list of the ['url'] entries the search
    collaborator returns for the query. *)
Definition request_granules (self : ITSCube) (search_result : list string)
    (num_granules : option Z) : result (list string) * ITSCube :=
  let found_urls := search_result in
  if decide (length found_urls = 0%nat) then (Raise RuntimeError, self)
  else
    let found_urls :=
      match num_granules with
      | Some n => if decide (n = 0) then found_urls else py_slice_to found_urls n
      | None => found_urls
      end in
    skip_duplicate_granules self found_urls.

(** ** The drivers ([ITSCube.create], [ITSCube.create_parallel]) *)

Section Drivers.
(** The batch size, and the decode collaborator that opens a granule. *)
Variable NUM_GRANULES_TO_WRITE : nat.
Variable open_dataset : string → result dataset.

(** [ITSCube.read_s3_dataset]: open the granule and pre-process it. *)
Definition read_s3_dataset (self : ITSCube) (each_url : string) : result (list pyval) :=
  open_dataset each_url ≫= λ ds, preprocess_dataset self ds each_url.

(** The loop of [create] over [found_urls]; it returns [is_first_write]. *)
Fixpoint create_loop (self : ITSCube) (w : World) (is_first_write : bool)
    (found_urls : list string) : outcome bool :=
  match found_urls with
  | [] => Returned is_first_write self w
  | each_url :: rest =>
      let w := mk_World (store w) (opened w ++ [each_url]) in
      match read_s3_dataset self each_url ≫= add_layer_star self with
      | Raise e => Raised e w
      | Ok self =>
          if decide (length (urls self) = NUM_GRANULES_TO_WRITE) then
            match combine_layers self is_first_write w with
            | Raised e w => Raised e w
            | Returned _ self w => create_loop self w false rest
            end
          else create_loop self w is_first_write rest
      end
  end.

Definition create (self : ITSCube) (w : World) (search_result : list string)
    (num_granules : option Z) : outcome (list string) :=
  (* shutil.rmtree(output_dir) when it exists *)
  let w := mk_World None (opened w) in
  let self := clear self in
  match request_granules self search_result num_granules with
  | (Raise e, _) => Raised e w
  | (Ok found_urls, self) =>
      match create_loop self w true found_urls with
      | Raised e w => Raised e w
      | Returned is_first_write self w =>
          match (if decide (length (urls self) ≠ 0%nat)
                 then combine_layers self is_first_write w
                 else Returned () self w) with
          | Raised e w => Raised e w
          | Returned _ self w =>
              match format_stats self with
              | Raise e => Raised e w
              | Ok _ => Returned found_urls self w
              end
          end
      end
  end.

(** [for each_ds in results[0]: self.add_layer( *each_ds)] *)
Fixpoint add_layers (self : ITSCube) (results : list (list pyval)) : result ITSCube :=
  match results with
  | [] => Ok self
  | each_ds :: rest => add_layer_star self each_ds ≫= λ self, add_layers self rest
  end.

(** The [while] loop of [create_parallel]; every iteration but a raising
    one takes at least one granule off [num_to_process], and [fuel] bounds
    the number of iterations.  The granules of a batch are all read before
    any of them is added. *)
Fixpoint create_parallel_loop (fuel : nat) (self : ITSCube) (w : World)
    (is_first_write : bool) (start num_to_process : nat) (found_urls : list string)
  : option (outcome unit) :=
  if decide (num_to_process = 0)%nat then Some (Returned () self w)
  else
    match fuel with
    | O => None
    | S fuel =>
        let num_tasks :=
          if decide (NUM_GRANULES_TO_WRITE < num_to_process)%nat
          then NUM_GRANULES_TO_WRITE else num_to_process in
        let files := take num_tasks (drop start found_urls) in
        let w := mk_World (store w) (opened w ++ files) in
        match mapM (read_s3_dataset self) files ≫= add_layers self with
        | Raise e => Some (Raised e w)
        | Ok self =>
            match combine_layers self is_first_write w with
            | Raised e w => Some (Raised e w)
            | Returned _ self w =>
                let is_first_write :=
                  if decide (start = 0)%nat then false else is_first_write in
                create_parallel_loop fuel self w is_first_write
                  (start + num_tasks) (num_to_process - num_tasks) found_urls
            end
        end
    end.

Definition create_parallel (self : ITSCube) (w : World) (search_result : list string)
    (num_granules : option Z) : option (outcome (list string)) :=
  let w := mk_World None (opened w) in
  let self := clear self in
  match request_granules self search_result num_granules with
  | (Raise e, _) => Some (Raised e w)
  | (Ok found_urls, self) =>
      match create_parallel_loop (length found_urls) self w true 0
              (length found_urls) found_urls with
      | None => None
      | Some (Raised e w) => Some (Raised e w)
      | Some (Returned _ self w) =>
          match format_stats self with
          | Raise e => Some (Raised e w)
          | Ok _ => Some (Returned found_urls self w)
          end
      end
  end.

End Drivers.

(** *** Vocabulary of the statements about pre-processing *)

(** The part of a granule inside the region of the cube. *)
Definition region_of (self : ITSCube) (ds : dataset) : dataset :=
  where_drop (in_bounds (x self) <$> ds_x ds) (in_bounds (y self) <$> ds_y ds) ds.

(** The granule has a non-missing cell of [v] inside the region. *)
Definition has_data_in_region (self : ITSCube) (ds : dataset) : bool :=
  match data_vars (region_of self ds) !! DataVars.V with
  | Some v => any_notnull (values v)
  | None => false
  end.

(** *** Vocabulary of the statements about the fill values *)

(** A [missing_value] attribute of a variable of the table is one that a
    variable of a layer of the batch carried. *)
Definition carried_by_layer (l : list dataset) (cv : cube_var) : Prop :=
  ∀ a, cv_attrs cv !! DataVars.MISSING_VALUE_ATTR = Some a →
       ∃ d name v, d ∈ l ∧ data_vars d !! name = Some v
                   ∧ attrs v !! DataVars.MISSING_VALUE_ATTR = Some a.

(** The variable [n] of the table has a [missing_value] attribute. *)
Definition has_missing_value (n : string) (L : gmap string cube_var) : Prop :=
  ∃ cv, L !! n = Some cv ∧ is_Some (cv_attrs cv !! DataVars.MISSING_VALUE_ATTR).

(** The variables of the datasets [dsl] are variables of datasets of [l]. *)
Definition sublayers (dsl l : list dataset) : Prop :=
  ∀ d' name v, d' ∈ dsl → data_vars d' !! name = Some v →
               ∃ d, d ∈ l ∧ data_vars d !! name = Some v.

(** No store, or a store with the encoding of its creation. *)
Definition store_fixed (w : World) : Prop :=
  store w = None ∨ ∃ z, store w = Some z ∧ zs_encoding z = encoding_settings.

(** What the drivers maintain between writes: once [is_first_write] is
    false there is a store with the encoding of its creation. *)
Definition write_state (is_first_write : bool) (w : World) : Prop :=
  if is_first_write then store_fixed w
  else ∃ z, store w = Some z ∧ zs_encoding z = encoding_settings.

(** *** Vocabulary of the statements about duplicate resolution *)

(** The distinct elements of a list, each at the place of its first
    occurrence. *)
Fixpoint first_occurrences {A} `{EqDecision A} (l : list A) : list A :=
  match l with
  | [] => []
  | a :: l' => a :: filter (λ b, b ≠ a) (first_occurrences l')
  end.

(** [dominates get_dates u v]: both processing dates of [u] are at least
    those of [v], the test under which [u] replaces [v]. *)
Definition dominates (get_dates : string → result granule_dates) (u v : string) : Prop :=
  ∃ pu pv, proc_of get_dates u = Ok pu ∧ proc_of get_dates v = Ok pv
           ∧ pv.1 ≤ pu.1 ∧ pv.2 ≤ pu.2.

(** Among the names of a list that share a mid-point key, the processing
    pairs are comparable and never tied. *)
Definition tie_free (get_dates : string → result granule_dates) (l : list string) : Prop :=
  ∀ u v, u ∈ l → v ∈ l → u ≠ v → mid_of get_dates u = mid_of get_dates v →
    (dominates get_dates u v ∨ dominates get_dates v u)
    ∧ ¬ (dominates get_dates u v ∧ dominates get_dates v u).

(** What the loop maintains, for the names [P] processed so far. *)
Record dedup_inv (get_dates : string → result granule_dates)
    (P : list string) (st : dedup_vars) : Prop := mk_dedup_inv {
  inv_len : length (url_mid_dates st) = length (keep_urls st);
  inv_nodup : NoDup (url_mid_dates st);
  inv_keep : ∀ i k, keep_urls st !! i = Some k →
    k ∈ P ∧ ∃ m, mid_of get_dates k = Ok m ∧ url_mid_dates st !! i = Some m;
  inv_perm : P ≡ₚ keep_urls st ++ skipped st;
  inv_order : ∃ ms, Forall2 (λ u m, mid_of get_dates u = Ok m) P ms
                    ∧ url_mid_dates st = first_occurrences ms;
  inv_acq : ∀ u, u ∈ P → ∃ i k m a,
    mid_of get_dates u = Ok m ∧ url_mid_dates st !! i = Some m
    ∧ keep_urls st !! i = Some k
    ∧ acq_of get_dates u = Ok a ∧ acq_of get_dates k = Ok a
}.

(** The kept name of a key dominates every processed name of that key. *)
Definition dom_inv (get_dates : string → result granule_dates)
    (P : list string) (st : dedup_vars) : Prop :=
  ∀ v, v ∈ P → ∃ i k m,
    mid_of get_dates v = Ok m ∧ url_mid_dates st !! i = Some m
    ∧ keep_urls st !! i = Some k ∧ dominates get_dates k v.

(** All the processing dates of a list of names are different. *)
Definition proc_dates_distinct (get_dates : string → result granule_dates)
    (l : list string) : Prop :=
  ∃ ps, Forall2 (λ u p, proc_of get_dates u = Ok p) l ps
        ∧ NoDup (ps ≫= λ p, [p.1; p.2]).

(** *** Sample granules *)

Definition cube0 : ITSCube :=
  mk_ITSCube "32628" (mk_Bounds 0 10) (mk_Bounds 0 10) [] [] [] None ∅ [] [] None.

(** Image 1 acquired 2020-01-01 and image 2 acquired 2020-01-10, in four
    processing versions and, for [gC], another pair of acquisitions. *)
Definition gA : string :=
  "LC08_L1TP_011002_20200101_20200201_01_T1_X_LC08_L1TP_011002_20200110_20200201_01_T1_G0240V01_P038.nc".
Definition gB : string :=
  "LC08_L1TP_011002_20200101_20200205_01_T1_X_LC08_L1TP_011002_20200110_20200205_01_T1_G0240V01_P038.nc".
Definition gX : string :=
  "LC08_L1TP_011002_20200101_20200201_01_T1_X_LC08_L1TP_011002_20200110_20200210_01_T1_G0240V01_P038.nc".
Definition gY : string :=
  "LC08_L1TP_011002_20200101_20200202_01_T1_X_LC08_L1TP_011002_20200110_20200205_01_T1_G0240V01_P038.nc".
Definition gC : string :=
  "LC08_L1TP_011002_20200301_20200401_01_T1_X_LC08_L1TP_011002_20200210_20200402_01_T1_G0240V01_P038.nc".

(** Acquisitions of 2019-12-31 and 2020-01-11: the half-way date of [gA],
    another separation. *)
Definition gD : string :=
  "LC08_L1TP_011002_20191231_20200201_01_T1_X_LC08_L1TP_011002_20200111_20200201_01_T1_G0240V01_P038.nc".

(** Granule references whose acquisition times carry a time of day: ["a"]
    and ["b"] are one hour apart on image 1 and share the mid-point key. *)
Definition hourly_dates (u : string) : result granule_dates :=
  if decide (u = "a")
  then Ok (737427 * US_PER_DAY, 737500 * US_PER_DAY,
           737425 * US_PER_DAY, 737500 * US_PER_DAY)
  else if decide (u = "b")
  then Ok (737427 * US_PER_DAY + 3600000000, 737500 * US_PER_DAY,
           737425 * US_PER_DAY, 737500 * US_PER_DAY)
  else Raise ValueError.

(** *** Sample layers *)

(** A granule on a 2 x 3 grid with coordinates x = 0, 5, 20 and y = 0, 5;
    the region of [cube0] covers the first two columns. *)
Definition sample_ds (epsg : Z) (center : string) (v : grid) : dataset :=
  let g : grid := [[Some 1; Some 2; Some 3]; [Some 4; Some 5; Some 6]] in
  mk_dataset (Some epsg) (Some center) (Some 16) [0; 5; 20] [0; 5]
    (list_to_map
       [("v", mk_data_var {[ "grid_mapping" := AStr "UTM_Projection" ]} v);
        ("vx", mk_data_var
                 (list_to_map [("stable_count", AArr [100]);
                               ("stable_shift", AArr [7]);
                               ("vx_error", AArr [15; 25])]) g);
        ("vy", mk_data_var (list_to_map [("stable_shift", AArr [8])]) g);
        ("chip_size_height", mk_data_var ∅ g);
        ("chip_size_width", mk_data_var ∅ g);
        ("interp_mask", mk_data_var ∅ g)]).

(** Data inside the region. *)
Definition ds_ok : dataset :=
  sample_ds 32628 "20200105" [[Some 1; None; Some 9]; [None; None; None]].
(** Data outside the region only. *)
Definition ds_empty : dataset :=
  sample_ds 32628 "20200105" [[None; None; Some 9]; [None; None; None]].
(** No data in the region and a centre date in another format. *)
Definition ds_bad_date : dataset :=
  sample_ds 32628 "2020-01-05" [[None; None; Some 9]; [None; None; None]].
(** Another projection. *)
Definition ds_other : dataset :=
  sample_ds 32627 "20200105" [[Some 1; None; Some 9]; [None; None; None]].
(** A granule in a polar stereographic projection: no [UTM_Projection]. *)
Definition ds_polar : dataset :=
  mk_dataset None (Some "20200105") (Some 16) [0; 5; 20] [0; 5] (data_vars ds_ok).

Definition sample_open (u : string) : result dataset :=
  if decide (u = "g1") then Ok ds_ok
  else if decide (u = "g2") then Ok ds_other
  else if decide (u = "g3") then Ok ds_ok
  else if decide (u = "e1") then Ok ds_empty
  else Raise ValueError.

Definition world0 : World := mk_World None [].

(** One accepted layer, the store after it is written as first batch, and
    the world after the same layer is appended to that store. *)
Definition layered0 : ITSCube :=
  add_layer (clear cube0) false 32628 (Some 63713865600016000) "g1"
    (Some (region_of cube0 ds_ok)).

Definition stored0 : World :=
  match combine_layers layered0 true world0 with
  | Returned _ _ w => w
  | Raised _ w => w
  end.

Definition appended0 : World :=
  match combine_layers layered0 false stored0 with
  | Returned _ _ w => w
  | Raised _ w => w
  end.

(** ** The driver over local files ([ITSCube.create_from_local_no_api]) *)

(** [dir_listing] is what [glob.glob(dirpath + os.sep + '*.nc')] returns;
    the granules are opened by the decode collaborator and written in
    batches by the loop of [create]. *)
Definition create_from_local_no_api (NUM_GRANULES_TO_WRITE : nat)
    (open_dataset : string → result dataset) (self : ITSCube) (w : World)
    (dir_listing : list string) : outcome (list string) :=
  (* shutil.rmtree(output_dir) when it exists *)
  let w := mk_World None (opened w) in
  let self := clear self in
  match skip_duplicate_granules self dir_listing with
  | (Raise e, _) => Raised e w
  | (Ok found_urls, self) =>
      match create_loop NUM_GRANULES_TO_WRITE open_dataset self w true found_urls with
      | Raised e w => Raised e w
      | Returned is_first_write self w =>
          match (if decide (length (urls self) ≠ 0%nat)
                 then combine_layers self is_first_write w
                 else Returned () self w) with
          | Raised e w => Raised e w
          | Returned _ self w =>
              match format_stats self with
              | Raise e => Raised e w
              | Ok _ => Returned found_urls self w
              end
          end
      end
  end.

(** *** Vocabulary of the further statements *)

(** No processed name beats the kept name of its key on both processing
    dates without being matched by it. *)
Definition max_inv (get_dates : string → result granule_dates)
    (P : list string) (st : dedup_vars) : Prop :=
  ∀ v, v ∈ P → ∃ i k m,
    mid_of get_dates v = Ok m ∧ url_mid_dates st !! i = Some m
    ∧ keep_urls st !! i = Some k
    ∧ (dominates get_dates v k → dominates get_dates k v).

(** A file name under a directory or URL prefix. *)
Definition under (prefix name : string) : string :=
  String.append prefix (String "/" name).


(** Every variable of the dataset is a grid over its two coordinates: one
    row per [y] label, one cell per [x] label. *)
Definition well_shaped (d : dataset) : Prop :=
  map_Forall (λ _ v, length (values v) = length (ds_y d)
                     ∧ Forall (λ row, length row = length (ds_x d)) (values v))
             (data_vars d).

(** [sum([len(each) for each in self.skipped_proj_granules.values()])], the
    number [format_stats] reports for the wrong projections. *)
Definition sum_projs (self : ITSCube) : nat :=
  map_fold (λ _ each n, (length each + n)%nat) 0%nat (skipped_proj_granules self).

(** The number of time slices of the store at [output_dir]. *)
Definition stored_count (w : World) : nat :=
  match store w with
  | Some z => length (zs_mid_date z)
  | None => 0%nat
  end.

(** The layers collected, their dates and their URLs go together. *)
Definition aligned (self : ITSCube) : Prop :=
  length (ds self) = length (urls self) ∧ length (dates self) = length (urls self).

(** *** Sample runs *)

(** A decode collaborator over the sample granule names: [gB] has data in
    the region, [gC] another projection, [gD] no data in the region. *)
Definition granule_open (u : string) : result dataset :=
  if decide (u = gB) then Ok ds_ok
  else if decide (u = gC) then Ok ds_other
  else if decide (u = gD) then Ok ds_empty
  else Raise ValueError.

(** The object and the world after [create] on four names, in batches of
    two. *)
Definition after_create0 : ITSCube * World :=
  match create 2 granule_open cube0 world0 [gA; gB; gC; gD] None with
  | Returned _ self w => (self, w)
  | Raised _ w => (cube0, w)
  end.

(** The same after [create_parallel], in one batch of three. *)
Definition after_create_parallel0 : ITSCube * World :=
  match create_parallel 3 granule_open cube0 world0 [gA; gB; gC; gD] None with
  | Some (Returned _ self w) => (self, w)
  | Some (Raised _ w) => (cube0, w)
  | None => (cube0, world0)
  end.

(** The table of the first batch made of the one layer of [layered0]. *)
Definition table0 : cube_table :=
  match build_layers layered0 true with
  | Ok t => t
  | Raise _ => mk_cube_table [] ∅
  end.

(** The variable [n] of the table is there, and its attribute [key] is
    [o] (None: it has no such attribute). *)
Definition attr_at (n key : string) (o : option attr_value)
    (L : gmap string cube_var) : Prop :=
  ∃ cv, L !! n = Some cv ∧ cv_attrs cv !! key = o.

(** The variable [n] of the table is there, and its slice [i] is [s]. *)
Definition slice_at (n : string) (i : nat) (s : slice)
    (L : gmap string cube_var) : Prop :=
  ∃ cv, L !! n = Some cv ∧ cv_slices cv !! i = Some s.

(** Slice [i] of the variable [n] of the table is what
    [get_data_var_attr] returns for the attribute [key] of the variable
    [var] of the layer [d], with the default [dflt]. *)
Definition attr_slice_of (t : cube_table) (i : nat) (d : dataset)
    (n var key : string) (dflt : option attr_value) : Prop :=
  ∃ a, get_data_var_attr d var key dflt = Ok a
       ∧ slice_at n i (SVal a) (cube_vars t).

(** The decode collaborator over the files of a directory. *)
Definition local_open (u : string) : result dataset := granule_open (basename u).

(** The object and the world after [create_from_local_no_api] on a
    directory of four granules, in batches of two. *)
Definition after_local0 : ITSCube * World :=
  match create_from_local_no_api 2 local_open cube0 world0
          [under "data" gA; under "data" gB; under "data" gC; under "data" gD] with
  | Returned _ self w => (self, w)
  | Raised _ w => (cube0, w)
  end.

(** The [x] and the [y] labels of a batch of layers: the union of the
    labels of its layers, on which [xr.concat] aligns them. *)
Definition batch_x (l : list dataset) : gset Z :=
  ⋃ ((λ d, list_to_set (ds_x d)) <$> l).
Definition batch_y (l : list dataset) : gset Z :=
  ⋃ ((λ d, list_to_set (ds_y d)) <$> l).
(** * Properties *)

(** ** Lists *)

Lemma py_index_Some {A} `{EqDecision A} (a : A) (l : list A) (i : nat) :
  py_index a l = Some i → l !! i = Some a.
Proof.
  revert i. induction l as [|b l IH]; intros i; simpl; [done|].
  destruct (decide (a = b)) as [->|Hne].
  - intros [= <-]. done.
  - destruct (py_index a l) as [j|] eqn:E; simpl; [|done].
    intros [= <-]. simpl. by apply IH.
Qed.

Lemma py_index_None {A} `{EqDecision A} (a : A) (l : list A) :
  py_index a l = None ↔ a ∉ l.
Proof.
  induction l as [|b l IH]; simpl.
  - split; [intros _; apply not_elem_of_nil | done].
  - destruct (decide (a = b)) as [->|Hne].
    + split; [done|]. intros H. exfalso. apply H. left.
    + rewrite not_elem_of_cons. destruct (py_index a l); simpl.
      * split; [done|]. intros [_ H]. apply IH in H. done.
      * split; [|done]. intros _. split; [done|]. by apply IH.
Qed.

Lemma py_index_NoDup {A} `{EqDecision A} (a : A) (l : list A) (i : nat) :
  NoDup l → l !! i = Some a → py_index a l = Some i.
Proof.
  intros Hnd Hi.
  destruct (py_index a l) as [j|] eqn:E.
  - apply py_index_Some in E. f_equal. eapply NoDup_lookup; eauto.
  - apply py_index_None in E. exfalso. apply E. eapply list_elem_of_lookup_2; eauto.
Qed.

Lemma first_occurrences_elem {A} `{EqDecision A} (a : A) (l : list A) :
  a ∈ first_occurrences l ↔ a ∈ l.
Proof.
  induction l as [|b l IH]; simpl; [done|].
  rewrite !elem_of_cons, list_elem_of_filter, IH.
  split.
  - intros [Heq|[_ Hin]]; [by left | by right].
  - intros [Heq|Hin]; [by left|].
    destruct (decide (a = b)) as [Heq|Hne]; [by left | by right].
Qed.

Lemma first_occurrences_snoc {A} `{EqDecision A} (l : list A) (a : A) :
  first_occurrences (l ++ [a]) =
  if decide (a ∈ l) then first_occurrences l else first_occurrences l ++ [a].
Proof.
  induction l as [|b l IH].
  - simpl. destruct (decide (a ∈ [])) as [Hin|Hnin]; [|done]. by apply elem_of_nil in Hin.
  - change (first_occurrences ((b :: l) ++ [a]))
      with (b :: filter (λ c, c ≠ b) (first_occurrences (l ++ [a]))).
    rewrite IH. simpl first_occurrences.
    destruct (decide (a ∈ l)) as [Hin|Hnin].
    + rewrite decide_True by (by right). done.
    + rewrite filter_app.
      destruct (decide (a = b)) as [->|Hne].
      * rewrite decide_True by left.
        rewrite (filter_cons_False _ b []) by (intros Hb; by apply Hb).
        rewrite filter_nil. by rewrite app_nil_r.
      * rewrite decide_False by (rewrite elem_of_cons; intros [?|?]; done).
        rewrite (filter_cons_True _ a []) by done. done.
Qed.

Lemma first_occurrences_NoDup {A} `{EqDecision A} (l : list A) :
  NoDup (first_occurrences l).
Proof.
  induction l as [|b l IH]; simpl; [constructor|].
  constructor.
  - rewrite list_elem_of_filter. intros [Hb _]. by apply Hb.
  - by apply NoDup_filter.
Qed.

(** ** Duplicate resolution *)

Section DedupFacts.
Variable get_dates : string → result granule_dates.

Local Abbreviation step := (dedup_step get_dates).
Local Abbreviation loop := (dedup_loop get_dates).
Local Abbreviation mid := (mid_of get_dates).
Local Abbreviation acq := (acq_of get_dates).
Local Abbreviation proc := (proc_of get_dates).

Lemma mid_of_Ok (u : string) (m : datetime) :
  mid u = Ok m ↔ ∃ d, get_dates u = Ok d ∧ mid_date_of d = Ok m.
Proof.
  unfold mid_of. destruct (get_dates u) as [d|e]; simpl.
  - split; [eauto|]. by intros (d' & [= <-] & ?).
  - split; [done|]. by intros (d' & ? & ?).
Qed.

(** The cases of one iteration that does not raise. *)
Lemma dedup_step_Ok (st st' : dedup_vars) (u : string) :
  step st u = Ok st' →
  ∃ d m, get_dates u = Ok d ∧ mid_date_of d = Ok m ∧
    ((py_index m (url_mid_dates st) = None
      ∧ st' = mk_dedup_vars (url_mid_dates st ++ [m]) (keep_urls st ++ [u]) (skipped st))
     ∨ ∃ i k d', py_index m (url_mid_dates st) = Some i
         ∧ keep_urls st !! i = Some k ∧ get_dates k = Ok d'
         ∧ d.1.1.1 = d'.1.1.1 ∧ d.1.2 = d'.1.2
         ∧ ((d'.1.1.2 ≤ d.1.1.2 ∧ d'.2 ≤ d.2
             ∧ st' = mk_dedup_vars (url_mid_dates st) (<[i := u]> (keep_urls st))
                       (skipped st ++ [k]))
            ∨ (¬ (d'.1.1.2 ≤ d.1.1.2 ∧ d'.2 ≤ d.2)
               ∧ st' = mk_dedup_vars (url_mid_dates st) (keep_urls st)
                         (skipped st ++ [u])))).
Proof.
  unfold dedup_step. destruct (get_dates u) as [d|e] eqn:Ed; simpl; [|done].
  destruct d as [[[a1 p1] a2] p2].
  destruct (mid_date_of (a1, p1, a2, p2)) as [m|e] eqn:Em; simpl; [|done].
  intros H. exists (a1, p1, a2, p2), m. split; [done|]. split; [done|].
  destruct (py_index m (url_mid_dates st)) as [i|] eqn:Ei.
  - right. unfold getitem in H.
    destruct (keep_urls st !! i) as [k|] eqn:Ek; simpl in H; [|done].
    destruct (get_dates k) as [d'|e] eqn:Ed'; simpl in H; [|done].
    destruct d' as [[[b1 q1] b2] q2].
    exists i, k, (b1, q1, b2, q2). simpl.
    destruct (bool_decide (a1 ≠ b1) || bool_decide (a2 ≠ b2)) eqn:Eacq; [done|].
    apply orb_false_iff in Eacq as [Ha1 Ha2].
    apply bool_decide_eq_false in Ha1, Ha2.
    assert (a1 = b1) by (destruct (decide (a1 = b1)); [done | by exfalso; apply Ha1]).
    assert (a2 = b2) by (destruct (decide (a2 = b2)); [done | by exfalso; apply Ha2]).
    do 5 (split; [done|]).
    destruct ((q1 <=? p1) && (q2 <=? p2)) eqn:Ep; injection H as <-.
    + left. apply andb_true_iff in Ep as [?%Z.leb_le ?%Z.leb_le]. done.
    + right. split; [|done]. intros [?%Z.leb_le ?%Z.leb_le].
      apply andb_false_iff in Ep as [Ep|Ep]; congruence.
  - left. by injection H as <-.
Qed.

Lemma dedup_loop_app (st : dedup_vars) (l1 l2 : list string) :
  loop st (l1 ++ l2) =
  match loop st l1 with
  | (st', None) => loop st' l2
  | r => r
  end.
Proof.
  revert st. induction l1 as [|u l1 IH]; intros st; simpl; [done|].
  destruct (step st u); [apply IH | done].
Qed.

Lemma acq_of_Ok (u : string) (d : granule_dates) :
  get_dates u = Ok d → acq u = Ok (d.1.1.1, d.1.2).
Proof. unfold acq_of. by intros ->. Qed.

Lemma proc_of_Ok (u : string) (d : granule_dates) :
  get_dates u = Ok d → proc u = Ok (d.1.1.2, d.2).
Proof. unfold proc_of. by intros ->. Qed.

Lemma insert_snoc_Permutation {A} (l : list A) (i : nat) (k u : A) :
  l !! i = Some k → <[i := u]> l ++ [k] ≡ₚ l ++ [u].
Proof.
  intros Hi.
  rewrite <- (take_drop_middle l i k Hi) at 2.
  rewrite insert_take_drop by (by eapply lookup_lt_Some).
  rewrite <- !app_assoc. simpl.
  apply Permutation_app_head.
  rewrite <- !Permutation_cons_append. constructor.
Qed.

Lemma dedup_inv_init : dedup_inv get_dates [] dedup_init.
Proof.
  split; simpl; try done.
  - constructor.
  - exists []. split; [constructor | done].
  - intros u Hu. by apply elem_of_nil in Hu.
Qed.

(** One iteration preserves the invariant. *)
Lemma dedup_step_inv (P : list string) (st st' : dedup_vars) (u : string) :
  dedup_inv get_dates P st → step st u = Ok st' →
  dedup_inv get_dates (P ++ [u]) st'.
Proof.
  intros [Hlen Hnd Hkeep Hperm (ms & Hms & Hfo) Hacq] Hstep.
  apply dedup_step_Ok in Hstep as (d & m & Hd & Hm & Hcase).
  assert (Hmid : mid u = Ok m) by (apply mid_of_Ok; eauto).
  assert (Hmem : m ∈ url_mid_dates st ↔ m ∈ ms)
    by (rewrite Hfo; apply first_occurrences_elem).
  assert (Hms' : Forall2 (λ u m, mid u = Ok m) (P ++ [u]) (ms ++ [m]))
    by (apply Forall2_app; [done | by repeat constructor]).
  destruct Hcase as [[Hnone ->] | (i & k & d' & Hi & Hk & Hd' & Ha1 & Ha2 & Hcase)].
  - (* a new mid-point key *)
    apply py_index_None in Hnone.
    split; simpl.
    + rewrite !length_app. simpl. lia.
    + apply NoDup_app. split; [done|]. split; [|apply NoDup_singleton].
      intros z Hz ->%list_elem_of_singleton. done.
    + intros j k' Hj. apply lookup_app_Some in Hj as [Hj | [Hge Hj]].
      * destruct (Hkeep j k' Hj) as [Hin (m' & Hm' & Hj')].
        split; [apply elem_of_app; by left|].
        exists m'. split; [done|]. by apply lookup_app_l_Some.
      * apply list_lookup_singleton_Some in Hj as [Hj <-].
        split; [apply elem_of_app; right; apply list_elem_of_singleton; done|].
        exists m. split; [done|].
        replace j with (length (url_mid_dates st)) by lia.
        apply list_lookup_middle. done.
    + rewrite Hperm. rewrite <- !app_assoc. apply Permutation_app_head.
      apply Permutation_app_comm.
    + exists (ms ++ [m]). split; [done|].
      rewrite first_occurrences_snoc, decide_False by (by rewrite <- Hmem).
      by rewrite Hfo.
    + intros v [Hv | ->%list_elem_of_singleton]%elem_of_app.
      * destruct (Hacq v Hv) as (j & k' & m' & a & ? & ? & ? & ? & ?).
        exists j, k', m', a. repeat split; try done; by apply lookup_app_l_Some.
      * exists (length (url_mid_dates st)), u, m, (d.1.1.1, d.1.2).
        repeat split; try done; try (by apply acq_of_Ok).
        -- by apply list_lookup_middle.
        -- rewrite Hlen. by apply list_lookup_middle.
  - (* a key seen before *)
    pose proof (py_index_Some _ _ _ Hi) as Hmi.
    assert (Hfo' : url_mid_dates st = first_occurrences (ms ++ [m])).
    { rewrite first_occurrences_snoc, decide_True; [done|].
      apply Hmem. by eapply list_elem_of_lookup_2. }
    assert (Hacqk : acq k = acq u).
    { rewrite (acq_of_Ok _ _ Hd), (acq_of_Ok _ _ Hd'). by rewrite Ha1, Ha2. }
    destruct Hcase as [(Hp1 & Hp2 & ->) | (Hnp & ->)]; split; simpl; try done.
    + by rewrite length_insert.
    + intros j k' Hj. destruct (decide (i = j)) as [<-|Hne].
      * rewrite list_lookup_insert_eq in Hj by (by eapply lookup_lt_Some).
        injection Hj as <-.
        split; [apply elem_of_app; right; by apply list_elem_of_singleton|].
        by exists m.
      * rewrite list_lookup_insert_ne in Hj by done.
        destruct (Hkeep j k' Hj) as [Hin ?].
        split; [apply elem_of_app; by left | done].
    + rewrite Hperm, <- !app_assoc.
      rewrite (Permutation_app_comm (skipped st) [u]).
      rewrite (Permutation_app_comm (skipped st) [k]).
      rewrite !app_assoc. apply Permutation_app_tail.
      symmetry. by apply insert_snoc_Permutation.
    + by exists (ms ++ [m]).
    + intros v [Hv | ->%list_elem_of_singleton]%elem_of_app.
      * destruct (Hacq v Hv) as (j & k' & m' & a & Hvm & Hjm & Hjk & Hva & Hka).
        destruct (decide (i = j)) as [<-|Hne].
        -- exists i, u, m', a. repeat split; try done.
           ++ apply list_lookup_insert_eq. by eapply lookup_lt_Some.
           ++ rewrite <- Hacqk. congruence.
        -- exists j, k', m', a. repeat split; try done.
           by rewrite list_lookup_insert_ne.
      * exists i, u, m, (d.1.1.1, d.1.2). repeat split; try done.
        -- apply list_lookup_insert_eq. by eapply lookup_lt_Some.
        -- by apply acq_of_Ok.
        -- by apply acq_of_Ok.
    + intros j k' Hj. destruct (Hkeep j k' Hj) as [Hin ?].
      split; [apply elem_of_app; by left | done].
    + rewrite Hperm. by rewrite app_assoc.
    + by exists (ms ++ [m]).
    + intros v [Hv | ->%list_elem_of_singleton]%elem_of_app.
      * by apply Hacq.
      * exists i, k, m, (d.1.1.1, d.1.2). repeat split; try done.
        -- by apply acq_of_Ok.
        -- rewrite Hacqk. by apply acq_of_Ok.
Qed.

(** A loop that ends without raising maintains the invariant. *)
Lemma dedup_loop_inv (l P : list string) (st st' : dedup_vars) :
  dedup_inv get_dates P st → loop st l = (st', None) →
  dedup_inv get_dates (P ++ l) st'.
Proof.
  revert P st. induction l as [|u l IH]; intros P st Hinv; simpl.
  - intros [= <-]. by rewrite app_nil_r.
  - destruct (step st u) as [st1|e] eqn:Hstep; [|done].
    intros Hloop. rewrite (assoc_L (++) P [u] l : P ++ u :: l = (P ++ [u]) ++ l).
    eapply IH; [|done]. by eapply dedup_step_inv.
Qed.

(** Names with one mid-point key that went through the loop have one
    acquisition pair. *)
Lemma dedup_inv_acq_agree (P : list string) (st : dedup_vars) (u v : string) :
  dedup_inv get_dates P st → u ∈ P → v ∈ P → mid u = mid v → acq u = acq v.
Proof.
  intros Hinv Hu Hv Hmid.
  destruct (inv_acq _ _ _ Hinv u Hu) as (i & k & m & a & Hum & Him & Hik & Hua & Hka).
  destruct (inv_acq _ _ _ Hinv v Hv) as (j & k' & m' & a' & Hvm & Hjm & Hjk & Hva & Hka').
  assert (m = m') as <- by congruence.
  assert (i = j) as <- by (eapply NoDup_lookup; [apply (inv_nodup _ _ _ Hinv)|done..]).
  congruence.
Qed.

(** When an iteration raises although the name has a mid-point key, the
    exception is the RuntimeError of line 264. *)
Lemma dedup_step_Raise (P : list string) (st : dedup_vars) (u : string) (e : exn) :
  dedup_inv get_dates P st → is_Ok (mid u) → step st u = Raise e →
  e = RuntimeError.
Proof.
  intros Hinv [m Hmid] Hstep.
  apply mid_of_Ok in Hmid as (d & Hd & Hm).
  unfold dedup_step in Hstep. rewrite Hd in Hstep. simpl in Hstep.
  destruct d as [[[a1 p1] a2] p2]. rewrite Hm in Hstep. simpl in Hstep.
  destruct (py_index m (url_mid_dates st)) as [i|] eqn:Ei; [|done].
  apply py_index_Some in Ei.
  destruct (lookup_lt_is_Some_2 (keep_urls st) i) as [k Hk].
  { rewrite <- (inv_len _ _ _ Hinv). by eapply lookup_lt_Some. }
  unfold getitem in Hstep. rewrite Hk in Hstep. simpl in Hstep.
  destruct (inv_keep _ _ _ Hinv i k Hk) as [_ (m' & Hkm & _)].
  apply mid_of_Ok in Hkm as (d' & Hd' & _).
  rewrite Hd' in Hstep. simpl in Hstep. destruct d' as [[[b1 q1] b2] q2].
  destruct (bool_decide (a1 ≠ b1) || bool_decide (a2 ≠ b2)); [congruence|].
  by destruct ((q1 <=? p1) && (q2 <=? p2)).
Qed.

(** An iteration returns when the name has a mid-point key and agrees on the
    acquisition pair with the processed names of that key. *)
Lemma dedup_step_total (P : list string) (st : dedup_vars) (u : string) :
  dedup_inv get_dates P st → is_Ok (mid u) →
  (∀ v, v ∈ P → mid v = mid u → acq v = acq u) →
  is_Ok (step st u).
Proof.
  intros Hinv [m Hmid] Hagree.
  destruct (step st u) as [st'|e] eqn:Hstep; [by eexists|]. exfalso.
  pose proof Hmid as Hmid'.
  apply mid_of_Ok in Hmid as (d & Hd & Hm).
  unfold dedup_step in Hstep. rewrite Hd in Hstep. simpl in Hstep.
  pose proof (acq_of_Ok _ _ Hd) as Hacqu.
  destruct d as [[[a1 p1] a2] p2]. rewrite Hm in Hstep. simpl in Hstep.
  destruct (py_index m (url_mid_dates st)) as [i|] eqn:Ei; [|done].
  apply py_index_Some in Ei.
  destruct (lookup_lt_is_Some_2 (keep_urls st) i) as [k Hk].
  { rewrite <- (inv_len _ _ _ Hinv). by eapply lookup_lt_Some. }
  unfold getitem in Hstep. rewrite Hk in Hstep. simpl in Hstep.
  destruct (inv_keep _ _ _ Hinv i k Hk) as [Hin (m' & Hkm & Him')].
  assert (m' = m) as -> by congruence.
  assert (Hacq : acq k = acq u) by (apply Hagree; [done | congruence]).
  apply mid_of_Ok in Hkm as (d' & Hd' & _).
  rewrite (acq_of_Ok _ _ Hd'), Hacqu in Hacq.
  rewrite Hd' in Hstep. simpl in Hstep. destruct d' as [[[b1 q1] b2] q2].
  simpl in Hacq. injection Hacq as <- <-.
  rewrite !bool_decide_eq_false_2 in Hstep by (intros Hne; by apply Hne).
  simpl in Hstep. by destruct ((q1 <=? p1) && (q2 <=? p2)).
Qed.

(** The loop returns on a list whose names all have a mid-point key and
    agree, key by key, on the acquisition pair. *)
Lemma dedup_loop_total (l P : list string) (st : dedup_vars) :
  dedup_inv get_dates P st →
  (∀ u, u ∈ l → is_Ok (mid u)) →
  (∀ u v, u ∈ P ++ l → v ∈ P ++ l → mid u = mid v → acq u = acq v) →
  ∃ st', loop st l = (st', None).
Proof.
  revert P st. induction l as [|u l IH]; intros P st Hinv Hok Hagree; simpl.
  - by eexists.
  - destruct (dedup_step_total P st u Hinv) as [st1 Hstep].
    + apply Hok. left.
    + intros v Hv Hmid. apply Hagree; [| |done].
      * apply elem_of_app. by left.
      * apply elem_of_app. right. left.
    + rewrite Hstep. apply (IH (P ++ [u])).
      * by eapply dedup_step_inv.
      * intros v Hv. apply Hok. by right.
      * rewrite <- app_assoc. apply Hagree.
Qed.

Lemma dedup_loop_Raise (l P : list string) (st st' : dedup_vars) (e : exn) :
  dedup_inv get_dates P st → (∀ u, u ∈ l → is_Ok (mid u)) →
  loop st l = (st', Some e) → e = RuntimeError.
Proof.
  revert P st. induction l as [|u l IH]; intros P st Hinv Hok; simpl; [done|].
  destruct (step st u) as [st1|e1] eqn:Hstep.
  - apply (IH (P ++ [u])); [by eapply dedup_step_inv|].
    intros v Hv. apply Hok. by right.
  - intros [= _ <-]. eapply dedup_step_Raise; [done| |done]. apply Hok. left.
Qed.

Lemma dedup_keep_NoDup (P : list string) (st : dedup_vars) :
  dedup_inv get_dates P st → NoDup (keep_urls st).
Proof.
  intros Hinv. apply NoDup_alt. intros i j k Hi Hj.
  destruct (inv_keep _ _ _ Hinv i k Hi) as [_ (m & Hm & Him)].
  destruct (inv_keep _ _ _ Hinv j k Hj) as [_ (m' & Hm' & Hjm)].
  assert (m' = m) as -> by congruence.
  eapply NoDup_lookup; [apply (inv_nodup _ _ _ Hinv)|done..].
Qed.

Lemma dedup_keep_mids (P : list string) (st : dedup_vars) :
  dedup_inv get_dates P st →
  Forall2 (λ k m, mid k = Ok m) (keep_urls st) (url_mid_dates st).
Proof.
  intros Hinv. apply Forall2_same_length_lookup_2.
  - symmetry. apply (inv_len _ _ _ Hinv).
  - intros i k m Hk Hm.
    destruct (inv_keep _ _ _ Hinv i k Hk) as [_ (m' & Hm' & Him)]. congruence.
Qed.

(** *** Dominance *)

Lemma dominates_refl (u : string) : is_Ok (mid u) → dominates get_dates u u.
Proof.
  intros [m (d & Hd & _)%mid_of_Ok].
  exists (d.1.1.2, d.2), (d.1.1.2, d.2).
  rewrite (proc_of_Ok _ _ Hd). simpl. repeat split; done || lia.
Qed.

Lemma dominates_trans (u v w : string) :
  dominates get_dates u v → dominates get_dates v w → dominates get_dates u w.
Proof.
  intros (pu & pv & Hu & Hv & ? & ?) (pv' & pw & Hv' & Hw & ? & ?).
  assert (pv' = pv) as -> by congruence.
  exists pu, pw. repeat split; done || lia.
Qed.

Lemma dedup_step_dom (P : list string) (st st' : dedup_vars) (u : string) :
  dedup_inv get_dates P st → dom_inv get_dates P st →
  (∀ v, v ∈ P → v ≠ u → mid v = mid u →
        dominates get_dates u v ∨ dominates get_dates v u) →
  step st u = Ok st' →
  dom_inv get_dates (P ++ [u]) st'.
Proof.
  intros Hinv Hdom Hcmp Hstep.
  apply dedup_step_Ok in Hstep as (d & m & Hd & Hm & Hcase).
  assert (Hmid : mid u = Ok m) by (apply mid_of_Ok; eauto).
  assert (Hrefl : dominates get_dates u u) by (apply dominates_refl; by eexists).
  destruct Hcase as [[Hnone ->] | (i & k & d' & Hi & Hk & Hd' & Ha1 & Ha2 & Hcase)].
  - intros v [Hv | ->%list_elem_of_singleton]%elem_of_app; simpl.
    + destruct (Hdom v Hv) as (j & k' & m' & ? & ? & ? & ?).
      exists j, k', m'. repeat split; try done; by apply lookup_app_l_Some.
    + exists (length (url_mid_dates st)), u, m. repeat split; try done.
      * by apply list_lookup_middle.
      * rewrite (inv_len _ _ _ Hinv). by apply list_lookup_middle.
  - pose proof (py_index_Some _ _ _ Hi) as Hmi.
    destruct Hcase as [(Hp1 & Hp2 & ->) | (Hnp & ->)]; simpl.
    + assert (Huk : dominates get_dates u k).
      { exists (d.1.1.2, d.2), (d'.1.1.2, d'.2).
        rewrite (proc_of_Ok _ _ Hd), (proc_of_Ok _ _ Hd'). done. }
      intros v [Hv | ->%list_elem_of_singleton]%elem_of_app; simpl.
      * destruct (Hdom v Hv) as (j & k' & m' & Hvm & Hjm & Hjk & Hkv).
        destruct (decide (i = j)) as [<-|Hne].
        -- exists i, u, m'. repeat split; try done.
           ++ apply list_lookup_insert_eq. by eapply lookup_lt_Some.
           ++ apply dominates_trans with k; [done|]. congruence.
        -- exists j, k', m'. repeat split; try done.
           by rewrite list_lookup_insert_ne.
      * exists i, u, m. repeat split; try done.
        apply list_lookup_insert_eq. by eapply lookup_lt_Some.
    + intros v [Hv | ->%list_elem_of_singleton]%elem_of_app; simpl.
      * by apply Hdom.
      * exists i, k, m. repeat split; try done.
        destruct (inv_keep _ _ _ Hinv i k Hk) as [Hin (m' & Hkm & Him')].
        assert (m' = m) as -> by congruence.
        assert (Hne : k ≠ u).
        { intros ->. apply Hnp. assert (d' = d) as -> by congruence. lia. }
        destruct (Hcmp k Hin Hne) as [Huk|Hku]; [congruence| |done].
        exfalso. apply Hnp. destruct Huk as (pu & pk & Hpu & Hpk & ? & ?).
        rewrite (proc_of_Ok _ _ Hd) in Hpu. rewrite (proc_of_Ok _ _ Hd') in Hpk.
        injection Hpu as <-. injection Hpk as <-. done.
Qed.

Lemma dedup_loop_dom (l P : list string) (st st' : dedup_vars) :
  dedup_inv get_dates P st → dom_inv get_dates P st →
  (∀ u v, u ∈ P ++ l → v ∈ P ++ l → u ≠ v → mid u = mid v →
          dominates get_dates u v ∨ dominates get_dates v u) →
  loop st l = (st', None) →
  dom_inv get_dates (P ++ l) st'.
Proof.
  revert P st. induction l as [|u l IH]; intros P st Hinv Hdom Hcmp; simpl.
  - intros [= <-]. by rewrite app_nil_r.
  - destruct (step st u) as [st1|e] eqn:Hstep; [|done].
    intros Hloop. rewrite (assoc_L (++) P [u] l : P ++ u :: l = (P ++ [u]) ++ l).
    eapply IH; [by eapply dedup_step_inv| | |done].
    + eapply dedup_step_dom; [done..| |done].
      intros v Hv Hne Hmid.
      destruct (Hcmp u v) as [?|?]; [| |done|done|by left|by right].
      * apply elem_of_app. right. left.
      * apply elem_of_app. by left.
    + by rewrite <- app_assoc.
Qed.

(** The kept names of a tie-free list: those that dominate every name of
    their key. *)
Lemma dedup_kept_char (l : list string) (st : dedup_vars) :
  tie_free get_dates l → loop dedup_init l = (st, None) →
  ∀ u, u ∈ keep_urls st ↔
       u ∈ l ∧ ∀ v, v ∈ l → mid v = mid u → dominates get_dates u v.
Proof.
  intros Htf Hloop.
  assert (Hinv : dedup_inv get_dates l st)
    by (apply (dedup_loop_inv l [] dedup_init); [apply dedup_inv_init | done]).
  assert (Hdom : dom_inv get_dates l st).
  { apply (dedup_loop_dom l [] dedup_init); [apply dedup_inv_init| | |done].
    - intros v Hv. by apply elem_of_nil in Hv.
    - simpl. intros u v Hu Hv Hne Hmid. by apply Htf. }
  intros u. split.
  - intros (i & Hi)%list_elem_of_lookup_1.
    destruct (inv_keep _ _ _ Hinv i u Hi) as [Hin (m & Hm & Him)].
    split; [done|]. intros v Hv Hmid.
    destruct (Hdom v Hv) as (j & k & m' & Hvm & Hjm & Hjk & Hkv).
    assert (m' = m) as -> by congruence.
    assert (i = j) as <- by (eapply NoDup_lookup; [apply (inv_nodup _ _ _ Hinv)|done..]).
    congruence.
  - intros [Hin Hmax].
    destruct (Hdom u Hin) as (i & k & m & Hum & Him & Hik & Hku).
    destruct (inv_keep _ _ _ Hinv i k Hik) as [Hkin (m' & Hkm & Him')].
    assert (m' = m) as -> by congruence.
    destruct (decide (k = u)) as [->|Hne]; [by eapply list_elem_of_lookup_2|].
    exfalso. destruct (Htf k u Hkin Hin Hne) as [_ Hnot]; [congruence|].
    apply Hnot. split; [done|]. apply Hmax; [done | congruence].
Qed.

End DedupFacts.

(** ** Dates read from file names *)

Lemma ymd2ord_range (year month day : Z) :
  1 ≤ year ≤ 9999 → 1 ≤ month ≤ 12 → 1 ≤ day ≤ days_in_month year month →
  1 ≤ ymd2ord year month day ≤ MAXORDINAL.
Proof.
  intros Hy Hm Hd.
  unfold ymd2ord, days_before_year, days_before_month, MAXORDINAL.
  unfold days_in_month in Hd.
  assert (Hleap : is_leap year = true → year ≤ 9996).
  { unfold is_leap. intros [H4%Z.eqb_eq _]%andb_true_iff.
    Z.to_euclidean_division_equations; lia. }
  assert (Hcases : month = 1 ∨ month = 2 ∨ month = 3 ∨ month = 4 ∨ month = 5
                   ∨ month = 6 ∨ month = 7 ∨ month = 8 ∨ month = 9
                   ∨ month = 10 ∨ month = 11 ∨ month = 12) by lia.
  destruct (is_leap year) eqn:El;
    [specialize (Hleap eq_refl) | clear Hleap];
    repeat (destruct Hcases as [-> | Hcases]); try subst month;
    simpl in Hd |- *; Z.to_euclidean_division_equations; lia.
Qed.

Lemma datetime_ymd_range (year month day : Z) (d : datetime) :
  datetime_ymd year month day = Ok d →
  ∃ n, 1 ≤ n ≤ MAXORDINAL ∧ d = n * US_PER_DAY.
Proof.
  unfold datetime_ymd.
  destruct ((1 <=? year) && (year <=? 9999) && (1 <=? month) && (month <=? 12)
            && (1 <=? day) && (day <=? days_in_month year month)) eqn:E; [|done].
  intros [= <-]. exists (ymd2ord year month day). split; [|done].
  repeat (apply andb_true_iff in E as [E ?]).
  apply ymd2ord_range; lia.
Qed.

Lemma strptime_Ymd_range (s : string) (d : datetime) :
  strptime_Ymd s = Ok d → ∃ n, 1 ≤ n ≤ MAXORDINAL ∧ d = n * US_PER_DAY.
Proof.
  unfold strptime_Ymd.
  destruct (match_Y s) as [[year rest]|]; [|done].
  destruct (first_md (match_m rest)) as [[[month day] rest']|]; [|done].
  destruct (decide (rest' = "")); [|done].
  apply datetime_ymd_range.
Qed.

(** Dates read from a file name are midnights of calendar days. *)
Lemma get_dates_from_filename_range (u : string) (a1 p1 a2 p2 : datetime) :
  get_dates_from_filename u = Ok (a1, p1, a2, p2) →
  ∃ n1 n2, 1 ≤ n1 ≤ MAXORDINAL ∧ 1 ≤ n2 ≤ MAXORDINAL
           ∧ a1 = n1 * US_PER_DAY ∧ a2 = n2 * US_PER_DAY.
Proof.
  unfold get_dates_from_filename.
  set (tokens := split "_" (basename u)).
  destruct (token tokens 3 ≫= strptime_Ymd) as [b1|] eqn:E1; simpl; [|done].
  destruct (token tokens 4 ≫= strptime_Ymd) as [q1|] eqn:E2; simpl; [|done].
  destruct (token tokens 11 ≫= strptime_Ymd) as [b2|] eqn:E3; simpl; [|done].
  destruct (token tokens 12 ≫= strptime_Ymd) as [q2|] eqn:E4; simpl; [|done].
  intros [= <- <- <- <-].
  destruct (token tokens 3) as [t1|]; simpl in E1; [|done].
  destruct (token tokens 11) as [t2|]; simpl in E3; [|done].
  apply strptime_Ymd_range in E1 as (n1 & ? & ?).
  apply strptime_Ymd_range in E3 as (n2 & ? & ?).
  by exists n1, n2.
Qed.

(** The mid-point key of two midnights: no overflow, and the closed form. *)
Lemma mid_date_of_midnights (n1 n2 : Z) (p1 p2 : datetime) :
  1 ≤ n1 ≤ MAXORDINAL → 1 ≤ n2 ≤ MAXORDINAL →
  mid_date_of (n1 * US_PER_DAY, p1, n2 * US_PER_DAY, p2) =
  Ok (n2 * US_PER_DAY + (n1 - n2) * (US_PER_DAY / 2) + (n1 - n2) * US_PER_MS).
Proof.
  intros H1 H2. unfold mid_date_of, td_days, dt_sub.
  replace (n1 * US_PER_DAY - n2 * US_PER_DAY) with ((n1 - n2) * US_PER_DAY) by lia.
  rewrite Z.div_mul by done.
  unfold dt_add, timedelta_half_days_ms.
  rewrite <- Z.add_assoc.
  match goal with |- (if ?c then _ else _) = _ => assert (c = true) as ->; [|done] end.
  apply andb_true_iff. rewrite Z.ltb_lt, Z.leb_le.
  unfold US_PER_DAY, US_PER_MS, MAXORDINAL in *.
  change (86400000000 / 2) with 43200000000.
  Z.to_euclidean_division_equations; lia.
Qed.

(** Two file names with one mid-point key have one acquisition pair: the
    test of line 262 cannot fail on dates read from file names. *)
Lemma mid_of_filename_inj (u v : string) :
  is_Ok (mid_of get_dates_from_filename u) →
  mid_of get_dates_from_filename u = mid_of get_dates_from_filename v →
  acq_of get_dates_from_filename u = acq_of get_dates_from_filename v.
Proof.
  intros [m Hu] Hv. rewrite Hu in Hv. symmetry in Hv.
  apply mid_of_Ok in Hu as ([[[a1 p1] a2] p2] & Hdu & Hmu).
  apply mid_of_Ok in Hv as ([[[b1 q1] b2] q2] & Hdv & Hmv).
  rewrite (acq_of_Ok _ _ _ Hdu), (acq_of_Ok _ _ _ Hdv). simpl.
  apply get_dates_from_filename_range in Hdu as (n1 & n2 & ? & ? & -> & ->).
  apply get_dates_from_filename_range in Hdv as (k1 & k2 & ? & ? & -> & ->).
  rewrite mid_date_of_midnights in Hmu, Hmv by done.
  injection Hmu as <-. injection Hmv as Hm.
  unfold US_PER_DAY, US_PER_MS, MAXORDINAL in *.
  change (86400000000 / 2) with 43200000000 in Hm.
  assert (n1 - n2 = k1 - k2) by lia.
  assert (n2 = k2) by lia.
  assert (n1 = k1) by lia. by subst.
Qed.

(** ** The claims on duplicate resolution *)

(** C1. Tie-break rule.  When the incoming name has the mid-point key and
    the acquisition pair of the name kept at position [i], it takes that
    position if and only if both its processing dates are at least those of
    the kept name; the name that is not kept is appended to
    [skipped_double_granules].  On the candidates A then B of the scenario,
    B is returned alone and A is the only skipped name. *)
Theorem tie_break_rule (self self1 : ITSCube) (found_urls kept : list string)
    (each_url found_url : string) (i : nat) (m : datetime)
    (a pu pf : datetime * datetime) :
  skip_duplicate_granules self found_urls = (Ok kept, self1) →
  kept !! i = Some found_url →
  mid_of get_dates_from_filename each_url = Ok m →
  mid_of get_dates_from_filename found_url = Ok m →
  acq_of get_dates_from_filename each_url = Ok a →
  acq_of get_dates_from_filename found_url = Ok a →
  proc_of get_dates_from_filename each_url = Ok pu →
  proc_of get_dates_from_filename found_url = Ok pf →
  (∃ self2,
      skip_duplicate_granules self (found_urls ++ [each_url]) =
        (Ok (if decide (pf.1 ≤ pu.1 ∧ pf.2 ≤ pu.2)
             then <[i := each_url]> kept else kept), self2)
      ∧ skipped_double_granules self2 =
          skipped_double_granules self1 ++
            [if decide (pf.1 ≤ pu.1 ∧ pf.2 ≤ pu.2) then found_url else each_url])
  ∧ (∃ self3,
      skip_duplicate_granules self [gA; gB] = (Ok [gB], self3)
      ∧ skipped_double_granules self3 = [gA]
      ∧ length [gB] = 1%nat).
Proof.
  intros Hrun Hi Hum Hfm Hua Hfa Hup Hfp. split.
  - unfold skip_duplicate_granules, skip_duplicate_granules_with in *.
    destruct (dedup_loop get_dates_from_filename dedup_init found_urls)
      as [st [e|]] eqn:Hloop; [done|].
    injection Hrun as <- <-.
    pose proof (dedup_loop_inv _ found_urls [] dedup_init st
                  (dedup_inv_init _) Hloop) as Hinv. simpl in Hinv.
    rewrite dedup_loop_app, Hloop. simpl.
    apply mid_of_Ok in Hum as (d & Hd & Hm).
    pose proof Hfm as Hfm'.
    apply mid_of_Ok in Hfm as (d' & Hd' & _).
    rewrite (acq_of_Ok _ _ _ Hd) in Hua. rewrite (acq_of_Ok _ _ _ Hd') in Hfa.
    rewrite (proc_of_Ok _ _ _ Hd) in Hup. rewrite (proc_of_Ok _ _ _ Hd') in Hfp.
    destruct (inv_keep _ _ _ Hinv i found_url Hi) as [_ (m' & Hm' & Him)].
    assert (m' = m) as -> by congruence.
    unfold dedup_step. rewrite Hd. simpl.
    destruct d as [[[a1 p1] a2] p2]. destruct d' as [[[b1 q1] b2] q2].
    simpl in *. rewrite Hm. simpl.
    rewrite (py_index_NoDup _ _ _ (inv_nodup _ _ _ Hinv) Him).
    unfold getitem. rewrite Hi. simpl. rewrite Hd'. simpl.
    injection Hua as <-. injection Hfa as Ha1 Ha2. injection Hup as <-.
    injection Hfp as <-. simpl.
    rewrite !bool_decide_eq_false_2 by (intros Hne; by apply Hne). simpl.
    destruct (decide (q1 ≤ p1 ∧ q2 ≤ p2)) as [[H1 H2]|Hn].
    + apply Z.leb_le in H1, H2. rewrite H1, H2. simpl. by eexists.
    + destruct ((q1 <=? p1) && (q2 <=? p2)) eqn:E.
      * exfalso. apply Hn. apply andb_true_iff in E as [?%Z.leb_le ?%Z.leb_le]. done.
      * simpl. by eexists.
  - unfold skip_duplicate_granules, skip_duplicate_granules_with.
    assert (dedup_loop get_dates_from_filename dedup_init [gA; gB]
            = (mk_dedup_vars [63713908799991000] [gB] [gA], None)) as ->
      by (vm_compute; reflexivity).
    simpl. by eexists.
Qed.

Lemma tie_break_rule_witness :
  (∃ self2, skip_duplicate_granules cube0 ([gA] ++ [gB]) = (Ok [gB], self2)
            ∧ skipped_double_granules self2 = [gA])
  ∧ (∃ self2, skip_duplicate_granules cube0 ([gB] ++ [gA]) = (Ok [gB], self2)
              ∧ skipped_double_granules self2 = [gA]).
Proof.
  split.
  - destruct (tie_break_rule cube0
                (skip_duplicate_granules cube0 [gA]).2 [gA] [gA] gB gA 0
                63713908799991000
                (737425 * US_PER_DAY, 737434 * US_PER_DAY)
                (737460 * US_PER_DAY, 737460 * US_PER_DAY)
                (737456 * US_PER_DAY, 737456 * US_PER_DAY))
      as [(self2 & Hrun & Hskip) _]; try (vm_compute; reflexivity).
    exists self2. split; [exact Hrun | exact Hskip].
  - destruct (tie_break_rule cube0
                (skip_duplicate_granules cube0 [gB]).2 [gB] [gB] gA gB 0
                63713908799991000
                (737425 * US_PER_DAY, 737434 * US_PER_DAY)
                (737456 * US_PER_DAY, 737456 * US_PER_DAY)
                (737460 * US_PER_DAY, 737460 * US_PER_DAY))
      as [(self2 & Hrun & Hskip) _]; try (vm_compute; reflexivity).
    exists self2. split; [exact Hrun | exact Hskip].
Defined.

(** C2. Conflict detection.  When two names of the input share a mid-point
    key and differ in their acquisition pair, the method raises and returns
    no list; the exception is the RuntimeError of the consistency check
    as soon as every name of the input has a mid-point key. *)
Theorem conflict_detection (get_dates : string → result granule_dates)
    (self : ITSCube) (found_urls : list string) (u v : string) :
  u ∈ found_urls → v ∈ found_urls →
  is_Ok (mid_of get_dates u) →
  mid_of get_dates u = mid_of get_dates v →
  acq_of get_dates u ≠ acq_of get_dates v →
  ∃ e, (skip_duplicate_granules_with get_dates self found_urls).1 = Raise e
       ∧ ((∀ w, w ∈ found_urls → is_Ok (mid_of get_dates w)) → e = RuntimeError).
Proof.
  intros Hu Hv Hok Hmid Hacq. unfold skip_duplicate_granules_with.
  destruct (dedup_loop get_dates dedup_init found_urls) as [st [e|]] eqn:Hloop.
  - exists e. split; [done|]. intros Hall.
    eapply dedup_loop_Raise; [apply dedup_inv_init|done|done].
  - exfalso. apply Hacq.
    pose proof (dedup_loop_inv _ found_urls [] dedup_init st
                  (dedup_inv_init _) Hloop) as Hinv. simpl in Hinv.
    by eapply dedup_inv_acq_agree.
Qed.

Lemma conflict_detection_witness :
  ∃ e, (skip_duplicate_granules_with hourly_dates cube0 ["a"; "b"]).1 = Raise e
       ∧ ((∀ w, w ∈ ["a"; "b"] → is_Ok (mid_of hourly_dates w)) → e = RuntimeError).
Proof.
  apply (conflict_detection hourly_dates cube0 ["a"; "b"] "a" "b").
  - left.
  - right. left.
  - exists 63713606400002000. vm_compute. reflexivity.
  - vm_compute. reflexivity.
  - vm_compute. intros H. discriminate H.
Defined.

(** C5. Mid-point derivation.  For a name whose four dates are read, the
    mid-point key is the acquisition date of image 2 plus half the
    separation of the acquisitions, which is a whole number of days, plus
    that number of days taken as milliseconds; two names whose separations
    differ have different keys, wherever their mid-dates fall. *)
Theorem mid_point_derivation (u v : string) (a1 p1 a2 p2 b1 q1 b2 q2 : datetime) :
  get_dates_from_filename u = Ok (a1, p1, a2, p2) →
  get_dates_from_filename v = Ok (b1, q1, b2, q2) →
  let day_separation := td_days (dt_sub a1 a2) in
  let day_separation' := td_days (dt_sub b1 b2) in
  dt_sub a1 a2 = day_separation * US_PER_DAY
  ∧ mid_of get_dates_from_filename u =
      Ok (a2 + dt_sub a1 a2 / 2 + timedelta_ms day_separation)
  ∧ (day_separation ≠ day_separation' →
     mid_of get_dates_from_filename u ≠ mid_of get_dates_from_filename v).
Proof.
  intros Hu Hv.
  assert (Hform : ∀ w c1 r1 c2 r2,
    get_dates_from_filename w = Ok (c1, r1, c2, r2) →
    dt_sub c1 c2 = td_days (dt_sub c1 c2) * US_PER_DAY
    ∧ mid_of get_dates_from_filename w =
        Ok (c2 + dt_sub c1 c2 / 2 + timedelta_ms (td_days (dt_sub c1 c2)))).
  { intros w c1 r1 c2 r2 Hw.
    assert (mid_of get_dates_from_filename w = mid_date_of (c1, r1, c2, r2)) as ->
      by (unfold mid_of; by rewrite Hw).
    apply get_dates_from_filename_range in Hw as (n1 & n2 & ? & ? & -> & ->).
    rewrite mid_date_of_midnights by done.
    unfold td_days, dt_sub, timedelta_ms.
    replace (n1 * US_PER_DAY - n2 * US_PER_DAY) with ((n1 - n2) * US_PER_DAY) by lia.
    rewrite Z.div_mul by done. split; [done|]. do 2 f_equal.
    unfold US_PER_DAY. change (86400000000 / 2) with 43200000000.
    replace ((n1 - n2) * 86400000000) with (((n1 - n2) * 43200000000) * 2) by lia.
    by rewrite Z.div_mul. }
  destruct (Hform u _ _ _ _ Hu) as [Hsu Hmu].
  destruct (Hform v _ _ _ _ Hv) as [Hsv Hmv].
  simpl. split; [done|]. split; [done|].
  intros Hsep Heq. apply Hsep.
  assert (Hacq : acq_of get_dates_from_filename u = acq_of get_dates_from_filename v)
    by (apply mid_of_filename_inj; [rewrite Hmu; by eexists | done]).
  rewrite (acq_of_Ok _ _ _ Hu), (acq_of_Ok _ _ _ Hv) in Hacq. simpl in Hacq.
  by injection Hacq as -> ->.
Qed.

Lemma mid_point_derivation_witness :
  mid_of get_dates_from_filename gA = Ok 63713908799991000
  ∧ mid_of get_dates_from_filename gD = Ok 63713908799989000
  ∧ mid_of get_dates_from_filename gA ≠ mid_of get_dates_from_filename gD.
Proof.
  pose proof (mid_point_derivation gA gD
    (737425 * US_PER_DAY) (737456 * US_PER_DAY)
    (737434 * US_PER_DAY) (737456 * US_PER_DAY)
    (737424 * US_PER_DAY) (737456 * US_PER_DAY)
    (737435 * US_PER_DAY) (737456 * US_PER_DAY)
    ltac:(vm_compute; reflexivity) ltac:(vm_compute; reflexivity))
    as (_ & Hmid & Hne).
  split; [exact Hmid|]. split; [vm_compute; reflexivity|].
  apply Hne; vm_compute; intros H; discriminate H.
Defined.

(** The kept names do not depend on the order of a tie-free input. *)
Lemma dedup_loop_Permutation (get_dates : string → result granule_dates)
    (l l' : list string) (st : dedup_vars) :
  tie_free get_dates l → l ≡ₚ l' →
  dedup_loop get_dates dedup_init l = (st, None) →
  ∃ st', dedup_loop get_dates dedup_init l' = (st', None)
         ∧ keep_urls st ≡ₚ keep_urls st'.
Proof.
  intros Htf Hperm Hloop.
  pose proof (dedup_loop_inv _ l [] dedup_init st (dedup_inv_init _) Hloop) as Hinv.
  simpl in Hinv.
  destruct (dedup_loop_total get_dates l' [] dedup_init) as [st' Hloop'].
  - apply dedup_inv_init.
  - intros u Hu. rewrite <- Hperm in Hu.
    destruct (inv_acq _ _ _ Hinv u Hu) as (i & k & m & a & Hm & _). by exists m.
  - simpl. intros u v Hu Hv. rewrite <- Hperm in Hu, Hv.
    by eapply dedup_inv_acq_agree.
  - exists st'. split; [done|].
    pose proof (dedup_loop_inv _ l' [] dedup_init st' (dedup_inv_init _) Hloop') as Hinv'.
    simpl in Hinv'.
    assert (Htf' : tie_free get_dates l').
    { intros u v Hu Hv. rewrite <- Hperm in Hu, Hv. by apply Htf. }
    apply NoDup_Permutation.
    + by eapply dedup_keep_NoDup.
    + by eapply dedup_keep_NoDup.
    + intros u.
      rewrite (dedup_kept_char _ l st Htf Hloop u).
      rewrite (dedup_kept_char _ l' st' Htf' Hloop' u).
      split; intros [Hin Hmax].
      * split; [by rewrite <- Hperm|]. intros v Hv. apply Hmax. by rewrite Hperm.
      * split; [by rewrite Hperm|]. intros v Hv. apply Hmax. by rewrite <- Hperm.
Qed.

(** C10. Partition.  When the method returns, the input is a rearrangement
    of the returned names followed by the skipped ones, so the lengths add
    up, and a name of an input without repetition is in exactly one of the
    two lists; the mid-point keys of the returned names are the distinct
    keys of the input in the order of their first occurrence. *)
Theorem dedup_partition (self self' : ITSCube) (found_urls kept : list string) :
  skip_duplicate_granules self found_urls = (Ok kept, self') →
  found_urls ≡ₚ kept ++ skipped_double_granules self'
  ∧ (length kept + length (skipped_double_granules self') = length found_urls)%nat
  ∧ (NoDup found_urls → ∀ u, u ∈ found_urls →
       (u ∈ kept ∧ ¬ u ∈ skipped_double_granules self')
       ∨ (¬ u ∈ kept ∧ u ∈ skipped_double_granules self'))
  ∧ ∃ ms, Forall2 (λ u m, mid_of get_dates_from_filename u = Ok m) found_urls ms
          ∧ Forall2 (λ k m, mid_of get_dates_from_filename k = Ok m)
              kept (first_occurrences ms)
          ∧ NoDup (first_occurrences ms).
Proof.
  unfold skip_duplicate_granules, skip_duplicate_granules_with.
  destruct (dedup_loop get_dates_from_filename dedup_init found_urls)
    as [st [e|]] eqn:Hloop; [done|].
  intros [= <- <-]. simpl.
  pose proof (dedup_loop_inv _ found_urls [] dedup_init st
                (dedup_inv_init _) Hloop) as Hinv. simpl in Hinv.
  pose proof (inv_perm _ _ _ Hinv) as Hperm.
  split; [done|]. split.
  { rewrite Hperm, length_app. done. }
  split.
  { intros Hnd u Hu. rewrite Hperm in Hnd, Hu.
    apply NoDup_app in Hnd as (_ & Hdisj & _).
    apply elem_of_app in Hu as [Hk|Hs].
    - left. split; [done|]. by apply Hdisj.
    - right. split; [|done]. intros Hk. by apply (Hdisj u). }
  destruct (inv_order _ _ _ Hinv) as (ms & Hms & Hfo).
  exists ms. split; [done|]. split.
  - rewrite <- Hfo. by eapply dedup_keep_mids.
  - apply first_occurrences_NoDup.
Qed.

Lemma dedup_partition_witness :
  [gA; gC; gB] ≡ₚ [gB; gC] ++ [gA]
  ∧ Forall2 (λ k m, mid_of get_dates_from_filename k = Ok m) [gB; gC]
      (first_occurrences [63713908799991000; 63717840000020000; 63713908799991000]).
Proof.
  destruct (dedup_partition cube0 (skip_duplicate_granules cube0 [gA; gC; gB]).2
              [gA; gC; gB] [gB; gC] ltac:(vm_compute; reflexivity))
    as (Hperm & _ & _ & ms & Hms & Hkept & _).
  split; [exact Hperm|].
  assert (ms = [63713908799991000; 63717840000020000; 63713908799991000]) as <-;
    [|exact Hkept].
  repeat match goal with
         | H : Forall2 _ (_ :: _) _ |- _ =>
             apply Forall2_cons_inv_l in H as (? & ? & ? & H & ->)
         | H : Forall2 _ [] _ |- _ => apply Forall2_nil_inv_l in H as ->
         | H : mid_of _ _ = Ok _ |- _ => vm_compute in H; injection H as <-
         end.
  reflexivity.
Defined.

(** C3, as amended.  On an input where the names that share a mid-point key
    have comparable and never tied processing pairs, the method returns on
    every rearrangement of the input as soon as it returns on the input,
    with the same names kept. *)
Theorem permutation_invariance (self : ITSCube) (l l' kept : list string) :
  tie_free get_dates_from_filename l → l ≡ₚ l' →
  (skip_duplicate_granules self l).1 = Ok kept →
  ∃ kept', (skip_duplicate_granules self l').1 = Ok kept' ∧ kept ≡ₚ kept'.
Proof.
  unfold skip_duplicate_granules, skip_duplicate_granules_with.
  intros Htf Hperm.
  destruct (dedup_loop get_dates_from_filename dedup_init l)
    as [st [e|]] eqn:Hloop; [done|].
  intros [= <-].
  destruct (dedup_loop_Permutation _ l l' st Htf Hperm Hloop) as (st' & -> & Hk).
  by exists (keep_urls st').
Qed.

Lemma dominates_procs (get_dates : string → result granule_dates)
    (u v : string) (pu pv : datetime * datetime) :
  proc_of get_dates u = Ok pu → proc_of get_dates v = Ok pv →
  dominates get_dates u v ↔ pv.1 ≤ pu.1 ∧ pv.2 ≤ pu.2.
Proof.
  intros Hu Hv. split.
  - intros (pu' & pv' & Hu' & Hv' & ? & ?).
    assert (pu' = pu) as -> by congruence.
    assert (pv' = pv) as -> by congruence. done.
  - intros [? ?]. by exists pu, pv.
Qed.

Lemma permutation_invariance_witness :
  ∃ kept', (skip_duplicate_granules cube0 [gB; gA; gC]).1 = Ok kept'
           ∧ [gB; gC] ≡ₚ kept'.
Proof.
  apply (permutation_invariance cube0 [gA; gC; gB] [gB; gA; gC] [gB; gC]).
  - assert (HA : proc_of get_dates_from_filename gA
                 = Ok (737456 * US_PER_DAY, 737456 * US_PER_DAY))
      by (vm_compute; reflexivity).
    assert (HB : proc_of get_dates_from_filename gB
                 = Ok (737460 * US_PER_DAY, 737460 * US_PER_DAY))
      by (vm_compute; reflexivity).
    intros u v Hu Hv Hne Hmid.
    repeat (apply elem_of_cons in Hu as [->|Hu]);
      try (by apply elem_of_nil in Hu);
      repeat (apply elem_of_cons in Hv as [->|Hv]);
      try (by apply elem_of_nil in Hv);
      try (by destruct Hne);
      try (vm_compute in Hmid; discriminate Hmid);
      rewrite (dominates_procs _ gA gB _ _ HA HB),
              (dominates_procs _ gB gA _ _ HB HA); unfold US_PER_DAY; simpl; lia.
  - apply NoDup_Permutation.
    + apply (bool_decide_unpack _). vm_compute. exact I.
    + apply (bool_decide_unpack _). vm_compute. exact I.
    + intros u. rewrite !elem_of_cons, !elem_of_nil. tauto.
  - vm_compute. reflexivity.
Defined.

(** C3, as stated, fails: [gX] and [gY] have four different processing
    dates, one newer on image 1 and the other newer on image 2, and the
    name met first is the one kept. *)
Lemma permutation_invariance_counterexample :
  proc_dates_distinct get_dates_from_filename [gX; gY]
  ∧ [gX; gY] ≡ₚ [gY; gX]
  ∧ (skip_duplicate_granules cube0 [gX; gY]).1 = Ok [gX]
  ∧ (skip_duplicate_granules cube0 [gY; gX]).1 = Ok [gY]
  ∧ ¬ [gX] ≡ₚ [gY].
Proof.
  split.
  { exists [(737456 * US_PER_DAY, 737465 * US_PER_DAY);
            (737457 * US_PER_DAY, 737460 * US_PER_DAY)].
    split.
    - repeat constructor; vm_compute; reflexivity.
    - apply (bool_decide_unpack _). vm_compute. exact I. }
  split; [apply Permutation_swap|].
  split; [vm_compute; reflexivity|].
  split; [vm_compute; reflexivity|].
  intros H. apply Permutation_singleton_l in H. discriminate H.
Qed.

(** ** Per-layer attributes *)

(** C9, as amended.  When the variable exists and carries the attribute,
    the result is element 0 of the attribute's value: the first number of an
    array of numbers, and an IndexError where there is no element 0.
    Otherwise the supplied default is returned, and without a default the
    call raises RuntimeError. *)
Theorem attribute_or_default (ds : dataset) (var_name attr_name : string)
    (missing_value : option attr_value) :
  (∀ v a, data_vars ds !! var_name = Some v → attrs v !! attr_name = Some a →
     get_data_var_attr ds var_name attr_name missing_value = getitem0 a
     ∧ (∀ n ns, a = AArr (n :: ns) → getitem0 a = Ok (ANum n))
     ∧ (a = AArr [] → getitem0 a = Raise IndexError))
  ∧ ((data_vars ds !! var_name ≫= λ v, attrs v !! attr_name) = None →
     get_data_var_attr ds var_name attr_name missing_value =
       match missing_value with
       | Some mv => Ok mv
       | None => Raise RuntimeError
       end).
Proof.
  unfold get_data_var_attr. split.
  - intros v a Hv Ha. rewrite Hv. simpl. rewrite Ha.
    split; [done|]. split; [by intros n ns -> | by intros ->].
  - by intros ->.
Qed.

(** C9, as stated, fails: the attribute [vx_error] of [ds_ok] is the array
    [15, 25] and the call returns the number 15. *)
Lemma attribute_or_default_counterexample :
  ∃ v a, data_vars ds_ok !! "vx" = Some v ∧ attrs v !! "vx_error" = Some a
         ∧ get_data_var_attr ds_ok "vx" "vx_error" (Some DataVars.MISSING_VALUE)
           = Ok (ANum 15)
         ∧ get_data_var_attr ds_ok "vx" "vx_error" (Some DataVars.MISSING_VALUE)
           ≠ Ok a.
Proof.
  eexists _, (AArr [15; 25]).
  split; [vm_compute; reflexivity|].
  split; [vm_compute; reflexivity|].
  split; [vm_compute; reflexivity|].
  vm_compute. intros H. discriminate H.
Qed.

(** ** Granule search *)

(** C8.  On an empty search result [request_granules] raises RuntimeError
    with the object untouched, so before duplicate resolution; [create] and
    [create_parallel] raise it with no granule opened and no store at the
    output path. *)
Theorem empty_search_is_fatal (NUM_GRANULES_TO_WRITE : nat)
    (open_dataset : string → result dataset) (self : ITSCube) (w : World)
    (num_granules : option Z) :
  request_granules self [] num_granules = (Raise RuntimeError, self)
  ∧ (∀ url rest, request_granules self (url :: rest) None
                 = skip_duplicate_granules self (url :: rest))
  ∧ create NUM_GRANULES_TO_WRITE open_dataset self w [] num_granules
    = Raised RuntimeError (mk_World None (opened w))
  ∧ create_parallel NUM_GRANULES_TO_WRITE open_dataset self w [] num_granules
    = Some (Raised RuntimeError (mk_World None (opened w))).
Proof. split; [|split; [|split]]; reflexivity. Qed.

(** ** Pre-processing and routing of a granule *)

Lemma preprocess_dataset_other (self : ITSCube) (ds : dataset) (ds_url : string)
    (epsg : Z) :
  spatial_epsg ds = Some epsg →
  pretty epsg ≠ projection self →
  preprocess_dataset self ds ds_url =
  Ok [PyBool false; PyInt epsg; PyNone; PyStr ds_url; PyNone].
Proof.
  intros Hepsg Hne. unfold preprocess_dataset. rewrite Hepsg.
  cbn [ds_attr mbind result_bind].
  destruct (decide (pretty epsg = projection self)); done.
Qed.

(** The three results of a call that returns. *)
Lemma preprocess_dataset_Ok (self : ITSCube) (ds : dataset) (ds_url : string)
    (t : list pyval) :
  preprocess_dataset self ds ds_url = Ok t →
  ∃ epsg, spatial_epsg ds = Some epsg ∧
  ((pretty epsg ≠ projection self
    ∧ t = [PyBool false; PyInt epsg; PyNone; PyStr ds_url; PyNone])
   ∨ (pretty epsg = projection self
      ∧ has_data_in_region self ds = false
      ∧ t = [PyBool true; PyInt epsg; PyNone; PyStr ds_url; PyNone])
   ∨ (pretty epsg = projection self
      ∧ has_data_in_region self ds = true
      ∧ ∃ center dt d m, date_center ds = Some center
               ∧ strptime_Ymd center = Ok d
               ∧ date_dt ds = Some dt
               ∧ dt_add d (timedelta_ms dt) = Ok m
               ∧ t = [PyBool false; PyInt epsg; PyDatetime m;
                      PyStr ds_url; PyDataset (region_of self ds)])).
Proof.
  unfold preprocess_dataset, has_data_in_region.
  change (where_drop (in_bounds (x self) <$> ds_x ds)
            (in_bounds (y self) <$> ds_y ds) ds) with (region_of self ds).
  generalize (region_of self ds). intros r.
  destruct (spatial_epsg ds) as [epsg|]; cbn [ds_attr mbind result_bind]; [|done].
  intros Ht. exists epsg. split; [done|]. revert Ht.
  destruct (decide (pretty epsg = projection self)) as [Heq|Hne].
  - destruct (date_center ds) as [center|]; cbn [ds_attr mbind result_bind]; [|done].
    destruct (strptime_Ymd center) as [d|e] eqn:Ed;
      cbn [mbind result_bind]; [|done].
    destruct (date_dt ds) as [dt|]; cbn [ds_attr mbind result_bind]; [|done].
    destruct (dt_add d (timedelta_ms dt)) as [m|e] eqn:Em;
      cbn [mbind result_bind]; [|done].
    unfold ds_var.
    destruct (data_vars r !! DataVars.V) as [v|] eqn:Ev;
      cbn [mbind result_bind]; [|done].
    destruct (any_notnull (values v)) eqn:Eany; cbn [mbind result_bind];
      intros [= <-].
    + right. right. split; [done|]. split; [done|]. by exists center, dt, d, m.
    + right. left. done.
  - cbn [mbind result_bind]. intros [= <-]. by left.
Qed.


(** C6, as amended.  A call that returns gives five values: the
    empty-rejection flag, the projection id of the granule, the mid-date or
    None, the URL of the granule, and the layer or None; mid-date and layer
    are None together, and the flag is set only then.  On a granule that
    carries a projection id other than the projection of the cube the call
    always returns. *)
Theorem layer_result_shape (self : ITSCube) (ds : dataset) (ds_url : string)
    (t : list pyval) :
  preprocess_dataset self ds ds_url = Ok t →
  length t = 5%nat
  ∧ (∃ (empty : bool) (epsg : Z) (mid_date : option datetime)
       (layer : option dataset),
       spatial_epsg ds = Some epsg
       ∧ t = [PyBool empty; PyInt epsg; py_opt PyDatetime mid_date;
              PyStr ds_url; py_opt PyDataset layer]
       ∧ (is_Some mid_date ↔ is_Some layer)
       ∧ (empty = true → layer = None))
  ∧ (∀ ds' url' epsg', spatial_epsg ds' = Some epsg' →
       pretty epsg' ≠ projection self →
       is_Ok (preprocess_dataset self ds' url')).
Proof.
  intros Ht. split; [|split].
  - apply preprocess_dataset_Ok in Ht
      as (epsg & _ & [[_ ->] | [(_ & _ & ->)
                               | (_ & _ & c & dt & d & m & _ & _ & _ & _ & ->)]]);
      done.
  - apply preprocess_dataset_Ok in Ht
      as (epsg & Hepsg & [[_ ->] | [(_ & _ & ->)
                               | (_ & _ & c & dt & d & m & _ & _ & _ & _ & ->)]]).
    + exists false, epsg, None, None. split; [done|]. split; [done|].
      split; [|done]. split; intros [? [=]].
    + exists true, epsg, None, None. split; [done|]. split; [done|].
      split; [|done]. split; intros [? [=]].
    + exists false, epsg, (Some m), (Some (region_of self ds)).
      split; [done|]. split; [done|]. split; [|done]. split; by eexists.
  - intros ds' url' epsg' Hepsg Hne. eexists.
    by apply preprocess_dataset_other.
Qed.

Lemma layer_result_shape_witness :
  (length [PyBool true; PyInt 32628; PyNone; PyStr "e1"; PyNone] = 5%nat)
  ∧ is_Ok (preprocess_dataset cube0 ds_other "g2").
Proof.
  destruct (layer_result_shape cube0 ds_empty "e1"
              [PyBool true; PyInt 32628; PyNone; PyStr "e1"; PyNone]
              ltac:(vm_compute; reflexivity)) as (Hlen & _ & Hother).
  split; [exact Hlen|]. apply (Hother ds_other "g2" 32627); [reflexivity|].
  vm_compute. intros H. discriminate H.
Defined.

(** C6, as stated, fails: the tuple has five values in the three cases,
    the fourth being the URL; and the call does not always return: on a
    granule of the projection of the cube whose centre date is not in the
    format it raises ValueError, on a granule without [UTM_Projection] it
    raises AttributeError. *)
Lemma layer_result_shape_counterexample :
  ∃ t1 t2 t3,
    preprocess_dataset cube0 ds_ok "g1" = Ok t1
    ∧ preprocess_dataset cube0 ds_other "g2" = Ok t2
    ∧ preprocess_dataset cube0 ds_empty "e1" = Ok t3
    ∧ length t1 ≠ 4%nat ∧ length t2 ≠ 4%nat ∧ length t3 ≠ 4%nat
    ∧ t1 !! 3%nat = Some (PyStr "g1")
    ∧ preprocess_dataset cube0 ds_bad_date "b1" = Raise ValueError
    ∧ preprocess_dataset cube0 ds_polar "p1" = Raise AttributeError.
Proof.
  eexists _, _, _.
  split; [vm_compute; reflexivity|].
  split; [vm_compute; reflexivity|].
  split; [vm_compute; reflexivity|].
  repeat split; simpl; lia || (vm_compute; reflexivity).
Qed.

Lemma bind_Ok {A B} (m : result A) (f : A → result B) (b : B) :
  m ≫= f = Ok b → ∃ a, m = Ok a ∧ f a = Ok b.
Proof. destruct m as [a|e]; [|done]. intros H. by exists a. Qed.

Lemma Ok_inj {A} (a b : A) : Ok a = Ok b → a = b.
Proof. by intros [= ->]. Qed.

(** Peel the calls of a sequence that returned, first to last. *)
Ltac inv_binds H :=
  repeat (lazymatch type of H with
          | mbind _ _ = Ok _ =>
              let a := fresh "r" in
              let Ha := fresh "Hr" in
              apply bind_Ok in H as (a & Ha & H); cbv beta zeta in H
          end).

(** The time coordinate of the table is the list of mid-dates collected. *)
Lemma build_layers_mid_date (self : ITSCube) (is_first_write : bool) (t : cube_table) :
  build_layers self is_first_write = Ok t → mid_date_coord t = dates self.
Proof.
  unfold build_layers. cbv zeta. intros H. inv_binds H.
  apply Ok_inj in H. by subst t.
Qed.






(** ** Fill values *)

Ltac str_ne := let H := fresh in intros H; cbv in H; discriminate H.

Lemma carried_empty (l : list dataset) (slices : list slice) :
  carried_by_layer l (mk_cube_var ∅ slices).
Proof. intros a Ha. simpl in Ha. by rewrite lookup_empty in Ha. Qed.

Lemma map_Forall_alter {A} (P : string → A → Prop) (f : A → A) (k : string)
    (m : gmap string A) :
  (∀ a, P k a → P k (f a)) → map_Forall P m → map_Forall P (alter f k m).
Proof.
  intros Hf Hm i a. rewrite lookup_alter. case_decide as Hk.
  - subst i. destruct (m !! k) as [b|] eqn:Eb; simpl; [|done].
    intros [= <-]. apply Hf. by apply Hm.
  - apply Hm.
Qed.

Lemma carried_set_attr (l : list dataset) (name key : string) (val : attr_value)
    (L : gmap string cube_var) :
  key ≠ DataVars.MISSING_VALUE_ATTR →
  map_Forall (λ _, carried_by_layer l) L →
  map_Forall (λ _, carried_by_layer l) (set_attr name key val L).
Proof.
  intros Hne. apply map_Forall_alter. intros cv Hcv a. simpl.
  rewrite lookup_insert_ne by done. apply Hcv.
Qed.

Lemma carried_del_attr (l : list dataset) (name key : string)
    (L : gmap string cube_var) :
  map_Forall (λ _, carried_by_layer l) L →
  map_Forall (λ _, carried_by_layer l) (del_attr name key L).
Proof.
  apply map_Forall_alter. intros cv Hcv a. simpl.
  intros [_ Ha]%lookup_delete_Some. by apply Hcv.
Qed.

Lemma carried_insert (l : list dataset) (name : string) (cv : cube_var)
    (L : gmap string cube_var) :
  carried_by_layer l cv →
  map_Forall (λ _, carried_by_layer l) L →
  map_Forall (λ _, carried_by_layer l) (<[name := cv]> L).
Proof. intros Hcv HL. by apply map_Forall_insert_2. Qed.

Lemma sublayers_refl (l : list dataset) : sublayers l l.
Proof. intros d name v Hd Hv. by exists d. Qed.

Lemma sublayers_drop (name : string) (dsl l : list dataset) :
  sublayers dsl l → sublayers (drop_vars name <$> dsl) l.
Proof.
  intros Hsub d' n v (d & -> & Hd)%list_elem_of_fmap. simpl.
  intros [_ Hv]%lookup_delete_Some. by eapply Hsub.
Qed.

(** The attributes of a concatenation are those of the first array. *)
Lemma concat_attrs {A} (f : A → result data_array) (xs : list A) (cv : cube_var) :
  mapM f xs ≫= concat = Ok cv →
  ∃ x a, x ∈ xs ∧ f x = Ok a ∧ cv_attrs cv = da_attrs a.
Proof.
  destruct xs as [|x xs]; [done|]. cbn [mapM].
  destruct (f x) as [a|e] eqn:Ea; cbn [mbind result_bind]; [|done].
  destruct (mapM f xs) as [k|e]; cbn [mbind result_bind mret result_ret]; [|done].
  simpl. intros [= <-]. exists x, a. split; [left | done].
Qed.

Lemma carried_concat (l dsl : list dataset) (name : string) (cv : cube_var) :
  sublayers dsl l →
  mapM (λ d, ds_array d name) dsl ≫= concat = Ok cv →
  carried_by_layer l cv.
Proof.
  intros Hsub (d' & v & Hd' & Hv & Hattrs)%concat_attrs a Ha.
  unfold ds_array, ds_var in Hv.
  destruct (data_vars d' !! name) as [v'|] eqn:Ev; [|done].
  cbn [mbind result_bind] in Hv. apply Ok_inj in Hv. subst v.
  destruct (Hsub d' name v' Hd' Ev) as (d & Hd & Hdv).
  exists d, name, v'. rewrite Hattrs in Ha. done.
Qed.

Lemma carried_get_data_var (l dsl : list dataset) (L : gmap string cube_var)
    (name : string) (cv : cube_var) :
  sublayers dsl l →
  mapM (λ d, get_data_var L d name) dsl ≫= concat = Ok cv →
  carried_by_layer l cv.
Proof.
  intros Hsub (d' & v & Hd' & Hv & Hattrs)%concat_attrs a Ha.
  unfold get_data_var in Hv. destruct (data_vars d' !! name) as [v'|] eqn:Ev.
  - unfold ds_array, ds_var in Hv. rewrite Ev in Hv.
    cbn [mbind result_bind] in Hv. apply Ok_inj in Hv. subst v.
    destruct (Hsub d' name v' Hd' Ev) as (d & Hd & Hdv).
    exists d, name, v'. rewrite Hattrs in Ha. done.
  - destruct (L !! DataVars.V); [|done]. apply Ok_inj in Hv. subst v.
    rewrite Hattrs in Ha. simpl in Ha. by rewrite lookup_empty in Ha.
Qed.

(** A batch that is not the first asserts no [missing_value]: every such
    attribute of its table was carried by a layer. *)
Lemma build_layers_append_carried (self : ITSCube) (t : cube_table) :
  build_layers self false = Ok t →
  map_Forall (λ _, carried_by_layer (ds self)) (cube_vars t).
Proof.
  unfold build_layers. cbv beta iota zeta. intros H. inv_binds H.
  apply Ok_inj in H. subst t. cbv beta iota delta [cube_vars].
  pose proof (sublayers_refl (ds self)) as Hs0.
  pose proof (sublayers_drop DataVars.V _ _ Hs0) as Hs1.
  pose proof (sublayers_drop DataVars.VX _ _ Hs1) as Hs2.
  pose proof (sublayers_drop DataVars.VY _ _ Hs2) as Hs3.
  pose proof (sublayers_drop DataVars.CHIP_SIZE_HEIGHT _ _ Hs3) as Hs4.
  pose proof (sublayers_drop DataVars.CHIP_SIZE_WIDTH _ _ Hs4) as Hs5.
  pose proof (sublayers_drop DataVars.INTERP_MASK _ _ Hs5) as Hs6.
  repeat first
    [ apply carried_set_attr; [str_ne|]
    | apply carried_del_attr
    | apply carried_insert;
        [ first [ apply carried_empty
                | eapply carried_concat; [|eassumption]; assumption
                | eapply carried_get_data_var; [|eassumption]; assumption ] |]
    | apply map_Forall_empty ].
Qed.

(** *** The first batch *)

Lemma present_insert_eq (n : string) (cv : cube_var) (L : gmap string cube_var) :
  is_Some (<[n := cv]> L !! n).
Proof. rewrite lookup_insert_eq. by eexists. Qed.

Lemma present_alter (f : cube_var → cube_var) (n k : string)
    (L : gmap string cube_var) :
  is_Some (L !! n) → is_Some (alter f k L !! n).
Proof.
  intros [cv Hcv]. rewrite lookup_alter. case_decide; [subst k|]; rewrite Hcv; by eexists.
Qed.

Lemma has_mv_alter (f : cube_var → cube_var) (n k : string)
    (L : gmap string cube_var) :
  (∀ cv, is_Some (cv_attrs cv !! DataVars.MISSING_VALUE_ATTR) →
         is_Some (cv_attrs (f cv) !! DataVars.MISSING_VALUE_ATTR)) →
  has_missing_value n L → has_missing_value n (alter f k L).
Proof.
  intros Hf (cv & Hcv & Hmv). unfold has_missing_value. rewrite lookup_alter.
  case_decide; [subst k|]; rewrite Hcv; simpl; eauto.
Qed.

Lemma has_mv_insert_ne (n k : string) (x : cube_var) (L : gmap string cube_var) :
  n ≠ k → has_missing_value n L → has_missing_value n (<[k := x]> L).
Proof.
  intros Hne (cv & Hcv & Hmv). exists cv. by rewrite lookup_insert_ne.
Qed.

Lemma has_mv_set_attr (n name key : string) (val : attr_value)
    (L : gmap string cube_var) :
  has_missing_value n L → has_missing_value n (set_attr name key val L).
Proof.
  apply has_mv_alter. intros cv [a Ha]. simpl.
  destruct (decide (key = DataVars.MISSING_VALUE_ATTR)) as [->|Hne].
  - rewrite lookup_insert_eq. by eexists.
  - rewrite lookup_insert_ne by done. by eexists.
Qed.

Lemma has_mv_set_attr_absent (n name key : string) (val : attr_value)
    (L : gmap string cube_var) :
  has_missing_value n L → has_missing_value n (set_attr_absent name key val L).
Proof.
  apply has_mv_alter. intros cv [a Ha].
  destruct (cv_attrs cv !! key) eqn:Ek; [by eexists|]. simpl.
  destruct (decide (key = DataVars.MISSING_VALUE_ATTR)) as [->|Hne].
  - rewrite lookup_insert_eq. by eexists.
  - rewrite lookup_insert_ne by done. by eexists.
Qed.

Lemma has_mv_del_attr (n name key : string) (L : gmap string cube_var) :
  key ≠ DataVars.MISSING_VALUE_ATTR →
  has_missing_value n L → has_missing_value n (del_attr name key L).
Proof.
  intros Hne. apply has_mv_alter. intros cv [a Ha]. simpl.
  rewrite lookup_delete_ne by done. by eexists.
Qed.

Lemma has_mv_set_attr_here (n : string) (val : attr_value)
    (L : gmap string cube_var) :
  is_Some (L !! n) →
  has_missing_value n (set_attr n DataVars.MISSING_VALUE_ATTR val L).
Proof.
  intros [cv Hcv]. unfold has_missing_value, set_attr.
  rewrite lookup_alter_eq, Hcv. simpl. eexists. split; [done|]. simpl.
  rewrite lookup_insert_eq. by eexists.
Qed.

Lemma has_mv_set_attr_absent_here (n : string) (val : attr_value)
    (L : gmap string cube_var) :
  is_Some (L !! n) →
  has_missing_value n (set_attr_absent n DataVars.MISSING_VALUE_ATTR val L).
Proof.
  intros [cv Hcv]. unfold has_missing_value, set_attr_absent.
  rewrite lookup_alter_eq, Hcv. simpl. eexists. split; [done|].
  destruct (cv_attrs cv !! DataVars.MISSING_VALUE_ATTR) eqn:E.
  - rewrite E. by eexists.
  - simpl. rewrite lookup_insert_eq. by eexists.
Qed.

Lemma present_set_attr (n name key : string) (val : attr_value)
    (L : gmap string cube_var) :
  is_Some (L !! n) → is_Some (set_attr name key val L !! n).
Proof. apply present_alter. Qed.

Lemma present_set_attr_absent (n name key : string) (val : attr_value)
    (L : gmap string cube_var) :
  is_Some (L !! n) → is_Some (set_attr_absent name key val L !! n).
Proof. apply present_alter. Qed.

Lemma present_del_attr (n name key : string) (L : gmap string cube_var) :
  is_Some (L !! n) → is_Some (del_attr name key L !! n).
Proof. apply present_alter. Qed.

Ltac present_tac :=
  repeat lazymatch goal with
         | |- is_Some (set_attr _ _ _ _ !! _) => apply present_set_attr
         | |- is_Some (set_attr_absent _ _ _ _ !! _) => apply present_set_attr_absent
         | |- is_Some (del_attr _ _ _ !! _) => apply present_del_attr
         | |- is_Some (<[_ := _]> _ !! _) => apply present_insert_eq
         end.

Ltac has_mv_tac :=
  repeat lazymatch goal with
         | |- has_missing_value ?n (set_attr_absent ?n DataVars.MISSING_VALUE_ATTR _ _) =>
             apply has_mv_set_attr_absent_here; present_tac
         | |- has_missing_value ?n (set_attr ?n DataVars.MISSING_VALUE_ATTR _ _) =>
             apply has_mv_set_attr_here; present_tac
         | |- has_missing_value _ (set_attr _ _ _ _) => apply has_mv_set_attr
         | |- has_missing_value _ (set_attr_absent _ _ _ _) => apply has_mv_set_attr_absent
         | |- has_missing_value _ (del_attr _ _ _) => apply has_mv_del_attr; [str_ne|]
         | |- has_missing_value _ (<[_ := _]> _) => apply has_mv_insert_ne; [str_ne|]
         end.

(** The table of the first batch carries [missing_value] on the five
    variables the method sets it on. *)
Lemma build_layers_first_has_mv (self : ITSCube) (t : cube_table) :
  build_layers self true = Ok t →
  Forall (λ n, has_missing_value n (cube_vars t))
    [DataVars.V; DataVars.MAP_SCALE_CORRECTED; DataVars.VX; DataVars.VY;
     DataVars.V_ERROR].
Proof.
  unfold build_layers. cbv beta iota zeta. intros H. inv_binds H.
  apply Ok_inj in H. subst t. cbv beta iota delta [cube_vars].
  repeat (apply Forall_cons; split); [..|by apply Forall_nil]; has_mv_tac.
Qed.

(** *** The store *)

Lemma to_zarr_append_keeps (table : cube_table) (z z' : zarr_store) :
  to_zarr_append table (Some z) = Ok z' →
  zs_encoding z' = zs_encoding z
  ∧ ∀ name cv, zs_vars z !! name = Some cv →
      ∃ cv', zs_vars z' !! name = Some cv' ∧ cv_attrs cv' = cv_attrs cv.
Proof.
  unfold to_zarr_append. case_decide; [done|]. intros [= <-]. simpl.
  split; [done|]. intros name cv Hcv. rewrite lookup_union_with, Hcv.
  destruct (cube_vars table !! name) as [tv|]; simpl; eauto.
Qed.

Lemma write_state_store (b : bool) (w w' : World) :
  store w' = store w → write_state b w → write_state b w'.
Proof. unfold write_state, store_fixed. by intros ->. Qed.

Lemma write_state_fixed (b : bool) (w : World) : write_state b w → store_fixed w.
Proof. destruct b; [done | by right]. Qed.

(** A write moves from "no store" to "store with the encoding of its
    creation" and stays there; a call that raises leaves the world. *)
Lemma combine_layers_write_state (b : bool) (self : ITSCube) (w : World) :
  write_state b w →
  match combine_layers self b w with
  | Returned _ _ w' => write_state false w'
  | Raised _ w' => w' = w
  end.
Proof.
  intros Hw. unfold combine_layers.
  destruct (build_layers self b) as [t|e]; [|done].
  destruct b; simpl in Hw.
  - destruct Hw as [Hw | (z & Hz & Henc)].
    + rewrite Hw. simpl. by eexists.
    + by rewrite Hz.
  - destruct Hw as (z & Hz & Henc). rewrite Hz.
    destruct (to_zarr_append t (Some z)) as [z'|e] eqn:Ez; [|done].
    apply to_zarr_append_keeps in Ez as [Henc' _].
    simpl. exists z'. split; [done|]. congruence.
Qed.

Section DriverFacts.
Variable NUM_GRANULES_TO_WRITE : nat.
Variable open_dataset : string → result dataset.

Lemma create_loop_write_state (found_urls : list string) (self : ITSCube)
    (w : World) (b : bool) :
  write_state b w →
  match create_loop NUM_GRANULES_TO_WRITE open_dataset self w b found_urls with
  | Returned b' _ w' => write_state b' w'
  | Raised _ w' => store_fixed w'
  end.
Proof.
  revert self w b. induction found_urls as [|u rest IH]; intros self w b Hw; simpl.
  - done.
  - set (w1 := mk_World (store w) (opened w ++ [u])).
    assert (Hw1 : write_state b w1) by (by apply (write_state_store b w)).
    destruct (read_s3_dataset open_dataset self u ≫= add_layer_star self)
      as [self1|e]; [|by eapply write_state_fixed].
    case_decide.
    + pose proof (combine_layers_write_state b self1 w1 Hw1) as Hc.
      destruct (combine_layers self1 b w1) as [[] self2 w2|e w2].
      * by apply IH.
      * subst w2. by eapply write_state_fixed.
    + by apply IH.
Qed.

Lemma create_store_fixed (self : ITSCube) (w : World) (search_result : list string)
    (num_granules : option Z) :
  match create NUM_GRANULES_TO_WRITE open_dataset self w search_result num_granules with
  | Returned _ _ w' => store_fixed w'
  | Raised _ w' => store_fixed w'
  end.
Proof.
  unfold create.
  destruct (request_granules (clear self) search_result num_granules)
    as [[found_urls|e] self1]; [|by left].
  assert (Hw0 : write_state true (mk_World None (opened w))) by (by left).
  pose proof (create_loop_write_state found_urls self1 (mk_World None (opened w))
                true Hw0) as Hl.
  destruct (create_loop NUM_GRANULES_TO_WRITE open_dataset self1
              (mk_World None (opened w)) true found_urls) as [b self2 w2|e w2];
    [|done].
  case_decide.
  - pose proof (combine_layers_write_state b self2 w2 Hl) as Hc.
    destruct (combine_layers self2 b w2) as [[] self3 w3|e w3].
    + destruct (format_stats self3); by eapply write_state_fixed.
    + subst w3. by eapply write_state_fixed.
  - destruct (format_stats self2); by eapply write_state_fixed.
Qed.

Lemma create_parallel_loop_write_state (fuel : nat) (self : ITSCube) (w : World)
    (b : bool) (start num_to_process : nat) (found_urls : list string)
    (o : outcome unit) :
  write_state b w →
  create_parallel_loop NUM_GRANULES_TO_WRITE open_dataset fuel self w b start
    num_to_process found_urls = Some o →
  match o with
  | Returned _ _ w' => store_fixed w'
  | Raised _ w' => store_fixed w'
  end.
Proof.
  revert self w b start num_to_process.
  induction fuel as [|fuel IH]; intros self w b start n Hw; simpl.
  - case_decide; [|done]. intros [= <-]. by eapply write_state_fixed.
  - case_decide; [intros [= <-]; by eapply write_state_fixed|].
    set (num_tasks := if decide (NUM_GRANULES_TO_WRITE < n)%nat
                      then NUM_GRANULES_TO_WRITE else n).
    set (files := take num_tasks (drop start found_urls)).
    set (w1 := mk_World (store w) (opened w ++ files)).
    assert (Hw1 : write_state b w1) by (by apply (write_state_store b w)).
    destruct (mapM (read_s3_dataset open_dataset self) files ≫= add_layers self)
      as [self1|e]; [|intros [= <-]; by eapply write_state_fixed].
    pose proof (combine_layers_write_state b self1 w1 Hw1) as Hc.
    destruct (combine_layers self1 b w1) as [[] self2 w2|e w2].
    + apply IH. destruct (decide (start = 0%nat)); [done|].
      destruct b; [by right | done].
    + intros [= <-]. subst w2. by eapply write_state_fixed.
Qed.

(** The loop of [create_parallel] ends within [num_to_process] iterations
    when it starts with no layer collected. *)
Lemma create_parallel_loop_fuel (fuel : nat) (self : ITSCube) (w : World)
    (b : bool) (start num_to_process : nat) (found_urls : list string) :
  ds self = [] → (num_to_process ≤ fuel)%nat →
  is_Some (create_parallel_loop NUM_GRANULES_TO_WRITE open_dataset fuel self w b
             start num_to_process found_urls).
Proof.
  revert self w b start num_to_process.
  induction fuel as [|fuel IH]; intros self w b start n Hds Hn; simpl.
  - rewrite decide_True by lia. by eexists.
  - case_decide; [by eexists|].
    set (num_tasks := if decide (NUM_GRANULES_TO_WRITE < n)%nat
                      then NUM_GRANULES_TO_WRITE else n).
    set (files := take num_tasks (drop start found_urls)).
    set (w1 := mk_World (store w) (opened w ++ files)).
    destruct (mapM (read_s3_dataset open_dataset self) files ≫= add_layers self)
      as [self1|e] eqn:Eadd; [|by eexists].
    destruct (combine_layers self1 b w1) as [[] self2 w2|e w2] eqn:Ec; [|by eexists].
    assert (Hds2 : ds self2 = []).
    { unfold combine_layers in Ec. destruct (build_layers self1 b); [|done].
      destruct (if b then _ else _); [|done]. by injection Ec as <- <-. }
    apply IH; [done|].
    destruct (decide (num_tasks = 0%nat)) as [H0|H0]; [|lia].
    exfalso. subst files. rewrite H0 in Eadd. simpl in Eadd.
    injection Eadd as <-. unfold combine_layers, build_layers in Ec.
    rewrite Hds in Ec. simpl in Ec. done.
Qed.

Lemma create_parallel_store_fixed (self : ITSCube) (w : World)
    (search_result : list string) (num_granules : option Z) :
  ∃ o, create_parallel NUM_GRANULES_TO_WRITE open_dataset self w search_result
         num_granules = Some o
       ∧ match o with
         | Returned _ _ w' => store_fixed w'
         | Raised _ w' => store_fixed w'
         end.
Proof.
  unfold create_parallel.
  destruct (request_granules (clear self) search_result num_granules)
    as [[found_urls|e] self1] eqn:Ereq; [|eexists; split; [done|by left]].
  assert (Hds : ds self1 = []).
  { unfold request_granules in Ereq. case_decide; [done|].
    unfold skip_duplicate_granules, skip_duplicate_granules_with in Ereq.
    destruct (dedup_loop _ _ _) as [st [e|]]; [done|]. by injection Ereq as _ <-. }
  destruct (create_parallel_loop_fuel (length found_urls) self1
              (mk_World None (opened w)) true 0 (length found_urls) found_urls
              Hds (le_n _)) as [o Ho].
  rewrite Ho.
  assert (Hw0 : write_state true (mk_World None (opened w))) by (by left).
  pose proof (create_parallel_loop_write_state _ _ _ true _ _ _ o Hw0 Ho) as Hfix.
  destruct o as [[] self2 w2|e w2]; [|by eexists].
  destruct (format_stats self2); by eexists.
Qed.

End DriverFacts.

(** The encoding that [combine_layers] passes when it creates the store
    forces [_FillValue] on seven variables, with these values. *)
Lemma encoding_settings_fill_values :
  Forall (λ nv : string * attr_value,
            encoding_settings !! nv.1 = Some {[ DataVars.FILL_VALUE_ATTR := nv.2 ]})
    [(DataVars.V, DataVars.MISSING_VALUE);
     (DataVars.MAP_SCALE_CORRECTED, DataVars.MISSING_BYTE);
     (DataVars.VX, DataVars.MISSING_VALUE);
     (DataVars.VX_ERROR, DataVars.MISSING_VALUE);
     (DataVars.VY, DataVars.MISSING_VALUE);
     (DataVars.VY_ERROR, DataVars.MISSING_VALUE);
     (DataVars.V_ERROR, DataVars.MISSING_VALUE)]
  ∧ size encoding_settings = 7%nat.
Proof.
  split; [|vm_compute; reflexivity].
  repeat (apply Forall_cons; split; [vm_compute; reflexivity|]).
  by apply Forall_nil.
Qed.

(** C7.  Fill values are set once.  A batch appended to an existing store
    asserts no [missing_value] of its own (such an attribute of its table is
    one a layer carried), is written without encoding, and leaves the
    encoding and the attributes of the variables of the store as they were.
    The first batch is written in create mode, on a path without store,
    with an explicit encoding: [_FillValue] is -32767 for [v], [vx],
    [vx_error], [vy], [vy_error] and [v_error], 0 for
    [map_scale_corrected], and no other variable has an encoding; and with
    [missing_value] on [v], [map_scale_corrected], [vx], [vy] and
    [v_error].  Whatever [create] and [create_parallel] do, a store they
    leave has that encoding. *)
Theorem fill_value_set_once (self self' : ITSCube) (w w' : World) (z : zarr_store) :
  combine_layers self false w = Returned () self' w' →
  store w = Some z →
  (∃ t z', build_layers self false = Ok t
           ∧ map_Forall (λ _, carried_by_layer (ds self)) (cube_vars t)
           ∧ store w' = Some z'
           ∧ zs_encoding z' = zs_encoding z
           ∧ ∀ name cv, zs_vars z !! name = Some cv →
               ∃ cv', zs_vars z' !! name = Some cv' ∧ cv_attrs cv' = cv_attrs cv)
  ∧ (∀ self1 self2 w1 w2,
       combine_layers self1 true w1 = Returned () self2 w2 →
       store w1 = None
       ∧ ∃ z', store w2 = Some z' ∧ zs_encoding z' = encoding_settings
               ∧ Forall (λ nv : string * attr_value,
                           zs_encoding z' !! nv.1
                           = Some {[ DataVars.FILL_VALUE_ATTR := nv.2 ]})
                   [(DataVars.V, ANum (-32767));
                    (DataVars.MAP_SCALE_CORRECTED, ANum 0);
                    (DataVars.VX, ANum (-32767));
                    (DataVars.VX_ERROR, ANum (-32767));
                    (DataVars.VY, ANum (-32767));
                    (DataVars.VY_ERROR, ANum (-32767));
                    (DataVars.V_ERROR, ANum (-32767))]
               ∧ size (zs_encoding z') = 7%nat
               ∧ Forall (λ n, has_missing_value n (zs_vars z'))
                   [DataVars.V; DataVars.MAP_SCALE_CORRECTED; DataVars.VX;
                    DataVars.VY; DataVars.V_ERROR])
  ∧ (∀ NUM_GRANULES_TO_WRITE open_dataset self0 w0 search_result num_granules,
       match create NUM_GRANULES_TO_WRITE open_dataset self0 w0 search_result
               num_granules with
       | Returned _ _ w1 | Raised _ w1 =>
           store_fixed w1
           ∧ ∀ z1, store w1 = Some z1 →
               Forall (λ nv : string * attr_value,
                         zs_encoding z1 !! nv.1
                         = Some {[ DataVars.FILL_VALUE_ATTR := nv.2 ]})
                 [(DataVars.V, ANum (-32767));
                  (DataVars.MAP_SCALE_CORRECTED, ANum 0);
                  (DataVars.VX, ANum (-32767));
                  (DataVars.VX_ERROR, ANum (-32767));
                  (DataVars.VY, ANum (-32767));
                  (DataVars.VY_ERROR, ANum (-32767));
                  (DataVars.V_ERROR, ANum (-32767))]
               ∧ size (zs_encoding z1) = 7%nat
       end
       ∧ ∃ o, create_parallel NUM_GRANULES_TO_WRITE open_dataset self0 w0
                search_result num_granules = Some o
              ∧ match o with
                | Returned _ _ w1 | Raised _ w1 =>
                    store_fixed w1
                    ∧ ∀ z1, store w1 = Some z1 →
                        Forall (λ nv : string * attr_value,
                                  zs_encoding z1 !! nv.1
                                  = Some {[ DataVars.FILL_VALUE_ATTR := nv.2 ]})
                          [(DataVars.V, ANum (-32767));
                           (DataVars.MAP_SCALE_CORRECTED, ANum 0);
                           (DataVars.VX, ANum (-32767));
                           (DataVars.VX_ERROR, ANum (-32767));
                           (DataVars.VY, ANum (-32767));
                           (DataVars.VY_ERROR, ANum (-32767));
                           (DataVars.V_ERROR, ANum (-32767))]
                        ∧ size (zs_encoding z1) = 7%nat
                end).
Proof.
  assert (Hfix : ∀ w1, store_fixed w1 →
            store_fixed w1
            ∧ ∀ z1, store w1 = Some z1 →
                Forall (λ nv : string * attr_value,
                          zs_encoding z1 !! nv.1
                          = Some {[ DataVars.FILL_VALUE_ATTR := nv.2 ]})
                  [(DataVars.V, ANum (-32767));
                   (DataVars.MAP_SCALE_CORRECTED, ANum 0);
                   (DataVars.VX, ANum (-32767));
                   (DataVars.VX_ERROR, ANum (-32767));
                   (DataVars.VY, ANum (-32767));
                   (DataVars.VY_ERROR, ANum (-32767));
                   (DataVars.V_ERROR, ANum (-32767))]
                ∧ size (zs_encoding z1) = 7%nat).
  { intros w1 Hw1. split; [done|]. intros z1 Hz1.
    destruct Hw1 as [Hnone | (z2 & Hz2 & Henc)]; [congruence|].
    assert (z2 = z1) as -> by congruence. rewrite Henc.
    apply encoding_settings_fill_values. }
  intros Hc Hz. split; [|split].
  - unfold combine_layers in Hc.
    destruct (build_layers self false) as [t|e] eqn:Et; [|done].
    rewrite Hz in Hc.
    destruct (to_zarr_append t (Some z)) as [z'|e] eqn:Ez; [|done].
    injection Hc as _ <-. exists t, z'. split; [done|].
    split; [by apply build_layers_append_carried|]. split; [done|].
    by apply to_zarr_append_keeps in Ez.
  - intros self1 self2 w1 w2 Hc1. unfold combine_layers in Hc1.
    destruct (build_layers self1 true) as [t|e] eqn:Et; [|done].
    unfold to_zarr_create in Hc1. destruct (store w1); [done|].
    split; [done|]. injection Hc1 as _ <-. eexists. split; [done|].
    split; [done|]. cbn [zs_encoding zs_vars].
    split; [apply encoding_settings_fill_values|].
    split; [apply encoding_settings_fill_values|].
    by apply (build_layers_first_has_mv self1).
  - intros NUM open_dataset self0 w0 search_result num_granules. split.
    + pose proof (create_store_fixed NUM open_dataset self0 w0 search_result
                    num_granules) as Hcr.
      destruct (create NUM open_dataset self0 w0 search_result num_granules);
        by apply Hfix.
    + destruct (create_parallel_store_fixed NUM open_dataset self0 w0 search_result
                  num_granules) as (o & Ho & Hst).
      exists o. split; [done|]. destruct o; by apply Hfix.
Qed.

Lemma fill_value_set_once_witness :
  ∃ z z', store stored0 = Some z ∧ store appended0 = Some z'
          ∧ zs_encoding z = encoding_settings
          ∧ zs_encoding z' = encoding_settings
          ∧ zs_encoding z' !! DataVars.V
            = Some {[ DataVars.FILL_VALUE_ATTR := ANum (-32767) ]}
          ∧ length (zs_mid_date z') = 2%nat.
Proof.
  destruct (store stored0) as [z|] eqn:Ez; [|vm_compute in Ez; discriminate Ez].
  assert (Hrun : combine_layers layered0 false stored0
                 = Returned () (clear_vars layered0) appended0)
    by (vm_compute; reflexivity).
  destruct (fill_value_set_once layered0 (clear_vars layered0) stored0 appended0 z
              Hrun Ez) as ((t & z' & _ & _ & Hz' & Henc & _) & _ & _).
  exists z, z'. split; [reflexivity|]. split; [exact Hz'|].
  assert (Hz0 : zs_encoding z = encoding_settings).
  { vm_compute in Ez. injection Ez as <-. vm_compute. reflexivity. }
  split; [exact Hz0|]. split; [by rewrite Henc|].
  split; [rewrite Henc, Hz0; vm_compute; reflexivity|].
  vm_compute in Hz'. injection Hz' as <-. reflexivity.
Defined.

(** * Further properties *)

(** ** Duplicate resolution on file names *)

Lemma mid_of_filename_Ok (u : string) :
  is_Ok (get_dates_from_filename u) → is_Ok (mid_of get_dates_from_filename u).
Proof.
  intros [[[[a1 p1] a2] p2] Hd]. unfold mid_of. rewrite Hd.
  apply get_dates_from_filename_range in Hd as (n1 & n2 & ? & ? & -> & ->).
  cbn [mbind result_bind]. rewrite mid_date_of_midnights by done. by eexists.
Qed.

(** An iteration over file names raises only what reading the name
    raises. *)
Lemma filename_step_Raise (P : list string) (st : dedup_vars) (u : string) (e : exn) :
  dedup_inv get_dates_from_filename P st →
  dedup_step get_dates_from_filename st u = Raise e →
  get_dates_from_filename u = Raise e.
Proof.
  intros Hinv Hstep.
  destruct (get_dates_from_filename u) as [d|e'] eqn:Hd.
  - exfalso.
    assert (Hmid : is_Ok (mid_of get_dates_from_filename u))
      by (apply mid_of_filename_Ok; by eexists).
    destruct (dedup_step_total _ P st u Hinv Hmid) as [st' Hst'].
    + intros v Hv Hvm. apply mid_of_filename_inj; [|done].
      rewrite Hvm. done.
    + congruence.
  - unfold dedup_step in Hstep. rewrite Hd in Hstep. simpl in Hstep. by injection Hstep as ->.
Qed.

Lemma filename_loop_Raise (l P : list string) (st st' : dedup_vars) (e : exn) :
  dedup_inv get_dates_from_filename P st →
  dedup_loop get_dates_from_filename st l = (st', Some e) →
  ∃ u, u ∈ l ∧ get_dates_from_filename u = Raise e.
Proof.
  revert P st. induction l as [|u l IH]; intros P st Hinv; simpl; [done|].
  destruct (dedup_step get_dates_from_filename st u) as [st1|e1] eqn:Hstep.
  - intros Hloop.
    destruct (IH (P ++ [u]) st1) as (v & Hv & Hve); [by eapply dedup_step_inv|done|].
    exists v. split; [by right | done].
  - intros [= _ <-]. exists u. split; [left|]. by eapply filename_step_Raise.
Qed.

(** X1.  Over file names the method returns exactly when every name can be
    read, and an exception it raises is the one reading some name raises:
    the consistency check of line 262 never fires. *)
Theorem dedup_returns_iff_names_read (self : ITSCube) (found_urls : list string) :
  (is_Ok (skip_duplicate_granules self found_urls).1
   ↔ ∀ u, u ∈ found_urls → is_Ok (get_dates_from_filename u))
  ∧ (∀ e, (skip_duplicate_granules self found_urls).1 = Raise e →
          e ≠ RuntimeError
          ∧ ∃ u, u ∈ found_urls ∧ get_dates_from_filename u = Raise e).
Proof.
  unfold skip_duplicate_granules, skip_duplicate_granules_with.
  destruct (dedup_loop get_dates_from_filename dedup_init found_urls)
    as [st [e|]] eqn:Hloop; simpl.
  - destruct (filename_loop_Raise _ [] _ _ _ (dedup_inv_init _) Hloop)
      as (u & Hu & Hue).
    split.
    + split; [by intros [? ?]|]. intros Hall.
      destruct (Hall u Hu) as [d Hd]. congruence.
    + intros e' [= <-]. split; [|by exists u].
      intros ->. unfold get_dates_from_filename in Hue.
      set (tokens := split "_" (basename u)) in Hue.
      assert (Hne : ∀ i, token tokens i ≫= strptime_Ymd ≠ Raise RuntimeError).
      { intros i. unfold token. destruct (tokens !! i) as [t|]; [|done].
        cbn [mbind result_bind]. unfold strptime_Ymd, datetime_ymd.
        repeat case_match; done. }
      destruct (token tokens 3 ≫= strptime_Ymd) eqn:E1; cbn [mbind result_bind] in Hue;
        [|injection Hue as ->; by eapply Hne].
      destruct (token tokens 4 ≫= strptime_Ymd) eqn:E2; cbn [mbind result_bind] in Hue;
        [|injection Hue as ->; by eapply Hne].
      destruct (token tokens 11 ≫= strptime_Ymd) eqn:E3; cbn [mbind result_bind] in Hue;
        [|injection Hue as ->; by eapply Hne].
      destruct (token tokens 12 ≫= strptime_Ymd) eqn:E4; cbn [mbind result_bind] in Hue;
        [|injection Hue as ->; by eapply Hne].
      done.
  - pose proof (dedup_loop_inv _ found_urls [] dedup_init st
                  (dedup_inv_init _) Hloop) as Hinv. simpl in Hinv.
    split; [|done]. split; [|by eexists].
    intros _ u Hu.
    destruct (inv_acq _ _ _ Hinv u Hu) as (i & k & m & a & Hm & _).
    apply mid_of_Ok in Hm as (d & Hd & _). by exists d.
Qed.

(** A list of names with pairwise different keys goes through the loop
    unchanged. *)
Lemma dedup_loop_distinct (get_dates : string → result granule_dates)
    (l : list string) (ms : list datetime) (st : dedup_vars) :
  Forall2 (λ u m, mid_of get_dates u = Ok m) l ms →
  NoDup (url_mid_dates st ++ ms) →
  dedup_loop get_dates st l =
  (mk_dedup_vars (url_mid_dates st ++ ms) (keep_urls st ++ l) (skipped st), None).
Proof.
  intros Hl. revert st. induction Hl as [|u m l ms Hu Hl IH]; intros st Hnd; simpl.
  - rewrite !app_nil_r. by destruct st.
  - apply mid_of_Ok in Hu as (d & Hd & Hm).
    unfold dedup_step. rewrite Hd. cbn [mbind result_bind].
    destruct d as [[[a1 p1] a2] p2]. rewrite Hm. cbn [mbind result_bind].
    assert (Hnone : py_index m (url_mid_dates st) = None).
    { apply py_index_None. apply NoDup_app in Hnd as (_ & Hdisj & _).
      intros Hin. apply (Hdisj m Hin). left. }
    rewrite Hnone.
    rewrite IH; simpl.
    + by rewrite <- !app_assoc.
    + by rewrite <- app_assoc.
Qed.

(** X2.  Idempotence: the list the method returns goes through the method
    unchanged, with nothing skipped. *)
Theorem dedup_idempotent (self self' self2 : ITSCube) (found_urls kept : list string) :
  skip_duplicate_granules self found_urls = (Ok kept, self') →
  (skip_duplicate_granules self2 kept).1 = Ok kept
  ∧ skipped_double_granules (skip_duplicate_granules self2 kept).2 = []
  ∧ num_urls_from_api (skip_duplicate_granules self2 kept).2 = Some (length kept).
Proof.
  unfold skip_duplicate_granules, skip_duplicate_granules_with.
  destruct (dedup_loop get_dates_from_filename dedup_init found_urls)
    as [st [e|]] eqn:Hloop; [done|].
  intros [= <- _].
  pose proof (dedup_loop_inv _ found_urls [] dedup_init st
                (dedup_inv_init _) Hloop) as Hinv. simpl in Hinv.
  rewrite (dedup_loop_distinct _ (keep_urls st) (url_mid_dates st) dedup_init).
  - done.
  - by eapply dedup_keep_mids.
  - simpl. apply (inv_nodup _ _ _ Hinv).
Qed.

Lemma dedup_idempotent_witness :
  (skip_duplicate_granules cube0 [gB; gC]).1 = Ok [gB; gC]
  ∧ skipped_double_granules (skip_duplicate_granules cube0 [gB; gC]).2 = [].
Proof.
  destruct (dedup_idempotent cube0 (skip_duplicate_granules cube0 [gA; gC; gB]).2
              cube0 [gA; gC; gB] [gB; gC] ltac:(vm_compute; reflexivity))
    as (Hkept & Hskip & _).
  split; [exact Hkept | exact Hskip].
Defined.

(** ** Which name is kept *)

Lemma dominates_antisym (get_dates : string → result granule_dates) (u v : string) :
  dominates get_dates u v → dominates get_dates v u →
  proc_of get_dates u = proc_of get_dates v.
Proof.
  intros (pu & pv & Hu & Hv & ? & ?) (pv' & pu' & Hv' & Hu' & ? & ?).
  assert (pu' = pu) as -> by congruence.
  assert (pv' = pv) as -> by congruence.
  rewrite Hu, Hv. f_equal. destruct pu, pv; simpl in *; f_equal; lia.
Qed.

Lemma dedup_step_max (get_dates : string → result granule_dates)
    (P : list string) (st st' : dedup_vars) (u : string) :
  dedup_inv get_dates P st → max_inv get_dates P st →
  dedup_step get_dates st u = Ok st' →
  max_inv get_dates (P ++ [u]) st'.
Proof.
  intros Hinv Hmax Hstep.
  apply dedup_step_Ok in Hstep as (d & m & Hd & Hm & Hcase).
  assert (Hmid : mid_of get_dates u = Ok m) by (apply mid_of_Ok; eauto).
  destruct Hcase as [[Hnone ->] | (i & k & d' & Hi & Hk & Hd' & Ha1 & Ha2 & Hcase)].
  - intros v [Hv | ->%list_elem_of_singleton]%elem_of_app; simpl.
    + destruct (Hmax v Hv) as (j & k' & m' & ? & ? & ? & ?).
      exists j, k', m'. repeat split; try done; by apply lookup_app_l_Some.
    + exists (length (url_mid_dates st)), u, m. repeat split; try done.
      * by apply list_lookup_middle.
      * rewrite (inv_len _ _ _ Hinv). by apply list_lookup_middle.
  - pose proof (py_index_Some _ _ _ Hi) as Hmi.
    destruct Hcase as [(Hp1 & Hp2 & ->) | (Hnp & ->)]; simpl.
    + assert (Huk : dominates get_dates u k).
      { exists (d.1.1.2, d.2), (d'.1.1.2, d'.2).
        rewrite (proc_of_Ok _ _ _ Hd), (proc_of_Ok _ _ _ Hd'). done. }
      intros v [Hv | ->%list_elem_of_singleton]%elem_of_app; simpl.
      * destruct (Hmax v Hv) as (j & k' & m' & Hvm & Hjm & Hjk & Hkv).
        destruct (decide (i = j)) as [<-|Hne].
        -- exists i, u, m'. repeat split; try done.
           ++ apply list_lookup_insert_eq. by eapply lookup_lt_Some.
           ++ intros Hvu. apply dominates_trans with k; [done|].
              assert (k' = k) as -> by congruence.
              apply Hkv. by apply dominates_trans with u.
        -- exists j, k', m'. repeat split; try done.
           by rewrite list_lookup_insert_ne.
      * exists i, u, m. repeat split; try done.
        apply list_lookup_insert_eq. by eapply lookup_lt_Some.
    + intros v [Hv | ->%list_elem_of_singleton]%elem_of_app; simpl.
      * by apply Hmax.
      * exists i, k, m. repeat split; try done.
        intros Huk. exfalso. apply Hnp.
        destruct Huk as (pu & pk & Hpu & Hpk & ? & ?).
        rewrite (proc_of_Ok _ _ _ Hd) in Hpu. rewrite (proc_of_Ok _ _ _ Hd') in Hpk.
        injection Hpu as <-. injection Hpk as <-. done.
Qed.

Lemma dedup_loop_max (get_dates : string → result granule_dates)
    (l P : list string) (st st' : dedup_vars) :
  dedup_inv get_dates P st → max_inv get_dates P st →
  dedup_loop get_dates st l = (st', None) →
  max_inv get_dates (P ++ l) st'.
Proof.
  revert P st. induction l as [|u l IH]; intros P st Hinv Hmax; simpl.
  - intros [= <-]. by rewrite app_nil_r.
  - destruct (dedup_step get_dates st u) as [st1|e] eqn:Hstep; [|done].
    intros Hloop. rewrite (assoc_L (++) P [u] l : P ++ u :: l = (P ++ [u]) ++ l).
    eapply IH; [by eapply dedup_step_inv | by eapply dedup_step_max | done].
Qed.

(** X3.  The name kept for a key is never beaten: a name of the input with
    the same key whose two processing dates are at least those of the kept
    name has exactly its processing dates. *)
Theorem dedup_kept_unbeaten (self self' : ITSCube) (found_urls kept : list string)
    (k v : string) :
  skip_duplicate_granules self found_urls = (Ok kept, self') →
  k ∈ kept → v ∈ found_urls →
  mid_of get_dates_from_filename v = mid_of get_dates_from_filename k →
  dominates get_dates_from_filename v k →
  proc_of get_dates_from_filename v = proc_of get_dates_from_filename k.
Proof.
  unfold skip_duplicate_granules, skip_duplicate_granules_with.
  destruct (dedup_loop get_dates_from_filename dedup_init found_urls)
    as [st [e|]] eqn:Hloop; [done|].
  intros [= <- _] Hk Hv Hmid Hvk.
  pose proof (dedup_loop_inv _ found_urls [] dedup_init st
                (dedup_inv_init _) Hloop) as Hinv. simpl in Hinv.
  assert (Hmax : max_inv get_dates_from_filename found_urls st).
  { apply (dedup_loop_max _ found_urls [] dedup_init); [apply dedup_inv_init| |done].
    intros w Hw. by apply elem_of_nil in Hw. }
  apply list_elem_of_lookup_1 in Hk as [i Hi].
  destruct (inv_keep _ _ _ Hinv i k Hi) as [_ (m & Hkm & Him)].
  destruct (Hmax v Hv) as (j & k' & m' & Hvm & Hjm & Hjk & Hback).
  assert (m' = m) as -> by congruence.
  assert (j = i) as -> by (eapply NoDup_lookup; [apply (inv_nodup _ _ _ Hinv)|done..]).
  assert (k' = k) as -> by congruence.
  apply dominates_antisym; [done | by apply Hback].
Qed.

Lemma dedup_kept_unbeaten_witness :
  proc_of get_dates_from_filename gB = proc_of get_dates_from_filename gB
  ∧ ¬ dominates get_dates_from_filename gA gB.
Proof.
  split.
  - apply (dedup_kept_unbeaten cube0 (skip_duplicate_granules cube0 [gA; gC; gB]).2
             [gA; gC; gB] [gB; gC] gB gB).
    + vm_compute. reflexivity.
    + left.
    + right. right. left.
    + reflexivity.
    + exists (737460 * US_PER_DAY, 737460 * US_PER_DAY),
        (737460 * US_PER_DAY, 737460 * US_PER_DAY).
      repeat split; try (vm_compute; reflexivity); simpl; lia.
  - intros Hdom.
    pose proof (dedup_kept_unbeaten cube0
                  (skip_duplicate_granules cube0 [gA; gC; gB]).2
                  [gA; gC; gB] [gB; gC] gB gA
                  ltac:(vm_compute; reflexivity)
                  ltac:(left) ltac:(left)
                  ltac:(vm_compute; reflexivity) Hdom) as Heq.
    vm_compute in Heq. discriminate Heq.
Defined.

(** X4.  On an input without ties nor incomparable processing pairs inside
    a key, the names returned are exactly the input names whose processing
    dates are at least those of every input name of their key: the newest
    version of each image pair. *)
Theorem dedup_keeps_newest (self self' : ITSCube) (found_urls kept : list string) :
  tie_free get_dates_from_filename found_urls →
  skip_duplicate_granules self found_urls = (Ok kept, self') →
  ∀ u, u ∈ kept ↔
       u ∈ found_urls
       ∧ ∀ v, v ∈ found_urls →
              mid_of get_dates_from_filename v = mid_of get_dates_from_filename u →
              dominates get_dates_from_filename u v.
Proof.
  unfold skip_duplicate_granules, skip_duplicate_granules_with.
  intros Htf.
  destruct (dedup_loop get_dates_from_filename dedup_init found_urls)
    as [st [e|]] eqn:Hloop; [done|].
  intros [= <- _]. by apply dedup_kept_char.
Qed.

Lemma dedup_keeps_newest_witness :
  gB ∈ [gB; gA] ∧ dominates get_dates_from_filename gB gA.
Proof.
  assert (HA : proc_of get_dates_from_filename gA
               = Ok (737456 * US_PER_DAY, 737456 * US_PER_DAY))
    by (vm_compute; reflexivity).
  assert (HB : proc_of get_dates_from_filename gB
               = Ok (737460 * US_PER_DAY, 737460 * US_PER_DAY))
    by (vm_compute; reflexivity).
  assert (Htf : tie_free get_dates_from_filename [gB; gA]).
  { intros u v Hu Hv Hne Hmid.
    repeat (apply elem_of_cons in Hu as [->|Hu]);
      try (by apply elem_of_nil in Hu);
      repeat (apply elem_of_cons in Hv as [->|Hv]);
      try (by apply elem_of_nil in Hv);
      try (by destruct Hne);
      rewrite (dominates_procs _ gA gB _ _ HA HB),
              (dominates_procs _ gB gA _ _ HB HA); unfold US_PER_DAY; simpl; lia. }
  destruct (dedup_keeps_newest cube0 (skip_duplicate_granules cube0 [gB; gA]).2
              [gB; gA] [gB] Htf ltac:(vm_compute; reflexivity) gB) as [Hin _].
  destruct (Hin ltac:(left)) as [Hmem Hdom].
  split; [exact Hmem|]. apply Hdom; [right; left | vm_compute; reflexivity].
Defined.

(** ** File names *)

Lemma split_nonempty (sep : ascii) (s : string) : split sep s ≠ [].
Proof.
  destruct s as [|c s]; simpl; [done|].
  destruct (Ascii.eqb c sep); [done|]. by destruct (split sep s).
Qed.

Lemma split_append_length (sep : ascii) (p n : string) :
  (2 ≤ length (split sep (String.append p (String sep n))))%nat.
Proof.
  induction p as [|c p IH]; simpl.
  - rewrite Ascii.eqb_refl. pose proof (split_nonempty sep n).
    destruct (split sep n); [done | simpl; lia].
  - destruct (Ascii.eqb c sep); [simpl; lia|].
    destruct (split sep (String.append p (String sep n))); simpl in *; lia.
Qed.

Lemma last_split_append (sep : ascii) (p n : string) :
  List.last (split sep (String.append p (String sep n))) ""
  = List.last (split sep n) "".
Proof.
  induction p as [|c p IH]; simpl.
  - rewrite Ascii.eqb_refl.
    pose proof (split_nonempty sep n). by destruct (split sep n).
  - pose proof (split_append_length sep p n) as Hlen.
    destruct (split sep (String.append p (String sep n))) as [|t [|t' ts]];
      [simpl in Hlen; lia | simpl in Hlen; lia |].
    by destruct (Ascii.eqb c sep).
Qed.

(** X5.  Only the text after the last slash of a name is read: a granule
    has the same four dates, and raises the same exception, under any
    directory or URL prefix. *)
Theorem dates_ignore_directory (prefix name : string) :
  get_dates_from_filename (under prefix name) = get_dates_from_filename name.
Proof.
  unfold get_dates_from_filename, basename, under.
  by rewrite last_split_append.
Qed.

(** X6.  A name that can be read always has a mid-point key, and the key
    lies between its two acquisition dates. *)
Theorem mid_date_between_acquisitions (u : string) (a1 p1 a2 p2 : datetime) :
  get_dates_from_filename u = Ok (a1, p1, a2, p2) →
  ∃ m, mid_of get_dates_from_filename u = Ok m
       ∧ Z.min a1 a2 ≤ m ≤ Z.max a1 a2
       ∧ (a1 ≠ a2 → Z.min a1 a2 < m < Z.max a1 a2).
Proof.
  intros Hd. unfold mid_of. rewrite Hd. cbn [mbind result_bind].
  apply get_dates_from_filename_range in Hd as (n1 & n2 & ? & ? & -> & ->).
  rewrite mid_date_of_midnights by done. eexists. split; [done|].
  unfold US_PER_DAY, US_PER_MS, MAXORDINAL in *.
  change (86400000000 / 2) with 43200000000. lia.
Qed.

Lemma mid_date_between_acquisitions_witness :
  ∃ m, mid_of get_dates_from_filename gA = Ok m
       ∧ Z.min (737425 * US_PER_DAY) (737434 * US_PER_DAY) ≤ m
         ≤ Z.max (737425 * US_PER_DAY) (737434 * US_PER_DAY)
       ∧ (737425 * US_PER_DAY ≠ 737434 * US_PER_DAY →
          Z.min (737425 * US_PER_DAY) (737434 * US_PER_DAY) < m
          < Z.max (737425 * US_PER_DAY) (737434 * US_PER_DAY)).
Proof.
  apply (mid_date_between_acquisitions gA (737425 * US_PER_DAY) (737456 * US_PER_DAY)
           (737434 * US_PER_DAY) (737456 * US_PER_DAY)).
  vm_compute. reflexivity.
Defined.

(** ** Granule search and duplicate resolution together *)

Lemma skip_duplicate_granules_counts (self self' : ITSCube) (l kept : list string) :
  skip_duplicate_granules self l = (Ok kept, self') →
  (∀ u, u ∈ kept → u ∈ l)
  ∧ num_urls_from_api self' = Some (length l)
  ∧ length l = (length kept + length (skipped_double_granules self'))%nat.
Proof.
  unfold skip_duplicate_granules, skip_duplicate_granules_with.
  destruct (dedup_loop get_dates_from_filename dedup_init l) as [st [e|]] eqn:Hloop;
    [done|].
  intros [= <- <-]. simpl.
  pose proof (dedup_loop_inv _ l [] dedup_init st (dedup_inv_init _) Hloop) as Hinv.
  simpl in Hinv. split; [|split; [done|]].
  - intros u [i Hi]%list_elem_of_lookup_1.
    by destruct (inv_keep _ _ _ Hinv i u Hi).
  - rewrite <- length_app. apply Permutation_length, (inv_perm _ _ _ Hinv).
Qed.

(** X7.  When the search returns, every granule examined is counted once:
    [num_urls_from_api] is the number of names returned plus the number
    recorded as doubles.  It is the length of the whole search result
    without [num_granules] (None or 0), the smaller of [num_granules] and
    that length for a positive [num_granules], and what is left after
    dropping the last [-num_granules] names for a negative one. *)
Theorem request_granules_accounting (self self' : ITSCube)
    (search_result kept : list string) (num_granules : option Z) :
  request_granules self search_result num_granules = (Ok kept, self') →
  ∃ N : nat,
    num_urls_from_api self' = Some N
    ∧ N = (length kept + length (skipped_double_granules self'))%nat
    ∧ (num_granules = None ∨ num_granules = Some 0 → N = length search_result)
    ∧ (∀ n, num_granules = Some n → 0 < n →
            Z.of_nat N = Z.min n (Z.of_nat (length search_result)))
    ∧ (∀ n, num_granules = Some n → n < 0 →
            Z.of_nat N = Z.max 0 (Z.of_nat (length search_result) + n)).
Proof.
  unfold request_granules.
  destruct (decide (length search_result = 0%nat)) as [|_]; [done|].
  intros (_ & Hnum & Hlen)%skip_duplicate_granules_counts.
  eexists. split; [exact Hnum|]. split; [exact Hlen|].
  split; [|split].
  - by intros [-> | ->].
  - intros n -> Hn. destruct (decide (n = 0)); [lia|].
    unfold py_slice_to. destruct (n <? 0) eqn:E; [apply Z.ltb_lt in E; lia|].
    rewrite length_take. lia.
  - intros n -> Hn. destruct (decide (n = 0)); [lia|].
    unfold py_slice_to. destruct (n <? 0) eqn:E; [|apply Z.ltb_ge in E; lia].
    rewrite length_take. lia.
Qed.

Lemma request_granules_accounting_witness :
  ∃ N : nat,
    num_urls_from_api (request_granules cube0 [gA; gB; gC] (Some 2)).2 = Some N
    ∧ N = (length [gB]
           + length (skipped_double_granules
                       (request_granules cube0 [gA; gB; gC] (Some 2%Z)).2))%nat
    ∧ (Some 2 = None ∨ Some 2 = Some 0 → N = length [gA; gB; gC])
    ∧ (∀ n, Some 2 = Some n → 0 < n →
            Z.of_nat N = Z.min n (Z.of_nat (length [gA; gB; gC])))
    ∧ (∀ n, Some 2 = Some n → n < 0 →
            Z.of_nat N = Z.max 0 (Z.of_nat (length [gA; gB; gC]) + n)).
Proof.
  apply (request_granules_accounting cube0 _ [gA; gB; gC] [gB] (Some 2)).
  vm_compute. reflexivity.
Defined.

(** X8.  With a positive [num_granules] only the first [num_granules]
    names of the search result can be returned, with a negative one the
    last [-num_granules] names never are; in every case a returned name is
    a name of the search result. *)
Theorem request_granules_examines_prefix (self self' : ITSCube)
    (search_result kept : list string) (num_granules : option Z) (u : string) :
  request_granules self search_result num_granules = (Ok kept, self') →
  u ∈ kept →
  ∃ i : nat,
    search_result !! i = Some u
    ∧ (∀ n, num_granules = Some n → 0 < n → Z.of_nat i < n)
    ∧ (∀ n, num_granules = Some n → n < 0 →
            Z.of_nat i < Z.of_nat (length search_result) + n).
Proof.
  unfold request_granules.
  destruct (decide (length search_result = 0%nat)) as [|_]; [done|].
  intros (Hin & _ & _)%skip_duplicate_granules_counts Hu.
  apply Hin in Hu.
  destruct num_granules as [n|].
  - destruct (decide (n = 0)) as [->|Hn0].
    + apply list_elem_of_lookup_1 in Hu as [i Hi]. exists i.
      split; [done|]. split; intros ? [= <-]; lia.
    + unfold py_slice_to in Hu. destruct (n <? 0) eqn:E.
      * apply Z.ltb_lt in E. apply elem_of_take in Hu as (i & Hi & Hlt).
        exists i. split; [done|]. split; intros ? [= <-]; lia.
      * apply Z.ltb_ge in E. apply elem_of_take in Hu as (i & Hi & Hlt).
        exists i. split; [done|]. split; intros ? [= <-]; lia.
  - apply list_elem_of_lookup_1 in Hu as [i Hi]. exists i.
    split; [done|]. split; intros ? [=].
Qed.

Lemma request_granules_examines_prefix_witness :
  ∃ i : nat,
    [gC; gA; gB] !! i = Some gA
    ∧ (∀ n, Some 2 = Some n → 0 < n → Z.of_nat i < n)
    ∧ (∀ n, Some 2 = Some n → n < 0 →
            Z.of_nat i < Z.of_nat (length [gC; gA; gB]) + n).
Proof.
  apply (request_granules_examines_prefix cube0
           (request_granules cube0 [gC; gA; gB] (Some 2)).2
           [gC; gA; gB] [gC; gA] (Some 2) gA).
  - vm_compute. reflexivity.
  - right. left.
Defined.

(** X9.  A negative [num_granules] that drops every name of a non-empty
    search result leaves nothing to examine: both drivers then raise
    ZeroDivisionError from [format_stats], with the output directory
    removed, no granule opened and no store written. *)
Theorem negative_num_granules_divides_by_zero (NUM_GRANULES_TO_WRITE : nat)
    (open_dataset : string → result dataset) (self : ITSCube) (w : World)
    (search_result : list string) (n : Z) :
  search_result ≠ [] →
  Z.of_nat (length search_result) + n ≤ 0 →
  create NUM_GRANULES_TO_WRITE open_dataset self w search_result (Some n)
  = Raised ZeroDivisionError (mk_World None (opened w))
  ∧ create_parallel NUM_GRANULES_TO_WRITE open_dataset self w search_result (Some n)
    = Some (Raised ZeroDivisionError (mk_World None (opened w))).
Proof.
  intros Hne Hn.
  assert (Hreq : request_granules (clear self) search_result (Some n)
                 = skip_duplicate_granules (clear self) []).
  { unfold request_granules.
    destruct (decide (length search_result = 0%nat)) as [H0|_].
    { by destruct search_result. }
    destruct (decide (n = 0)) as [->|_].
    { destruct search_result; [done | simpl in Hn; lia]. }
    unfold py_slice_to. destruct (n <? 0) eqn:E.
    - replace (Z.to_nat (Z.of_nat (length search_result) + n)) with 0%nat by lia.
      by rewrite take_0.
    - apply Z.ltb_ge in E. destruct search_result; [done | simpl in Hn; lia]. }
  unfold create, create_parallel. rewrite Hreq. done.
Qed.

Lemma negative_num_granules_divides_by_zero_witness :
  create 2 sample_open cube0 stored0 ["g1"; "g2"] (Some (-2))
  = Raised ZeroDivisionError (mk_World None (opened stored0))
  ∧ create_parallel 2 sample_open cube0 stored0 ["g1"; "g2"] (Some (-2))
    = Some (Raised ZeroDivisionError (mk_World None (opened stored0))).
Proof.
  apply (negative_num_granules_divides_by_zero 2 sample_open cube0 stored0
           ["g1"; "g2"] (-2)); [done | simpl; lia].
Defined.

(** ** The layer cut out of a granule *)

Lemma select_Forall {A} (f : A → bool) (l : list A) :
  Forall (λ a, f a = true) (select (f <$> l) l).
Proof.
  induction l as [|a l IH]; simpl; [by apply Forall_nil|].
  destruct (f a) eqn:E; [by apply Forall_cons | done].
Qed.

Lemma select_sublist {A} (mask : list bool) (l : list A) :
  select mask l `sublist_of` l.
Proof.
  revert l. induction mask as [|b mask IH]; intros [|a l]; simpl;
    try apply sublist_nil_l.
  destruct b; [by apply sublist_skip | by apply sublist_cons].
Qed.

Lemma select_length {A B} (mask : list bool) (l : list A) (k : list B) :
  length l = length k → length (select mask l) = length (select mask k).
Proof.
  revert l k. induction mask as [|b mask IH]; intros [|a l] [|c k]; simpl; try done.
  intros [= Hlen]. destruct b; simpl; auto.
Qed.

Lemma select_none {A} (mask : list bool) (l : list A) :
  existsb id mask = false → select mask l = [].
Proof.
  revert l. induction mask as [|b mask IH]; intros [|a l]; simpl; try done.
  destruct b; simpl; [done | apply IH].
Qed.

Lemma any_notnull_cell (g : grid) :
  any_notnull g = true → ∃ row c, row ∈ g ∧ Some c ∈ row.
Proof.
  unfold any_notnull. intros (row & Hrow & Hex)%existsb_exists.
  apply existsb_exists in Hex as ([c|] & Hc & Hsome); [|done].
  exists row, c. split; by apply list_elem_of_In.
Qed.

Lemma accepted_is_region (self : ITSCube) (ds : dataset) (ds_url : string)
    (t : list pyval) (layer : dataset) :
  preprocess_dataset self ds ds_url = Ok t →
  t !! 4%nat = Some (PyDataset layer) →
  layer = region_of self ds
  ∧ (∃ epsg, spatial_epsg ds = Some epsg ∧ pretty epsg = projection self)
  ∧ has_data_in_region self ds = true.
Proof.
  intros Ht Hl.
  apply preprocess_dataset_Ok in Ht
    as (epsg & Hepsg & [[_ ->] | [(_ & _ & ->)
                       | (Hp & Hd & c & dt & d & m & _ & _ & _ & _ & ->)]]);
    try done.
  injection Hl as <-. split; [done|]. split; [by exists epsg | done].
Qed.

(** X10.  A layer accepted for the cube lies inside the region: the granule
    has the projection of the cube, the [x] and [y] labels of the layer are
    labels of the granule within the bounds of the cube, in their order,
    and its [v] has a cell that is not missing. *)
Theorem accepted_layer_in_region (self : ITSCube) (ds : dataset) (ds_url : string)
    (t : list pyval) (layer : dataset) :
  preprocess_dataset self ds ds_url = Ok t →
  t !! 4%nat = Some (PyDataset layer) →
  (∃ epsg, spatial_epsg ds = Some epsg ∧ pretty epsg = projection self)
  ∧ Forall (λ c, b_min (x self) ≤ c ≤ b_max (x self)) (ds_x layer)
  ∧ Forall (λ c, b_min (y self) ≤ c ≤ b_max (y self)) (ds_y layer)
  ∧ ds_x layer `sublist_of` ds_x ds
  ∧ ds_y layer `sublist_of` ds_y ds
  ∧ ∃ v row c, data_vars layer !! DataVars.V = Some v
               ∧ row ∈ values v ∧ Some c ∈ row.
Proof.
  intros Ht Hl.
  destruct (accepted_is_region _ _ _ _ _ Ht Hl) as (-> & Hp & Hd).
  split; [done|].
  assert (Hb : ∀ (b : Bounds) (l : list Z),
             Forall (λ c, b_min b ≤ c ≤ b_max b) (select (in_bounds b <$> l) l)).
  { intros b l. eapply Forall_impl; [apply select_Forall|].
    intros c [?%Z.leb_le ?%Z.leb_le]%andb_true_iff. done. }
  unfold region_of, where_drop; simpl.
  split; [by destruct (existsb id _); [|apply Forall_nil]|].
  split; [by destruct (existsb id _); [|apply Forall_nil]|].
  split; [destruct (existsb id _); [apply select_sublist | apply sublist_nil_l]|].
  split; [destruct (existsb id _); [apply select_sublist | apply sublist_nil_l]|].
  unfold has_data_in_region in Hd.
  destruct (data_vars (region_of self ds) !! DataVars.V) as [v|] eqn:Ev; [|done].
  apply any_notnull_cell in Hd as (row & c & ? & ?).
  exists v, row, c. done.
Qed.

Lemma accepted_layer_in_region_witness :
  Forall (λ c, 0 ≤ c ≤ 10) (ds_x (region_of cube0 ds_ok))
  ∧ ds_x (region_of cube0 ds_ok) `sublist_of` [0; 5; 20].
Proof.
  destruct (accepted_layer_in_region cube0 ds_ok "g1"
              [PyBool false; PyInt 32628; PyDatetime 63713865600016000;
               PyStr "g1"; PyDataset (region_of cube0 ds_ok)]
              (region_of cube0 ds_ok)
              ltac:(vm_compute; reflexivity) ltac:(reflexivity))
    as (_ & Hx & _ & Hsx & _).
  split; [exact Hx | exact Hsx].
Defined.

(** X11.  Cutting the region out keeps the grids rectangular: when every
    variable of the granule has one row per [y] label and one cell per [x]
    label, so has every variable of the accepted layer. *)
Theorem accepted_layer_well_shaped (self : ITSCube) (ds : dataset) (ds_url : string)
    (t : list pyval) (layer : dataset) :
  well_shaped ds →
  preprocess_dataset self ds ds_url = Ok t →
  t !! 4%nat = Some (PyDataset layer) →
  well_shaped layer
  ∧ dom (data_vars layer) = dom (data_vars ds).
Proof.
  intros Hws Ht Hl.
  destruct (accepted_is_region _ _ _ _ _ Ht Hl) as (-> & _ & _).
  unfold region_of, where_drop, well_shaped; simpl.
  split; [|by rewrite dom_fmap_L].
  set (mlon := in_bounds (x self) <$> ds_x ds).
  set (mlat := in_bounds (y self) <$> ds_y ds).
  intros name v' [v [<- Hv]]%lookup_fmap_Some. simpl.
  destruct (Hws name v Hv) as [Hrows Hcells].
  destruct (existsb id mlon) eqn:Elon.
  - split.
    + rewrite length_fmap. by apply select_length.
    + apply Forall_fmap, Forall_forall. intros row Hrow. simpl.
      destruct (existsb id mlat) eqn:Elat.
      * apply select_length.
        apply (proj1 (Forall_forall _ _) Hcells row).
        eapply elem_of_sublist; [exact Hrow | apply select_sublist].
      * rewrite (select_none mlat (values v) Elat) in Hrow.
        by apply elem_of_nil in Hrow.
  - split; [done | by apply Forall_nil].
Qed.

Lemma accepted_layer_well_shaped_witness :
  well_shaped (region_of cube0 ds_ok)
  ∧ dom (data_vars (region_of cube0 ds_ok)) = dom (data_vars ds_ok).
Proof.
  apply (accepted_layer_well_shaped cube0 ds_ok "g1"
           [PyBool false; PyInt 32628; PyDatetime 63713865600016000;
            PyStr "g1"; PyDataset (region_of cube0 ds_ok)]).
  - unfold well_shaped.
    apply (bool_decide_eq_true_1 (map_Forall _ (data_vars ds_ok))).
    vm_compute. reflexivity.
  - vm_compute. reflexivity.
  - reflexivity.
Defined.

(** ** Every granule is accounted for *)

Lemma length_setdefault_append (m : gmap Z (list string)) (k : Z) (u : string) :
  map_fold (λ _ each n, (length each + n)%nat) 0%nat
    (<[k := default [] (m !! k) ++ [u]]> m)
  = S (map_fold (λ (_ : Z) (each : list string) n, (length each + n)%nat) 0%nat m).
Proof.
  assert (Hcomm : ∀ (m' : gmap Z (list string)) (j1 j2 : Z) (z1 z2 : list string)
                    (y : nat),
             j1 ≠ j2 → m' !! j1 = Some z1 → m' !! j2 = Some z2 →
             (length z1 + (length z2 + y) = length z2 + (length z1 + y))%nat)
    by (intros; lia).
  destruct (m !! k) as [old|] eqn:Hk; simpl.
  - rewrite <- insert_delete_eq.
    rewrite map_fold_insert_L; [|by eauto|by apply lookup_delete_eq].
    rewrite (map_fold_delete_L _ _ k old m); [|by eauto|done].
    rewrite length_app. simpl. lia.
  - rewrite map_fold_insert_L; [|by eauto|done]. simpl. lia.
Qed.

Lemma add_layer_tally (self : ITSCube) (is_empty : bool)
    (layer_projection : Z) (mid_date : option datetime) (url : string)
    (data : option dataset) :
  (length (urls (add_layer self is_empty layer_projection mid_date url data))
   + length (skipped_empty_granules
               (add_layer self is_empty layer_projection mid_date url data))
   + sum_projs (add_layer self is_empty layer_projection mid_date url data)
   = S (length (urls self) + length (skipped_empty_granules self) + sum_projs self))%nat
  ∧ (aligned self →
     aligned (add_layer self is_empty layer_projection mid_date url data))
  ∧ skipped_double_granules (add_layer self is_empty layer_projection mid_date url data)
    = skipped_double_granules self
  ∧ num_urls_from_api (add_layer self is_empty layer_projection mid_date url data)
    = num_urls_from_api self.
Proof.
  unfold add_layer, sum_projs, aligned.
  destruct data as [d|]; [|destruct is_empty]; simpl.
  - rewrite !length_app. simpl. repeat split; lia.
  - rewrite !length_app. simpl. repeat split; lia.
  - rewrite length_setdefault_append. repeat split; lia.
Qed.

(** X12.  [add_layer] records the granule in exactly one place: the URL
    goes to the layers collected, to the empty granules or to the granules
    of its projection, the three counts that [format_stats] and the cube
    report grow by one in total, and the lists of layers, dates and URLs
    stay aligned. *)
Theorem add_layer_records_once (self : ITSCube) (is_empty : bool)
    (layer_projection : Z) (mid_date : option datetime) (url : string)
    (data : option dataset) :
  let self' := add_layer self is_empty layer_projection mid_date url data in
  (length (urls self') + length (skipped_empty_granules self') + sum_projs self'
   = S (length (urls self) + length (skipped_empty_granules self) + sum_projs self))%nat
  ∧ (length (urls self') - length (urls self) = length (ds self') - length (ds self)
     ∧ length (urls self') - length (urls self)
       = length (dates self') - length (dates self))%nat
  ∧ (is_Some data ↔ urls self' = urls self ++ [url])
  ∧ (data = None ∧ is_empty = true
     ↔ skipped_empty_granules self' = skipped_empty_granules self ++ [url])
  ∧ (data = None ∧ is_empty = false
     ↔ ∃ l, skipped_proj_granules self' !! layer_projection = Some (l ++ [url])
            ∧ skipped_proj_granules self !! layer_projection
              ≠ Some (l ++ [url]))
  ∧ skipped_double_granules self' = skipped_double_granules self
  ∧ num_urls_from_api self' = num_urls_from_api self.
Proof.
  assert (Hneq : ∀ (A : Type) (l : list A) (a : A), l ≠ l ++ [a]).
  { intros A l a H. apply (f_equal length) in H. rewrite length_app in H.
    simpl in H. lia. }
  unfold add_layer, sum_projs.
  destruct data as [d|]; [|destruct is_empty]; simpl.
  - rewrite !length_app. simpl. split; [lia|]. split; [lia|].
    split; [split; [done | by eexists]|].
    split; [split; [by intros [[=] _] | by intros ?%Hneq]|].
    split; [|done]. split; [by intros [[=] _]|].
    intros (l & H1 & H2). congruence.
  - rewrite !length_app. simpl. split; [lia|]. split; [lia|].
    split; [split; [by intros [? [=]] | by intros ?%Hneq]|].
    split; [done|].
    split; [|done]. split; [by intros [_ [=]]|].
    intros (l & H1 & H2). congruence.
  - rewrite length_setdefault_append. split; [lia|]. split; [lia|].
    split; [split; [by intros [? [=]] | by intros ?%Hneq]|].
    split; [split; [by intros [_ [=]] | by intros ?%Hneq]|].
    split; [|done]. split; [|done]. intros _.
    exists (default [] (skipped_proj_granules self !! layer_projection)).
    rewrite lookup_insert_eq. split; [done|].
    destruct (skipped_proj_granules self !! layer_projection) as [old|]; simpl;
      [|done].
    intros [= H]. by apply Hneq in H.
Qed.

(** What a granule adds to the object, as the loops of the drivers use it:
    the count of granules recorded grows by one, the lists stay aligned,
    and the rest of the object is left alone. *)
Lemma add_layer_star_tally (self self' : ITSCube) (results : list pyval) :
  add_layer_star self results = Ok self' →
  (length (urls self') + length (skipped_empty_granules self') + sum_projs self'
   = S (length (urls self) + length (skipped_empty_granules self) + sum_projs self))%nat
  ∧ (aligned self → aligned self')
  ∧ skipped_double_granules self' = skipped_double_granules self
  ∧ num_urls_from_api self' = num_urls_from_api self.
Proof.
  unfold add_layer_star.
  destruct results as [|[| e | | | |] [|[| | p | | |] [|m [|[| | | u | |] [|d [|]]]]]];
    try done.
  intros (m' & _ & (d' & _ & H%Ok_inj)%bind_Ok)%bind_Ok. subst self'.
  apply add_layer_tally.
Qed.

(** A write that returns moves the layers collected to the store: the
    store grows by one time slice per date, the object is left with no
    layer, and its registries are kept. *)
Lemma combine_layers_tally (self self' : ITSCube) (b : bool) (w w' : World) :
  combine_layers self b w = Returned () self' w' →
  self' = clear_vars self
  ∧ stored_count w' = (stored_count w + length (dates self))%nat
  ∧ opened w' = opened w
  ∧ ds self ≠ [].
Proof.
  unfold combine_layers.
  destruct (build_layers self b) as [t|e] eqn:Ht; [|done].
  assert (Hds : ds self ≠ []).
  { intros Hnil. unfold build_layers in Ht. rewrite Hnil in Ht. done. }
  apply build_layers_mid_date in Ht.
  unfold stored_count, to_zarr_create, to_zarr_append.
  destruct b, (store w) as [z|]; try done.
  - intros [= <- <-]. simpl. by rewrite Ht.
  - case_decide; [done|]. intros [= <- <-]. simpl.
    by rewrite length_app, Ht.
  - intros [= <- <-]. simpl. by rewrite Ht.
Qed.

Section Accounting.
Variable NUM_GRANULES_TO_WRITE : nat.
Variable open_dataset : string → result dataset.

Lemma create_loop_tally (found_urls : list string) (self self' : ITSCube)
    (w w' : World) (b b' : bool) :
  create_loop NUM_GRANULES_TO_WRITE open_dataset self w b found_urls
  = Returned b' self' w' →
  aligned self →
  (stored_count w' + length (urls self') + length (skipped_empty_granules self')
   + sum_projs self'
   = stored_count w + length (urls self) + length (skipped_empty_granules self)
     + sum_projs self + length found_urls)%nat
  ∧ aligned self'
  ∧ opened w' = opened w ++ found_urls
  ∧ skipped_double_granules self' = skipped_double_granules self
  ∧ num_urls_from_api self' = num_urls_from_api self.
Proof.
  revert self w b. induction found_urls as [|u rest IH]; intros self w b; simpl.
  - intros [= <- <- <-] Hal. rewrite app_nil_r.
    split; [lia|]. split; [exact Hal|]. by repeat split.
  - set (w1 := mk_World (store w) (opened w ++ [u])).
    destruct (read_s3_dataset open_dataset self u ≫= add_layer_star self)
      as [self1|e] eqn:Eadd; [|done].
    apply bind_Ok in Eadd as (r & _ & Eadd).
    apply add_layer_star_tally in Eadd as (Hcnt & Hal1 & Hdbl & Hnum).
    intros Hloop Hal. specialize (Hal1 Hal).
    case_decide.
    + destruct (combine_layers self1 b w1) as [[] self2 w2|e w2] eqn:Ec; [|done].
      apply combine_layers_tally in Ec as (-> & Hst & Hop & _).
      apply IH in Hloop as (Hcnt2 & Hal2 & Hop2 & Hdbl2 & Hnum2); [|done].
      destruct Hal1 as [_ Hal1].
      simpl in *. rewrite Hop in Hop2. simpl in Hop2.
      unfold sum_projs in *. simpl in *.
      split; [|split; [done|split; [|split; congruence]]].
      * change (stored_count w1) with (stored_count w) in Hst. lia.
      * by rewrite Hop2, <- (assoc_L (++)).
    + apply IH in Hloop as (Hcnt2 & Hal2 & Hop2 & Hdbl2 & Hnum2); [|done].
      simpl in Hop2.
      split; [|split; [done|split; [|split; congruence]]].
      * change (stored_count w1) with (stored_count w) in Hcnt2. lia.
      * by rewrite Hop2, <- (assoc_L (++)).
Qed.

Lemma request_granules_clear (self self' : ITSCube) (search_result kept : list string)
    (num_granules : option Z) :
  request_granules (clear self) search_result num_granules = (Ok kept, self') →
  urls self' = [] ∧ dates self' = [] ∧ ds self' = []
  ∧ skipped_empty_granules self' = [] ∧ skipped_proj_granules self' = ∅.
Proof.
  unfold request_granules. case_decide; [done|].
  unfold skip_duplicate_granules, skip_duplicate_granules_with.
  destruct (dedup_loop _ _ _) as [st [e|]]; [done|]. by intros [= _ <-].
Qed.

Lemma request_granules_counts (self self' : ITSCube)
    (search_result kept : list string) (num_granules : option Z) :
  request_granules self search_result num_granules = (Ok kept, self') →
  num_urls_from_api self'
  = Some (length kept + length (skipped_double_granules self'))%nat.
Proof.
  unfold request_granules. case_decide; [done|].
  intros (_ & Hnum & Hlen)%skip_duplicate_granules_counts. by rewrite Hnum, Hlen.
Qed.

End Accounting.

(** X13.  When [create] returns, every granule the search examined is
    accounted for once: the time slices of the store, the empty granules,
    the granules of another projection and the doubles add up to
    [num_urls_from_api].  No layer is left in the object, and the granules
    opened are the names returned, each once and in their order. *)
Theorem create_accounts_for_every_granule (NUM_GRANULES_TO_WRITE : nat)
    (open_dataset : string → result dataset) (self self' : ITSCube) (w w' : World)
    (search_result found_urls : list string) (num_granules : option Z) :
  create NUM_GRANULES_TO_WRITE open_dataset self w search_result num_granules
  = Returned found_urls self' w' →
  num_urls_from_api self'
  = Some (stored_count w' + length (skipped_empty_granules self')
          + sum_projs self' + length (skipped_double_granules self'))%nat
  ∧ (stored_count w' + length (skipped_empty_granules self') + sum_projs self'
     = length found_urls)%nat
  ∧ urls self' = [] ∧ ds self' = [] ∧ dates self' = []
  ∧ opened w' = opened w ++ found_urls.
Proof.
  unfold create.
  destruct (request_granules (clear self) search_result num_granules)
    as [[found|e] self1] eqn:Ereq; [|done].
  destruct (request_granules_clear _ _ _ _ _ Ereq) as (Hu & Hd & Hds & He & Hp).
  apply request_granules_counts in Ereq as HN.
  destruct (create_loop NUM_GRANULES_TO_WRITE open_dataset self1
              (mk_World None (opened w)) true found) as [b self2 w2|e w2] eqn:Eloop;
    [|done].
  apply create_loop_tally in Eloop as (Hcnt & [Hal1 Hal2] & Hop & Hdbl & Hnum);
    [|by unfold aligned; rewrite Hu, Hd, Hds].
  unfold sum_projs in Hcnt at 2. rewrite Hu, He, Hp in Hcnt.
  rewrite map_fold_empty in Hcnt. simpl in Hcnt, Hop.
  change (stored_count (mk_World None (opened w))) with 0%nat in Hcnt.
  case_decide as Hrem.
  - destruct (combine_layers self2 b w2) as [[] self3 w3|e w3] eqn:Ec; [|done].
    apply combine_layers_tally in Ec as (-> & Hst & Hop3 & _).
    destruct (format_stats (clear_vars self2)); [|done].
    intros [= <- <- <-]. simpl.
    change (sum_projs (clear_vars self2)) with (sum_projs self2).
    rewrite Hnum, HN, Hdbl, Hop3, Hop.
    split; [f_equal; lia|]. split; [lia|]. done.
  - destruct (format_stats self2); [|done].
    intros [= <- <- <-].
    assert (Hu2 : urls self2 = []).
    { apply nil_length_inv.
      destruct (decide (length (urls self2) = 0%nat)); [done | by destruct Hrem]. }
    rewrite Hu2 in *. simpl in *.
    rewrite Hnum, HN, Hdbl.
    split; [f_equal; lia|]. split; [lia|]. split; [done|].
    split; [by apply nil_length_inv|]. split; [by apply nil_length_inv | done].
Qed.

Lemma create_accounts_for_every_granule_witness :
  num_urls_from_api after_create0.1
  = Some (stored_count after_create0.2
          + length (skipped_empty_granules after_create0.1)
          + sum_projs after_create0.1
          + length (skipped_double_granules after_create0.1))%nat
  ∧ (stored_count after_create0.2 + length (skipped_empty_granules after_create0.1)
     + sum_projs after_create0.1 = length [gB; gC; gD])%nat
  ∧ urls after_create0.1 = [] ∧ ds after_create0.1 = [] ∧ dates after_create0.1 = []
  ∧ opened after_create0.2 = opened world0 ++ [gB; gC; gD].
Proof.
  apply (create_accounts_for_every_granule 2 granule_open cube0 after_create0.1
           world0 after_create0.2 [gA; gB; gC; gD] [gB; gC; gD] None).
  vm_compute. reflexivity.
Defined.

(** ** The batches of [create_parallel] *)

Lemma mapM_Ok_length {A B} (f : A → result B) (l : list A) (k : list B) :
  mapM f l = Ok k → length k = length l.
Proof.
  revert k. induction l as [|a l IH]; intros k; cbn [mapM].
  - by intros [= <-].
  - intros (b & _ & (k' & Hk' & H%Ok_inj)%bind_Ok)%bind_Ok. subst k.
    simpl. f_equal. by apply IH.
Qed.

Lemma mapM_Ok_Forall2 {A B} (f : A → result B) (l : list A) (k : list B) :
  mapM f l = Ok k → Forall2 (λ a b, f a = Ok b) l k.
Proof.
  revert k. induction l as [|a l IH]; intros k; cbn [mapM].
  - intros [= <-]. constructor.
  - intros (b & Hb & (k' & Hk' & H%Ok_inj)%bind_Ok)%bind_Ok. subst k.
    constructor; [done | by apply IH].
Qed.

Lemma add_layers_tally (results : list (list pyval)) (self self' : ITSCube) :
  add_layers self results = Ok self' →
  (length (urls self') + length (skipped_empty_granules self') + sum_projs self'
   = length (urls self) + length (skipped_empty_granules self) + sum_projs self
     + length results)%nat
  ∧ (aligned self → aligned self')
  ∧ skipped_double_granules self' = skipped_double_granules self
  ∧ num_urls_from_api self' = num_urls_from_api self.
Proof.
  revert self. induction results as [|r rest IH]; intros self; simpl.
  - intros [= <-]. split; [lia | done].
  - intros (self1 & H1 & Hrest)%bind_Ok.
    apply add_layer_star_tally in H1 as (Hc1 & Ha1 & Hd1 & Hn1).
    apply IH in Hrest as (Hc2 & Ha2 & Hd2 & Hn2).
    split; [lia|]. split; [auto|]. split; congruence.
Qed.

Section Batches.
Variable NUM_GRANULES_TO_WRITE : nat.
Variable open_dataset : string → result dataset.

Lemma create_parallel_loop_tally (fuel : nat) (self self' : ITSCube) (w w' : World)
    (b : bool) (start num_to_process : nat) (found_urls : list string) :
  create_parallel_loop NUM_GRANULES_TO_WRITE open_dataset fuel self w b start
    num_to_process found_urls = Some (Returned () self' w') →
  urls self = [] → ds self = [] → dates self = [] →
  (start + num_to_process ≤ length found_urls)%nat →
  (stored_count w' + length (skipped_empty_granules self') + sum_projs self'
   = stored_count w + length (skipped_empty_granules self) + sum_projs self
     + num_to_process)%nat
  ∧ urls self' = [] ∧ ds self' = [] ∧ dates self' = []
  ∧ opened w' = opened w ++ take num_to_process (drop start found_urls)
  ∧ skipped_double_granules self' = skipped_double_granules self
  ∧ num_urls_from_api self' = num_urls_from_api self.
Proof.
  revert self w b start num_to_process.
  induction fuel as [|fuel IH]; intros self w b start n; simpl.
  - case_decide as Hn; [|done]. intros [= <- <-] Hu Hd Hdt _. subst n.
    rewrite take_0, app_nil_r. split; [lia | done].
  - case_decide as Hn.
    { intros [= <- <-] Hu Hd Hdt _. subst n.
      rewrite take_0, app_nil_r. split; [lia | done]. }
    set (num_tasks := if decide (NUM_GRANULES_TO_WRITE < n)%nat
                      then NUM_GRANULES_TO_WRITE else n).
    assert (Hle : (num_tasks ≤ n)%nat) by (subst num_tasks; case_decide; lia).
    set (files := take num_tasks (drop start found_urls)).
    set (w1 := mk_World (store w) (opened w ++ files)).
    destruct (mapM (read_s3_dataset open_dataset self) files ≫= add_layers self)
      as [self1|e] eqn:Eadd; [|done].
    destruct (combine_layers self1 b w1) as [[] self2 w2|e w2] eqn:Ec; [|done].
    intros Hloop Hu Hd Hdt Hbound.
    apply bind_Ok in Eadd as (rs & Hrs & Eadd).
    apply mapM_Ok_length in Hrs.
    apply add_layers_tally in Eadd as (Hc1 & Ha1 & Hd1 & Hn1).
    destruct Ha1 as [_ Hal]; [by unfold aligned; rewrite Hu, Hd, Hdt|].
    apply combine_layers_tally in Ec as (-> & Hst & Hop & _).
    apply IH in Hloop as (Hc2 & Hu2 & Hds2 & Hdt2 & Hop2 & Hd2 & Hn2);
      [|done|done|done|lia].
    assert (Hfiles : length files = num_tasks).
    { subst files. rewrite length_take, length_drop. lia. }
    rewrite Hu in Hc1. simpl in *.
    change (sum_projs (clear_vars self1)) with (sum_projs self1) in Hc2.
    change (stored_count w1) with (stored_count w) in Hst.
    split; [lia|]. split; [done|]. split; [done|]. split; [done|].
    split; [|split; congruence].
    rewrite Hop2, Hop. simpl. rewrite <- (assoc_L (++)). f_equal.
    subst files. rewrite <- drop_drop, take_take_drop. f_equal. lia.
Qed.

Lemma preprocess_dataset_ext (self self' : ITSCube) (d : dataset) (url : string) :
  projection self' = projection self → x self' = x self → y self' = y self →
  preprocess_dataset self' d url = preprocess_dataset self d url.
Proof. unfold preprocess_dataset. by intros -> -> ->. Qed.

Lemma request_granules_keeps (self self' : ITSCube) (search_result : list string)
    (num_granules : option Z) (r : result (list string)) :
  request_granules self search_result num_granules = (r, self') →
  projection self' = projection self ∧ x self' = x self ∧ y self' = y self.
Proof.
  unfold request_granules. case_decide; [by intros [= _ <-]|].
  unfold skip_duplicate_granules, skip_duplicate_granules_with.
  destruct (dedup_loop _ _ _) as [st [e|]]; by intros [= _ <-].
Qed.

(** A batch of rejected granules leaves no layer. *)
Lemma add_layers_rejected (results : list (list pyval)) (self : ITSCube) :
  Forall (λ r, ∃ e p u, r = [PyBool e; PyInt p; PyNone; PyStr u; PyNone]) results →
  ∃ self', add_layers self results = Ok self' ∧ ds self' = ds self.
Proof.
  revert self. induction results as [|r rest IH]; intros self Hall; simpl.
  - by exists self.
  - apply Forall_cons in Hall as [(e & p & u & ->) Hrest].
    cbn [add_layer_star mbind result_bind].
    destruct (IH (add_layer self e p None u None) Hrest) as (self' & -> & Hds).
    exists self'. split; [done|]. rewrite Hds. unfold add_layer. by destruct e.
Qed.

Lemma read_s3_dataset_rejected (self : ITSCube) (u : string) (r : list pyval) :
  read_s3_dataset open_dataset self u = Ok r → r !! 4%nat = Some PyNone →
  ∃ e p u', r = [PyBool e; PyInt p; PyNone; PyStr u'; PyNone].
Proof.
  unfold read_s3_dataset. intros (d & _ & Hr)%bind_Ok H4.
  apply preprocess_dataset_Ok in Hr
    as (epsg & _ & [[_ ->] | [(_ & _ & ->)
                   | (_ & _ & c & dt & d' & m & _ & _ & _ & _ & ->)]]);
    [eauto..|done].
Qed.

End Batches.

(** X14.  When [create_parallel] returns, every granule the search examined
    is accounted for once, as for [create]: the time slices of the store,
    the empty granules, the granules of another projection and the doubles
    add up to [num_urls_from_api]; no layer is left in the object, and the
    granules opened are the names returned, each once and in their order. *)
Theorem create_parallel_accounts_for_every_granule (NUM_GRANULES_TO_WRITE : nat)
    (open_dataset : string → result dataset) (self self' : ITSCube) (w w' : World)
    (search_result found_urls : list string) (num_granules : option Z) :
  create_parallel NUM_GRANULES_TO_WRITE open_dataset self w search_result num_granules
  = Some (Returned found_urls self' w') →
  num_urls_from_api self'
  = Some (stored_count w' + length (skipped_empty_granules self')
          + sum_projs self' + length (skipped_double_granules self'))%nat
  ∧ (stored_count w' + length (skipped_empty_granules self') + sum_projs self'
     = length found_urls)%nat
  ∧ urls self' = [] ∧ ds self' = [] ∧ dates self' = []
  ∧ opened w' = opened w ++ found_urls.
Proof.
  unfold create_parallel.
  destruct (request_granules (clear self) search_result num_granules)
    as [[found|e] self1] eqn:Ereq; [|done].
  destruct (request_granules_clear _ _ _ _ _ Ereq) as (Hu & Hd & Hds & He & Hp).
  apply request_granules_counts in Ereq as HN.
  destruct (create_parallel_loop NUM_GRANULES_TO_WRITE open_dataset (length found)
              self1 (mk_World None (opened w)) true 0 (length found) found)
    as [[[] self2 w2|e w2]|] eqn:Eloop; [|done|done].
  apply create_parallel_loop_tally in Eloop
    as (Hcnt & Hu2 & Hds2 & Hdt2 & Hop & Hdbl & Hnum); [|done|done|done|simpl; lia].
  unfold sum_projs in Hcnt at 2. rewrite He, Hp in Hcnt.
  rewrite map_fold_empty in Hcnt. simpl in Hcnt, Hop.
  change (stored_count (mk_World None (opened w))) with 0%nat in Hcnt.
  rewrite drop_0, firstn_all in Hop.
  destruct (format_stats self2); [|done].
  intros [= <- <- <-].
  rewrite Hnum, HN, Hdbl.
  split; [f_equal; lia|]. split; [lia|]. done.
Qed.

Lemma create_parallel_accounts_for_every_granule_witness :
  num_urls_from_api after_create_parallel0.1
  = Some (stored_count after_create_parallel0.2
          + length (skipped_empty_granules after_create_parallel0.1)
          + sum_projs after_create_parallel0.1
          + length (skipped_double_granules after_create_parallel0.1))%nat
  ∧ (stored_count after_create_parallel0.2
     + length (skipped_empty_granules after_create_parallel0.1)
     + sum_projs after_create_parallel0.1 = length [gB; gC; gD])%nat
  ∧ urls after_create_parallel0.1 = [] ∧ ds after_create_parallel0.1 = []
  ∧ dates after_create_parallel0.1 = []
  ∧ opened after_create_parallel0.2 = opened world0 ++ [gB; gC; gD].
Proof.
  apply (create_parallel_accounts_for_every_granule 3 granule_open cube0
           after_create_parallel0.1 world0 after_create_parallel0.2
           [gA; gB; gC; gD] [gB; gC; gD] None).
  vm_compute. reflexivity.
Defined.

(** X15.  [create_parallel] always ends: its [while] loop needs no more
    iterations than there are names to process, whatever the batch size
    (a batch of size 0 raises in [combine_layers]), and more fuel changes
    nothing. *)
Theorem create_parallel_terminates (NUM_GRANULES_TO_WRITE : nat)
    (open_dataset : string → result dataset) (self : ITSCube) (w : World)
    (search_result : list string) (num_granules : option Z) :
  is_Some (create_parallel NUM_GRANULES_TO_WRITE open_dataset self w search_result
             num_granules)
  ∧ ∀ self1 found_urls,
      request_granules (clear self) search_result num_granules
      = (Ok found_urls, self1) →
      ∀ fuel o, (length found_urls ≤ fuel)%nat →
        (create_parallel_loop NUM_GRANULES_TO_WRITE open_dataset fuel self1
           (mk_World None (opened w)) true 0 (length found_urls) found_urls = Some o
         ↔ create_parallel_loop NUM_GRANULES_TO_WRITE open_dataset
             (length found_urls) self1 (mk_World None (opened w)) true 0
             (length found_urls) found_urls = Some o).
Proof.
  assert (Hmono : ∀ fuel fuel' s w0 b start n l o,
            (fuel ≤ fuel')%nat →
            create_parallel_loop NUM_GRANULES_TO_WRITE open_dataset fuel s w0 b
              start n l = Some o →
            create_parallel_loop NUM_GRANULES_TO_WRITE open_dataset fuel' s w0 b
              start n l = Some o).
  { induction fuel as [|fuel IH]; intros fuel' s w0 b start n l o Hle; simpl.
    - case_decide; [|done]. intros [= <-]. destruct fuel'; simpl; by rewrite decide_True.
    - destruct fuel' as [|fuel']; [lia|]. simpl.
      case_decide; [done|].
      destruct (mapM _ _ ≫= add_layers s) as [s1|e]; [|done].
      destruct (combine_layers s1 b _) as [[] s2 w2|e w2]; [|done].
      apply IH. lia. }
  split.
  - unfold create_parallel.
    destruct (request_granules (clear self) search_result num_granules)
      as [[found_urls|e] self1] eqn:Ereq; [|by eexists].
    destruct (request_granules_clear _ _ _ _ _ Ereq) as (_ & _ & Hds & _).
    destruct (create_parallel_loop_fuel NUM_GRANULES_TO_WRITE open_dataset
                (length found_urls) self1 (mk_World None (opened w)) true 0
                (length found_urls) found_urls Hds (le_n _)) as [o Ho].
    rewrite Ho. destruct o as [[] self2 w2|e w2]; [|by eexists].
    destruct (format_stats self2); by eexists.
  - intros self1 found_urls Ereq fuel o Hfuel.
    destruct (request_granules_clear _ _ _ _ _ Ereq) as (_ & _ & Hds & _).
    split.
    + intros Ho.
      destruct (create_parallel_loop_fuel NUM_GRANULES_TO_WRITE open_dataset
                  (length found_urls) self1 (mk_World None (opened w)) true 0
                  (length found_urls) found_urls Hds (le_n _)) as [o' Ho'].
      rewrite Ho'. rewrite (Hmono _ fuel _ _ _ _ _ _ _ Hfuel Ho') in Ho. done.
    + by apply Hmono.
Qed.

(** X16.  [create_parallel] writes after every batch, also when the batch
    left no layer: when every granule of the first batch is rejected (as
    empty or as of another projection) the call raises ValueError, with no
    store written and the granules of that batch opened. *)
Theorem create_parallel_rejected_batch (NUM_GRANULES_TO_WRITE : nat)
    (open_dataset : string → result dataset) (self self1 : ITSCube) (w : World)
    (search_result found_urls : list string) (num_granules : option Z) :
  request_granules (clear self) search_result num_granules = (Ok found_urls, self1) →
  found_urls ≠ [] →
  (∀ u, u ∈ take NUM_GRANULES_TO_WRITE found_urls →
        ∃ r, read_s3_dataset open_dataset self u = Ok r ∧ r !! 4%nat = Some PyNone) →
  create_parallel NUM_GRANULES_TO_WRITE open_dataset self w search_result num_granules
  = Some (Raised ValueError
            (mk_World None (opened w ++ take NUM_GRANULES_TO_WRITE found_urls))).
Proof.
  intros Ereq Hne Hrej. unfold create_parallel. rewrite Ereq.
  destruct (request_granules_clear _ _ _ _ _ Ereq) as (_ & _ & Hds & _).
  destruct (request_granules_keeps _ _ _ _ _ Ereq) as (Hp & Hx & Hy).
  destruct found_urls as [|u0 rest] eqn:Efound; [done|]. rewrite <- Efound in *.
  assert (Hlen : length found_urls = S (length rest)) by (by rewrite Efound).
  rewrite Hlen at 1. cbn [create_parallel_loop].
  rewrite decide_False by lia. rewrite drop_0.
  set (num_tasks := if decide (NUM_GRANULES_TO_WRITE < length found_urls)%nat
                    then NUM_GRANULES_TO_WRITE else length found_urls).
  assert (Hfiles : take num_tasks found_urls = take NUM_GRANULES_TO_WRITE found_urls).
  { subst num_tasks. case_decide; [done|]. by rewrite !take_ge by lia. }
  rewrite Hfiles.
  assert (Hread : ∀ u, read_s3_dataset open_dataset self1 u
                       = read_s3_dataset open_dataset self u).
  { intros u. unfold read_s3_dataset. destruct (open_dataset u) as [d|e]; [|done].
    cbn [mbind result_bind]. apply preprocess_dataset_ext; by rewrite ?Hp, ?Hx, ?Hy. }
  assert (Hall : ∃ rs, mapM (read_s3_dataset open_dataset self1)
                         (take NUM_GRANULES_TO_WRITE found_urls) = Ok rs
                       ∧ Forall (λ r, ∃ e p u,
                                   r = [PyBool e; PyInt p; PyNone; PyStr u; PyNone]) rs).
  { revert Hrej. generalize (take NUM_GRANULES_TO_WRITE found_urls).
    induction l as [|u l IH]; intros Hrej.
    - exists []. split; [done | by apply Forall_nil].
    - destruct (Hrej u) as (r & Hr & Hr4); [left|].
      destruct IH as (rs & Hrs & Hall); [intros v Hv; apply Hrej; by right|].
      exists (r :: rs). split.
      + cbn [mapM]. rewrite Hread, Hr, Hrs. done.
      + apply Forall_cons. split; [|done].
        by eapply read_s3_dataset_rejected. }
  destruct Hall as (rs & -> & Hall). cbn [mbind result_bind].
  destruct (add_layers_rejected rs self1 Hall) as (self2 & -> & Hds2).
  unfold combine_layers, build_layers. rewrite Hds2, Hds. done.
Qed.

Lemma create_parallel_rejected_batch_witness :
  create_parallel 2 granule_open cube0 world0 [gC; gD; gB] None
  = Some (Raised ValueError (mk_World None (opened world0 ++ take 2 [gC; gD; gB]))).
Proof.
  apply (create_parallel_rejected_batch 2 granule_open cube0
           (request_granules (clear cube0) [gC; gD; gB] None).2 world0
           [gC; gD; gB] [gC; gD; gB] None).
  - vm_compute. reflexivity.
  - done.
  - intros u Hu. simpl in Hu.
    apply elem_of_cons in Hu as [->|Hu];
      [|apply elem_of_cons in Hu as [->|Hu]; [|by apply elem_of_nil in Hu]].
    + eexists. split; [vm_compute; reflexivity | reflexivity].
    + eexists. split; [vm_compute; reflexivity | reflexivity].
Defined.

(** ** The table of a batch *)

Lemma slices_alter (n : nat) (f : cube_var → cube_var) (k : string)
    (L : gmap string cube_var) :
  (∀ cv, cv_slices (f cv) = cv_slices cv) →
  map_Forall (λ _ cv, length (cv_slices cv) = n) L →
  map_Forall (λ _ cv, length (cv_slices cv) = n) (alter f k L).
Proof. intros Hf. apply map_Forall_alter. intros cv. by rewrite Hf. Qed.

Lemma slices_set_attr (n : nat) (name key : string) (val : attr_value)
    (L : gmap string cube_var) :
  map_Forall (λ _ cv, length (cv_slices cv) = n) L →
  map_Forall (λ _ cv, length (cv_slices cv) = n) (set_attr name key val L).
Proof. by apply slices_alter. Qed.

Lemma slices_set_attr_absent (n : nat) (name key : string) (val : attr_value)
    (L : gmap string cube_var) :
  map_Forall (λ _ cv, length (cv_slices cv) = n) L →
  map_Forall (λ _ cv, length (cv_slices cv) = n) (set_attr_absent name key val L).
Proof. apply slices_alter. intros cv. by destruct (cv_attrs cv !! key). Qed.

Lemma slices_del_attr (n : nat) (name key : string) (L : gmap string cube_var) :
  map_Forall (λ _ cv, length (cv_slices cv) = n) L →
  map_Forall (λ _ cv, length (cv_slices cv) = n) (del_attr name key L).
Proof. by apply slices_alter. Qed.

Lemma slices_insert (n : nat) (name : string) (cv : cube_var)
    (L : gmap string cube_var) :
  length (cv_slices cv) = n →
  map_Forall (λ _ cv, length (cv_slices cv) = n) L →
  map_Forall (λ _ cv, length (cv_slices cv) = n) (<[name := cv]> L).
Proof. intros Hcv HL. by apply map_Forall_insert_2. Qed.

Lemma slices_concat {A} (f : A → result data_array) (xs : list A) (cv : cube_var) :
  mapM f xs ≫= concat = Ok cv → length (cv_slices cv) = length xs.
Proof.
  intros (arrays & Harr & Hcv)%bind_Ok. apply mapM_Ok_length in Harr.
  unfold concat in Hcv. destruct arrays as [|a arrays]; [done|].
  injection Hcv as <-. simpl in *. rewrite length_fmap. lia.
Qed.

Lemma slices_attr_array {A} (f : A → result attr_value) (xs : list A)
    (vals : list attr_value) :
  mapM f xs = Ok vals → length (cv_slices (attr_array vals)) = length xs.
Proof. intros Hv%mapM_Ok_length. simpl. by rewrite length_fmap. Qed.

Ltac slices_tac :=
  repeat lazymatch goal with
         | |- map_Forall _ (set_attr _ _ _ _) => apply slices_set_attr
         | |- map_Forall _ (set_attr_absent _ _ _ _) => apply slices_set_attr_absent
         | |- map_Forall _ (del_attr _ _ _) => apply slices_del_attr
         | |- map_Forall _ (<[_ := attr_array _]> _) =>
             apply slices_insert;
             [erewrite slices_attr_array by eassumption;
              rewrite ?length_fmap; assumption |]
         | |- map_Forall _ (<[_ := _]> _) =>
             apply slices_insert;
             [erewrite slices_concat by eassumption;
              rewrite ?length_fmap; assumption |]
         end.

(** X17.  The table of a batch is rectangular: when the object holds as
    many layers as dates, every variable of the table [combine_layers]
    builds has one slice per date of the [mid_date] coordinate, the URL
    variable included. *)
Theorem table_has_one_slice_per_date (self : ITSCube) (is_first_write : bool)
    (t : cube_table) :
  length (ds self) = length (dates self) →
  build_layers self is_first_write = Ok t →
  mid_date_coord t = dates self
  ∧ map_Forall (λ _ cv, length (cv_slices cv) = length (mid_date_coord t))
               (cube_vars t).
Proof.
  intros Hal Ht. pose proof (build_layers_mid_date _ _ _ Ht) as Hmid.
  split; [done|]. rewrite Hmid. revert Ht.
  unfold build_layers. cbv beta iota zeta. intros H. inv_binds H.
  apply Ok_inj in H. subst t. cbv beta iota delta [cube_vars].
  assert (Hurls : length (urls self) = length (dates self)).
  { match goal with
    | Hc : (if decide (length (urls self) = length (dates self)) then _ else _) = Ok _
      |- _ => revert Hc; case_decide; done
    end. }
  destruct is_first_write; slices_tac;
    (apply map_Forall_singleton; simpl; by rewrite length_fmap).
Qed.

Lemma table_has_one_slice_per_date_witness :
  mid_date_coord table0 = dates layered0
  ∧ map_Forall (λ _ cv, length (cv_slices cv) = length (mid_date_coord table0))
               (cube_vars table0).
Proof.
  apply (table_has_one_slice_per_date layered0 true table0).
  - reflexivity.
  - vm_compute. reflexivity.
Defined.

Lemma dom_step_alter (f : cube_var → cube_var) (k : string)
    (L : gmap string cube_var) (S : gset string) :
  dom L = S → dom (alter f k L) = S.
Proof. intros <-. apply dom_alter_L. Qed.

Lemma dom_step_insert (k : string) (cv : cube_var) (L : gmap string cube_var)
    (S : gset string) :
  dom L = S → dom (<[k := cv]> L) = {[k]} ∪ S.
Proof. intros <-. apply dom_insert_L. Qed.

Ltac dom_tac :=
  repeat lazymatch goal with
         | |- dom (set_attr _ _ _ _) = _ => apply dom_step_alter
         | |- dom (set_attr_absent _ _ _ _) = _ => apply dom_step_alter
         | |- dom (del_attr _ _ _) = _ => apply dom_step_alter
         | |- dom (<[_ := _]> _) = _ => apply dom_step_insert
         | |- dom {[_ := _]} = _ => apply dom_singleton_L
         end.

(** X18.  The table of a batch has the same seventeen variables whatever
    the layers carry: the URL, the six gridded measurements, and the ten
    per-layer attributes turned into variables along [mid_date]. *)
Theorem table_variables (self : ITSCube) (is_first_write : bool) (t : cube_table) :
  build_layers self is_first_write = Ok t →
  dom (cube_vars t)
  = list_to_set
      [DataVars.URL; DataVars.V; DataVars.VX; DataVars.VY;
       DataVars.CHIP_SIZE_HEIGHT; DataVars.CHIP_SIZE_WIDTH; DataVars.INTERP_MASK;
       DataVars.V_ERROR;
       DataVars.GRID_MAPPING; DataVars.MAP_SCALE_CORRECTED; DataVars.VX_ERROR;
       DataVars.STABLE_RMSE; DataVars.STABLE_COUNT; DataVars.FLAG_STABLE_SHIFT;
       DataVars.VX_STABLE_SHIFT; DataVars.VY_ERROR; DataVars.VY_STABLE_SHIFT]
  ∧ size (dom (cube_vars t)) = 17%nat.
Proof.
  unfold build_layers. cbv beta iota zeta. intros H. inv_binds H.
  apply Ok_inj in H. subst t. cbv beta iota delta [cube_vars].
  match goal with
  | |- dom ?L = ?S ∧ _ =>
      assert (Hdom : dom L = S);
      [|split; [exact Hdom | rewrite Hdom; vm_compute; reflexivity]]
  end.
  eapply eq_trans; [destruct is_first_write; dom_tac; reflexivity|].
  cbn [list_to_set foldr]. set_solver.
Qed.

Lemma table_variables_witness :
  dom (cube_vars table0)
  = list_to_set
      [DataVars.URL; DataVars.V; DataVars.VX; DataVars.VY;
       DataVars.CHIP_SIZE_HEIGHT; DataVars.CHIP_SIZE_WIDTH; DataVars.INTERP_MASK;
       DataVars.V_ERROR;
       DataVars.GRID_MAPPING; DataVars.MAP_SCALE_CORRECTED; DataVars.VX_ERROR;
       DataVars.STABLE_RMSE; DataVars.STABLE_COUNT; DataVars.FLAG_STABLE_SHIFT;
       DataVars.VX_STABLE_SHIFT; DataVars.VY_ERROR; DataVars.VY_STABLE_SHIFT]
  ∧ size (dom (cube_vars table0)) = 17%nat.
Proof.
  apply (table_variables layered0 true table0).
  vm_compute. reflexivity.
Defined.

Lemma present_insert_ne (n k : string) (x : cube_var) (L : gmap string cube_var) :
  n ≠ k → is_Some (L !! n) → is_Some (<[k := x]> L !! n).
Proof. intros Hne HL. by rewrite lookup_insert_ne. Qed.

Ltac present_any_tac :=
  repeat lazymatch goal with
         | |- is_Some (set_attr _ _ _ _ !! _) => apply present_set_attr
         | |- is_Some (set_attr_absent _ _ _ _ !! _) => apply present_set_attr_absent
         | |- is_Some (del_attr _ _ _ !! _) => apply present_del_attr
         | |- is_Some (<[?k := _]> _ !! ?k) => apply present_insert_eq
         | |- is_Some (<[_ := _]> _ !! _) => apply present_insert_ne; [str_ne|]
         end.

Lemma attr_at_alter (f : cube_var → cube_var) (n key k : string)
    (o : option attr_value) (L : gmap string cube_var) :
  (k = n → ∀ cv, cv_attrs cv !! key = o → cv_attrs (f cv) !! key = o) →
  attr_at n key o L → attr_at n key o (alter f k L).
Proof.
  intros Hf (cv & Hcv & Ho). unfold attr_at. rewrite lookup_alter.
  case_decide as Hk; [subst k|]; rewrite Hcv; simpl; [|by eauto].
  eexists. split; [done|]. by apply Hf.
Qed.

Lemma attr_at_insert_ne (n key k : string) (o : option attr_value) (x : cube_var)
    (L : gmap string cube_var) :
  n ≠ k → attr_at n key o L → attr_at n key o (<[k := x]> L).
Proof. intros Hne (cv & Hcv & Ho). exists cv. by rewrite lookup_insert_ne. Qed.

Lemma attr_at_set_attr (n key name key' : string) (o : option attr_value)
    (val : attr_value) (L : gmap string cube_var) :
  name ≠ n ∨ key' ≠ key →
  attr_at n key o L → attr_at n key o (set_attr name key' val L).
Proof.
  intros Hne. apply attr_at_alter. intros -> cv Ho. simpl.
  destruct Hne as [?|Hk]; [done|]. by rewrite lookup_insert_ne.
Qed.

Lemma attr_at_set_attr_absent (n key name key' : string) (o : option attr_value)
    (val : attr_value) (L : gmap string cube_var) :
  name ≠ n ∨ key' ≠ key →
  attr_at n key o L → attr_at n key o (set_attr_absent name key' val L).
Proof.
  intros Hne. apply attr_at_alter. intros -> cv Ho.
  destruct (cv_attrs cv !! key'); [done|]. simpl.
  destruct Hne as [?|Hk]; [done|]. by rewrite lookup_insert_ne.
Qed.

Lemma attr_at_del_attr (n key name key' : string) (o : option attr_value)
    (L : gmap string cube_var) :
  name ≠ n ∨ key' ≠ key →
  attr_at n key o L → attr_at n key o (del_attr name key' L).
Proof.
  intros Hne. apply attr_at_alter. intros -> cv Ho. simpl.
  destruct Hne as [?|Hk]; [done|]. by rewrite lookup_delete_ne.
Qed.

Lemma attr_at_del_here (n key : string) (L : gmap string cube_var) :
  is_Some (L !! n) → attr_at n key None (del_attr n key L).
Proof.
  intros [cv Hcv]. unfold attr_at, del_attr. rewrite lookup_alter_eq, Hcv. simpl.
  eexists. split; [done|]. simpl. apply lookup_delete_eq.
Qed.

Lemma attr_at_set_here (n key : string) (val : attr_value)
    (L : gmap string cube_var) :
  is_Some (L !! n) → attr_at n key (Some val) (set_attr n key val L).
Proof.
  intros [cv Hcv]. unfold attr_at, set_attr. rewrite lookup_alter_eq, Hcv. simpl.
  eexists. split; [done|]. simpl. apply lookup_insert_eq.
Qed.

Ltac ne_tac := first [left; str_ne | right; str_ne].

Ltac attr_at_tac :=
  repeat lazymatch goal with
         | |- attr_at ?n ?key None (del_attr ?n ?key _) =>
             apply attr_at_del_here; present_any_tac
         | |- attr_at ?n ?key (Some ?val) (set_attr ?n ?key ?val _) =>
             apply attr_at_set_here; present_any_tac
         | |- attr_at _ _ _ (set_attr _ _ _ _) => apply attr_at_set_attr; [ne_tac|]
         | |- attr_at _ _ _ (set_attr_absent _ _ _ _) =>
             apply attr_at_set_attr_absent; [ne_tac|]
         | |- attr_at _ _ _ (del_attr _ _ _) => apply attr_at_del_attr; [ne_tac|]
         | |- attr_at _ _ _ (<[_ := _]> _) => apply attr_at_insert_ne; [str_ne|]
         end.

(** X19.  What a layer carries as an attribute of [v], [vx] or [vy] and the
    table stores as a variable along [mid_date] is no longer an attribute
    of the table: [v] is left without [grid_mapping] and
    [map_scale_corrected], [vx] without [stable_apply_date], [vx_error],
    [stable_rmse], [stable_count] and [stable_shift], [vy] without
    [stable_apply_date], [vy_error] and [stable_shift]; and the three carry
    the description the method sets. *)
Theorem moved_attributes_are_removed (self : ITSCube) (is_first_write : bool)
    (t : cube_table) :
  build_layers self is_first_write = Ok t →
  Forall (λ key, attr_at DataVars.V key None (cube_vars t))
    [DataVars.GRID_MAPPING; DataVars.MAP_SCALE_CORRECTED]
  ∧ Forall (λ key, attr_at DataVars.VX key None (cube_vars t))
      [DataVars.STABLE_APPLY_DATE; DataVars.VX_ERROR; DataVars.STABLE_RMSE;
       DataVars.STABLE_COUNT; DataVars.STABLE_SHIFT]
  ∧ Forall (λ key, attr_at DataVars.VY key None (cube_vars t))
      [DataVars.STABLE_APPLY_DATE; DataVars.VY_ERROR; DataVars.STABLE_SHIFT]
  ∧ attr_at DataVars.V DataVars.DESCRIPTION
      (Some (AStr DataVars.V_DESCRIPTION_STR)) (cube_vars t)
  ∧ attr_at DataVars.VX DataVars.DESCRIPTION
      (Some (AStr DataVars.VX_DESCRIPTION_STR)) (cube_vars t)
  ∧ attr_at DataVars.VY DataVars.DESCRIPTION
      (Some (AStr DataVars.VY_DESCRIPTION_STR)) (cube_vars t).
Proof.
  unfold build_layers. cbv beta iota zeta. intros H. inv_binds H.
  apply Ok_inj in H. subst t. cbv beta iota delta [cube_vars].
  destruct is_first_write;
    (split; [|split; [|split; [|split; [|split]]]];
     repeat (apply Forall_cons; split); try (by apply Forall_nil); attr_at_tac).
Qed.

Lemma moved_attributes_are_removed_witness :
  Forall (λ key, attr_at DataVars.V key None (cube_vars table0))
    [DataVars.GRID_MAPPING; DataVars.MAP_SCALE_CORRECTED]
  ∧ Forall (λ key, attr_at DataVars.VX key None (cube_vars table0))
      [DataVars.STABLE_APPLY_DATE; DataVars.VX_ERROR; DataVars.STABLE_RMSE;
       DataVars.STABLE_COUNT; DataVars.STABLE_SHIFT]
  ∧ Forall (λ key, attr_at DataVars.VY key None (cube_vars table0))
      [DataVars.STABLE_APPLY_DATE; DataVars.VY_ERROR; DataVars.STABLE_SHIFT]
  ∧ attr_at DataVars.V DataVars.DESCRIPTION
      (Some (AStr DataVars.V_DESCRIPTION_STR)) (cube_vars table0)
  ∧ attr_at DataVars.VX DataVars.DESCRIPTION
      (Some (AStr DataVars.VX_DESCRIPTION_STR)) (cube_vars table0)
  ∧ attr_at DataVars.VY DataVars.DESCRIPTION
      (Some (AStr DataVars.VY_DESCRIPTION_STR)) (cube_vars table0).
Proof.
  apply (moved_attributes_are_removed layered0 true table0).
  vm_compute. reflexivity.
Defined.

Lemma mapM_Ok_lookup {A B} (f : A → result B) (l : list A) (k : list B)
    (i : nat) (a : A) :
  mapM f l = Ok k → l !! i = Some a → ∃ b, f a = Ok b ∧ k !! i = Some b.
Proof.
  intros HF%mapM_Ok_Forall2 Ha.
  destruct (Forall2_lookup_l _ _ _ _ _ HF Ha) as (b & Hb & Hfb). by exists b.
Qed.

(** The cells kept by label are the cells of the grid: at the labels [y]
    and [x] the map has the cell of the row and the column that carry these
    labels, and nothing at a label the grid does not have or where the cell
    is missing. *)
Lemma cells_of_lookup (xs ys : list Z) (g : grid) (y x : Z) :
  cells_of xs ys g !! (y, x) = cell_at xs ys g y x.
Proof.
  unfold cells_of.
  assert (Hgen : ∀ (f : Z * Z → option Z) (ks : list (Z * Z)) (k : Z * Z),
            list_to_map (M := gmap (Z * Z) Z)
              (omap (λ k, (λ z : Z, (k, z)) <$> f k) ks) !! k
            = if decide (k ∈ ks) then f k else None).
  { intros f ks k. induction ks as [|k0 ks IH].
    - simpl. apply lookup_empty.
    - cbn [omap list_omap]. destruct (decide (k = k0)) as [->|Hne].
      + rewrite (decide_True (P := k0 ∈ k0 :: ks)) by left.
        destruct (f k0) as [z|] eqn:Ef; cbn [fmap option_fmap option_map].
        * cbn [list_to_map foldr uncurry fst snd]. by rewrite lookup_insert_eq.
        * rewrite IH. by destruct (decide (k0 ∈ ks)).
      + assert (Hiff : k ∈ k0 :: ks ↔ k ∈ ks).
        { rewrite elem_of_cons. split; [by intros [?|?] | by right]. }
        destruct (f k0) as [z|]; cbn [fmap option_fmap option_map];
          [cbn [list_to_map foldr uncurry fst snd];
           rewrite lookup_insert_ne by done|];
          rewrite IH;
          destruct (decide (k ∈ ks)) as [Hin|Hnin],
                   (decide (k ∈ k0 :: ks)) as [Hin'|Hnin'];
          try done;
          first [exfalso; apply Hnin'; by right
                | exfalso; apply Hnin; by apply Hiff]. }
  rewrite (Hgen (λ k, cell_at xs ys g k.1 k.2)). simpl.
  destruct (decide ((y, x) ∈ list_prod ys xs)) as [|Hnot]; [done|].
  unfold cell_at.
  destruct (py_index y ys) as [i|] eqn:Ei; simpl; [|done].
  destruct (py_index x xs) as [j|] eqn:Ej; simpl; [|done].
  exfalso. apply Hnot, list_elem_of_In, in_prod_iff.
  split; apply list_elem_of_In.
  - apply py_index_Some in Ei. by eapply list_elem_of_lookup_2.
  - apply py_index_Some in Ej. by eapply list_elem_of_lookup_2.
Qed.

Lemma batch_x_drop (k : string) (l : list dataset) :
  batch_x (drop_vars k <$> l) = batch_x l.
Proof. unfold batch_x. by rewrite <- list_fmap_compose. Qed.

Lemma batch_y_drop (k : string) (l : list dataset) :
  batch_y (drop_vars k <$> l) = batch_y l.
Proof. unfold batch_y. by rewrite <- list_fmap_compose. Qed.

(** The arrays of one measurement over a batch have the labels of its
    layers. *)
Lemma ds_arrays_labels (n : string) (xs : list dataset) (arrays : list data_array) :
  mapM (λ d, ds_array d n) xs = Ok arrays →
  da_x <$> arrays = (λ d, list_to_set (ds_x d)) <$> xs
  ∧ da_y <$> arrays = (λ d, list_to_set (ds_y d)) <$> xs.
Proof.
  intros HF%mapM_Ok_Forall2. induction HF as [|d a xs arrays Ha _ IH]; [done|].
  destruct IH as [IHx IHy]. cbn [fmap list_fmap]. rewrite IHx, IHy.
  unfold ds_array in Ha. destruct (ds_var d n) as [v|]; [|done].
  cbn [mbind result_bind] in Ha. apply Ok_inj in Ha. by subst a.
Qed.

Lemma concat_slices (arrays : list data_array) (cv : cube_var) :
  concat arrays = Ok cv →
  cv_slices cv
  = (λ a, SGrid (⋃ (da_x <$> arrays)) (⋃ (da_y <$> arrays)) (da_cells a)) <$> arrays.
Proof. unfold concat. destruct arrays; [done|]. by intros [= <-]. Qed.

Lemma concat_ds_array_slice (n : string) (xs : list dataset) (cv : cube_var)
    (i : nat) (d : dataset) :
  mapM (λ d, ds_array d n) xs ≫= concat = Ok cv → xs !! i = Some d →
  ∃ v, data_vars d !! n = Some v
       ∧ cv_slices cv !! i
         = Some (SGrid (batch_x xs) (batch_y xs)
                   (cells_of (ds_x d) (ds_y d) (values v))).
Proof.
  intros (arrays & Harr & Hcv)%bind_Ok Hd.
  destruct (mapM_Ok_lookup _ _ _ _ _ Harr Hd) as (a & Ha & Hi).
  destruct (ds_arrays_labels _ _ _ Harr) as [Hx Hy].
  unfold ds_array, ds_var in Ha.
  destruct (data_vars d !! n) as [v|] eqn:Ev; [|done].
  cbn [mbind result_bind] in Ha. apply Ok_inj in Ha. subst a.
  exists v. split; [done|].
  rewrite (concat_slices _ _ Hcv), list_lookup_fmap, Hi, Hx, Hy. done.
Qed.

Lemma slice_at_alter (f : cube_var → cube_var) (n k : string) (i : nat) (s : slice)
    (L : gmap string cube_var) :
  (∀ cv, cv_slices (f cv) = cv_slices cv) →
  slice_at n i s L → slice_at n i s (alter f k L).
Proof.
  intros Hf (cv & Hcv & Hs). unfold slice_at. rewrite lookup_alter.
  case_decide as Hk; [subst k|]; rewrite Hcv; simpl; [|by eauto].
  eexists. split; [done|]. by rewrite Hf.
Qed.

Lemma slice_at_set_attr (n name key : string) (val : attr_value) (i : nat)
    (s : slice) (L : gmap string cube_var) :
  slice_at n i s L → slice_at n i s (set_attr name key val L).
Proof. by apply slice_at_alter. Qed.

Lemma slice_at_set_attr_absent (n name key : string) (val : attr_value) (i : nat)
    (s : slice) (L : gmap string cube_var) :
  slice_at n i s L → slice_at n i s (set_attr_absent name key val L).
Proof. apply slice_at_alter. intros cv. by destruct (cv_attrs cv !! key). Qed.

Lemma slice_at_del_attr (n name key : string) (i : nat) (s : slice)
    (L : gmap string cube_var) :
  slice_at n i s L → slice_at n i s (del_attr name key L).
Proof. by apply slice_at_alter. Qed.

Lemma slice_at_insert_ne (n k : string) (x : cube_var) (i : nat) (s : slice)
    (L : gmap string cube_var) :
  n ≠ k → slice_at n i s L → slice_at n i s (<[k := x]> L).
Proof. intros Hne (cv & Hcv & Hs). exists cv. by rewrite lookup_insert_ne. Qed.

Lemma slice_at_insert_eq (n : string) (x : cube_var) (i : nat) (s : slice)
    (L : gmap string cube_var) :
  cv_slices x !! i = Some s → slice_at n i s (<[n := x]> L).
Proof. intros Hs. exists x. by rewrite lookup_insert_eq. Qed.

Ltac slice_at_tac :=
  repeat lazymatch goal with
         | |- slice_at _ _ _ (set_attr _ _ _ _) => apply slice_at_set_attr
         | |- slice_at _ _ _ (set_attr_absent _ _ _ _) => apply slice_at_set_attr_absent
         | |- slice_at _ _ _ (del_attr _ _ _) => apply slice_at_del_attr
         | |- slice_at ?n _ _ (<[?n := _]> _) => apply slice_at_insert_eq
         | |- slice_at _ _ _ (<[_ := _]> _) => apply slice_at_insert_ne; [str_ne|]
         | |- slice_at ?n _ _ {[?n := _]} => apply slice_at_insert_eq
         end.

Lemma lookup_drop_vars (k : string) (l : list dataset) (i : nat) (d : dataset) :
  l !! i = Some d → (drop_vars k <$> l) !! i = Some (drop_vars k d).
Proof. intros Hd. by rewrite list_lookup_fmap, Hd. Qed.

Ltac lookup_dropped :=
  lazymatch goal with
  | |- (drop_vars _ <$> _) !! _ = Some _ => apply lookup_drop_vars; lookup_dropped
  | |- _ => eassumption
  end.

(** The cells of layer [i] for a measurement are those of slice [i] of the
    concatenation, also after the measurements combined before it have been
    dropped from the layer. *)
Ltac layer_slice n :=
  lazymatch goal with
  | Hc : mapM (λ d, ds_array d n) ?xs ≫= concat = Ok ?cv |- _ =>
      let a := fresh "a" in
      let Ha := fresh "Ha" in
      let Hs := fresh "Hs" in
      edestruct (concat_ds_array_slice n xs cv) as (a & Ha & Hs);
      [exact Hc | lookup_dropped |];
      rewrite ?batch_x_drop, ?batch_y_drop in Hs;
      cbn [drop_vars data_vars ds_x ds_y] in Ha, Hs;
      repeat (apply lookup_delete_Some in Ha as [_ Ha]);
      exists a; split; [exact Ha|]; slice_at_tac; exact Hs
  end.

(** X20.  Slice [i] of the table is layer [i], by label: for each of the
    six gridded measurements the slice at position [i] has the labels of
    the batch (the union of the [x] and of the [y] labels of its layers)
    and, as cells that are not missing, exactly the cells of that
    measurement in the [i]-th layer collected, at the labels the layer gives
    them; at the labels of the batch that the layer does not have it is
    missing.  The slice of the URL variable is the [i]-th URL, and the
    [i]-th date of the [mid_date] coordinate is the [i]-th date
    collected. *)
Theorem table_slices_follow_layers (self : ITSCube) (is_first_write : bool)
    (t : cube_table) (i : nat) (d : dataset) :
  build_layers self is_first_write = Ok t →
  ds self !! i = Some d →
  Forall (λ n, ∃ v, data_vars d !! n = Some v
                    ∧ slice_at n i
                        (SGrid (batch_x (ds self)) (batch_y (ds self))
                           (cells_of (ds_x d) (ds_y d) (values v)))
                        (cube_vars t))
    [DataVars.V; DataVars.VX; DataVars.VY; DataVars.CHIP_SIZE_HEIGHT;
     DataVars.CHIP_SIZE_WIDTH; DataVars.INTERP_MASK]
  ∧ (∀ u, urls self !! i = Some u →
          slice_at DataVars.URL i (SVal (AStr u)) (cube_vars t))
  ∧ mid_date_coord t !! i = dates self !! i.
Proof.
  intros Ht Hd. pose proof (build_layers_mid_date _ _ _ Ht) as Hmid.
  split; [|split; [|by rewrite Hmid]]; revert Ht;
    unfold build_layers; cbv beta iota zeta; intros H; inv_binds H;
    apply Ok_inj in H; subst t; cbv beta iota delta [cube_vars].
  - destruct is_first_write;
      repeat (apply Forall_cons; split); try (by apply Forall_nil).
    all: lazymatch goal with
         | |- ∃ v, data_vars _ !! ?n = Some v ∧ _ => layer_slice n
         end.
  - intros u Hu. destruct is_first_write; slice_at_tac;
      cbn [cv_slices]; by rewrite list_lookup_fmap, Hu.
Qed.

Lemma table_slices_follow_layers_witness :
  Forall (λ n, ∃ v, data_vars (region_of cube0 ds_ok) !! n = Some v
                    ∧ slice_at n 0
                        (SGrid (batch_x (ds layered0)) (batch_y (ds layered0))
                           (cells_of (ds_x (region_of cube0 ds_ok))
                              (ds_y (region_of cube0 ds_ok)) (values v)))
                        (cube_vars table0))
    [DataVars.V; DataVars.VX; DataVars.VY; DataVars.CHIP_SIZE_HEIGHT;
     DataVars.CHIP_SIZE_WIDTH; DataVars.INTERP_MASK]
  ∧ (∀ u, urls layered0 !! 0%nat = Some u →
          slice_at DataVars.URL 0 (SVal (AStr u)) (cube_vars table0))
  ∧ mid_date_coord table0 !! 0%nat = dates layered0 !! 0%nat.
Proof.
  apply (table_slices_follow_layers layered0 true table0 0 (region_of cube0 ds_ok)).
  - vm_compute. reflexivity.
  - reflexivity.
Defined.

Lemma get_data_var_attr_drop (k var key : string) (dflt : option attr_value)
    (d : dataset) :
  var ≠ k →
  get_data_var_attr (drop_vars k d) var key dflt = get_data_var_attr d var key dflt.
Proof.
  intros Hne. unfold get_data_var_attr, drop_vars. cbn [data_vars].
  by rewrite lookup_delete_ne.
Qed.

Lemma attr_array_lookup (vals : list attr_value) (i : nat) (a : attr_value) :
  vals !! i = Some a → cv_slices (attr_array vals) !! i = Some (SVal a).
Proof. intros Ha. simpl. by rewrite list_lookup_fmap, Ha. Qed.

Ltac attr_slice var key dflt :=
  lazymatch goal with
  | Hc : mapM (λ d, get_data_var_attr d var key dflt) ?xs = Ok ?vals |- _ =>
      let a := fresh "a" in
      let Ha := fresh "Ha" in
      let Hs := fresh "Hs" in
      edestruct (mapM_Ok_lookup (λ d, get_data_var_attr d var key dflt) xs vals)
        as (a & Ha & Hs);
      [exact Hc | lookup_dropped |];
      cbv beta in Ha;
      rewrite ?get_data_var_attr_drop in Ha by str_ne;
      exists a; split; [exact Ha|]; slice_at_tac;
      by apply attr_array_lookup
  end.

(** X21.  The per-layer attributes become variables slice by slice: slice
    [i] of each of the nine attribute variables is what
    [get_data_var_attr] gives for the [i]-th layer collected (the first
    element of the attribute, or the default where the method passes one),
    and slice [i] of [grid_mapping] is the [grid_mapping] attribute of its
    [v].  So a table is built only when every layer carries [grid_mapping]
    on [v], [stable_count] and [stable_shift] on [vx] and [stable_shift] on
    [vy], the attributes read without default. *)
Theorem table_attribute_slices (self : ITSCube) (is_first_write : bool)
    (t : cube_table) (i : nat) (d : dataset) :
  build_layers self is_first_write = Ok t →
  ds self !! i = Some d →
  (∃ a, var_attr d DataVars.V DataVars.GRID_MAPPING = Ok a
        ∧ slice_at DataVars.GRID_MAPPING i (SVal a) (cube_vars t))
  ∧ attr_slice_of t i d DataVars.MAP_SCALE_CORRECTED
      DataVars.V DataVars.MAP_SCALE_CORRECTED (Some DataVars.MISSING_BYTE)
  ∧ attr_slice_of t i d DataVars.VX_ERROR
      DataVars.VX DataVars.VX_ERROR (Some DataVars.MISSING_VALUE)
  ∧ attr_slice_of t i d DataVars.STABLE_RMSE
      DataVars.VX DataVars.STABLE_RMSE (Some DataVars.MISSING_VALUE)
  ∧ attr_slice_of t i d DataVars.STABLE_COUNT
      DataVars.VX DataVars.STABLE_COUNT None
  ∧ attr_slice_of t i d DataVars.FLAG_STABLE_SHIFT
      DataVars.VX DataVars.FLAG_STABLE_SHIFT (Some (ANum 0))
  ∧ attr_slice_of t i d DataVars.VX_STABLE_SHIFT
      DataVars.VX DataVars.STABLE_SHIFT None
  ∧ attr_slice_of t i d DataVars.VY_ERROR
      DataVars.VY DataVars.VY_ERROR (Some DataVars.MISSING_VALUE)
  ∧ attr_slice_of t i d DataVars.VY_STABLE_SHIFT
      DataVars.VY DataVars.STABLE_SHIFT None
  ∧ (∃ vx vy, data_vars d !! DataVars.VX = Some vx
              ∧ data_vars d !! DataVars.VY = Some vy
              ∧ is_Some (attrs vx !! DataVars.STABLE_COUNT)
              ∧ is_Some (attrs vx !! DataVars.STABLE_SHIFT)
              ∧ is_Some (attrs vy !! DataVars.STABLE_SHIFT)).
Proof.
  intros Ht Hd.
  assert (Hslices :
    (∃ a, var_attr d DataVars.V DataVars.GRID_MAPPING = Ok a
          ∧ slice_at DataVars.GRID_MAPPING i (SVal a) (cube_vars t))
    ∧ attr_slice_of t i d DataVars.MAP_SCALE_CORRECTED
        DataVars.V DataVars.MAP_SCALE_CORRECTED (Some DataVars.MISSING_BYTE)
    ∧ attr_slice_of t i d DataVars.VX_ERROR
        DataVars.VX DataVars.VX_ERROR (Some DataVars.MISSING_VALUE)
    ∧ attr_slice_of t i d DataVars.STABLE_RMSE
        DataVars.VX DataVars.STABLE_RMSE (Some DataVars.MISSING_VALUE)
    ∧ attr_slice_of t i d DataVars.STABLE_COUNT
        DataVars.VX DataVars.STABLE_COUNT None
    ∧ attr_slice_of t i d DataVars.FLAG_STABLE_SHIFT
        DataVars.VX DataVars.FLAG_STABLE_SHIFT (Some (ANum 0))
    ∧ attr_slice_of t i d DataVars.VX_STABLE_SHIFT
        DataVars.VX DataVars.STABLE_SHIFT None
    ∧ attr_slice_of t i d DataVars.VY_ERROR
        DataVars.VY DataVars.VY_ERROR (Some DataVars.MISSING_VALUE)
    ∧ attr_slice_of t i d DataVars.VY_STABLE_SHIFT
        DataVars.VY DataVars.STABLE_SHIFT None).
  { revert Ht. unfold build_layers. cbv beta iota zeta. intros H. inv_binds H.
    apply Ok_inj in H. subst t. unfold attr_slice_of.
    cbv beta iota delta [cube_vars].
    destruct is_first_write; (split; [|repeat split]).
    all: lazymatch goal with
         | |- ∃ a, var_attr _ _ _ = Ok a ∧ _ =>
             lazymatch goal with
             | Hc : mapM (λ d, var_attr d DataVars.V DataVars.GRID_MAPPING) ?xs
                    = Ok ?vals |- _ =>
                 let a := fresh "a" in
                 let Ha := fresh "Ha" in
                 let Hs := fresh "Hs" in
                 destruct (mapM_Ok_lookup _ xs vals i d Hc Hd) as (a & Ha & Hs);
                 exists a; split; [exact Ha|]; slice_at_tac;
                 by apply attr_array_lookup
             end
         | |- ∃ a, get_data_var_attr _ ?var ?key ?dflt = Ok a ∧ _ =>
             attr_slice var key dflt
         end. }
  destruct Hslices as (H0 & H1 & H2 & H3 & H4 & H5 & H6 & H7 & H8).
  repeat (split; [assumption|]).
  destruct H4 as (a4 & Ha4 & _), H6 as (a6 & Ha6 & _), H8 as (a8 & Ha8 & _).
  unfold get_data_var_attr in Ha4, Ha6, Ha8.
  destruct (data_vars d !! DataVars.VX) as [vx|]; [|done].
  destruct (data_vars d !! DataVars.VY) as [vy|]; [|done].
  simpl in Ha4, Ha6, Ha8. exists vx, vy.
  destruct (attrs vx !! DataVars.STABLE_COUNT); [|done].
  destruct (attrs vx !! DataVars.STABLE_SHIFT); [|done].
  destruct (attrs vy !! DataVars.STABLE_SHIFT); [|done].
  repeat split; by eexists.
Qed.

Lemma table_attribute_slices_witness :
  attr_slice_of table0 0 (region_of cube0 ds_ok) DataVars.VX_ERROR
    DataVars.VX DataVars.VX_ERROR (Some DataVars.MISSING_VALUE)
  ∧ attr_slice_of table0 0 (region_of cube0 ds_ok) DataVars.STABLE_RMSE
      DataVars.VX DataVars.STABLE_RMSE (Some DataVars.MISSING_VALUE)
  ∧ attr_slice_of table0 0 (region_of cube0 ds_ok) DataVars.STABLE_COUNT
      DataVars.VX DataVars.STABLE_COUNT None.
Proof.
  destruct (table_attribute_slices layered0 true table0 0 (region_of cube0 ds_ok)
              ltac:(vm_compute; reflexivity) ltac:(reflexivity))
    as (_ & _ & H2 & H3 & H4 & _).
  split; [exact H2 | split; [exact H3 | exact H4]].
Defined.

(** The labels of the [v] of the table are the labels of the batch. *)
Lemma concat_v_coords (xs : list dataset) (cv : cube_var) :
  mapM (λ d, ds_array d DataVars.V) xs ≫= concat = Ok cv →
  cv_coords cv = (batch_x xs, batch_y xs).
Proof.
  intros (arrays & Harr & Hcv)%bind_Ok.
  destruct (ds_arrays_labels _ _ _ Harr) as [Hx Hy].
  unfold cv_coords. rewrite (concat_slices _ _ Hcv), Hx, Hy.
  unfold concat in Hcv. by destruct arrays.
Qed.

(** The arrays [get_data_var] gives over a batch: the array of the layer
    that has the variable, an array without cells over given labels for a
    layer that has not. *)
Lemma get_data_var_arrays (L : gmap string cube_var) (lv : cube_var) (n : string)
    (xs : list dataset) (arrays : list data_array) :
  L !! DataVars.V = Some lv →
  mapM (λ d, get_data_var L d n) xs = Ok arrays →
  Forall2 (λ d a,
             match data_vars d !! n with
             | Some v => a = mk_data_array (attrs v) (list_to_set (ds_x d))
                               (list_to_set (ds_y d))
                               (cells_of (ds_x d) (ds_y d) (values v))
             | None => a = mk_data_array ∅ (cv_coords lv).1 (cv_coords lv).2 ∅
             end) xs arrays.
Proof.
  intros HL HF%mapM_Ok_Forall2. eapply Forall2_impl; [exact HF|].
  intros d a Ha. cbv beta in Ha. unfold get_data_var, ds_array, ds_var in Ha.
  rewrite HL in Ha. destruct (data_vars d !! n) as [v|].
  - cbn [mbind result_bind] in Ha. by apply Ok_inj in Ha.
  - by apply Ok_inj in Ha.
Qed.

Lemma union_list_labels (U : gset Z) (Xs : list (gset Z)) (xs : list dataset)
    (f : dataset → gset Z) :
  xs ≠ [] →
  U = ⋃ (f <$> xs) →
  Forall2 (λ d X, X = f d ∨ X = U) xs Xs →
  ⋃ Xs = U.
Proof.
  intros Hne -> HF. apply set_eq. intros z.
  rewrite !elem_of_union_list. split.
  - intros (X & HX & Hz).
    apply list_elem_of_lookup_1 in HX as [i Hi].
    destruct (Forall2_lookup_r _ _ _ _ _ HF Hi) as (d & Hd & [-> | ->]).
    + exists (f d). split; [|done]. apply list_elem_of_fmap. exists d.
      split; [done|]. by eapply list_elem_of_lookup_2.
    + by apply elem_of_union_list in Hz.
  - intros (X & (d & -> & Hd)%list_elem_of_fmap & Hz).
    apply list_elem_of_lookup_1 in Hd as [i Hi].
    destruct (Forall2_lookup_l _ _ _ _ _ HF Hi) as (X & HX & [-> | ->]).
    + exists (f d). split; [by eapply list_elem_of_lookup_2 | done].
    + exists (⋃ (f <$> xs)). split; [by eapply list_elem_of_lookup_2|].
      apply elem_of_union_list. exists (f d). split; [|done].
      apply list_elem_of_fmap. exists d. split; [done|].
      by eapply list_elem_of_lookup_2.
Qed.

(** A variable of the table keeps its slices through the changes of
    attributes and the other assignments. *)
Lemma slices_at_alter (sl : list slice) (f : cube_var → cube_var) (n k : string)
    (L : gmap string cube_var) :
  (∀ cv, cv_slices (f cv) = cv_slices cv) →
  (∃ lv, L !! n = Some lv ∧ cv_slices lv = sl) →
  ∃ lv, alter f k L !! n = Some lv ∧ cv_slices lv = sl.
Proof.
  intros Hf (lv & Hlv & Hsl). rewrite lookup_alter.
  destruct (decide (k = n)) as [->|Hne]; rewrite Hlv; simpl; [|by eauto].
  eexists. split; [done|]. by rewrite Hf.
Qed.

Lemma slices_at_insert_ne (sl : list slice) (n k : string) (x : cube_var)
    (L : gmap string cube_var) :
  n ≠ k →
  (∃ lv, L !! n = Some lv ∧ cv_slices lv = sl) →
  ∃ lv, <[k := x]> L !! n = Some lv ∧ cv_slices lv = sl.
Proof. intros Hne (lv & Hlv & Hsl). exists lv. by rewrite lookup_insert_ne. Qed.

Lemma slices_at_insert_eq (n : string) (x : cube_var) (L : gmap string cube_var) :
  ∃ lv, <[n := x]> L !! n = Some lv ∧ cv_slices lv = cv_slices x.
Proof. exists x. by rewrite lookup_insert_eq. Qed.

Ltac slices_at_tac :=
  repeat lazymatch goal with
         | |- ∃ lv, set_attr _ _ _ _ !! _ = _ ∧ _ =>
             apply slices_at_alter; [done|]
         | |- ∃ lv, set_attr_absent _ ?key _ _ !! _ = _ ∧ _ =>
             apply slices_at_alter; [intros cv; by destruct (cv_attrs cv !! key)|]
         | |- ∃ lv, del_attr _ _ _ !! _ = _ ∧ _ =>
             apply slices_at_alter; [done|]
         | |- ∃ lv, <[?n := _]> _ !! ?n = _ ∧ _ => apply slices_at_insert_eq
         | |- ∃ lv, <[_ := _]> _ !! _ = _ ∧ _ =>
             apply slices_at_insert_ne; [str_ne|]
         end.

(** X22.  Slice [i] of [v_error] has, like the slices of the other
    measurements, the labels of the batch; its cells are those of the
    [v_error] of the [i]-th layer when the layer has one, and for a layer
    without [v_error] it has no cell that is not missing: the array of
    missing cells that [get_data_var] builds over the coordinates of the
    [v] of the table, which are the labels of the batch. *)
Theorem v_error_slices (self : ITSCube) (is_first_write : bool) (t : cube_table)
    (i : nat) (d : dataset) :
  build_layers self is_first_write = Ok t →
  ds self !! i = Some d →
  ∃ cells,
    slice_at DataVars.V_ERROR i
      (SGrid (batch_x (ds self)) (batch_y (ds self)) cells) (cube_vars t)
    ∧ match data_vars d !! DataVars.V_ERROR with
      | Some v => cells = cells_of (ds_x d) (ds_y d) (values v)
      | None => cells = ∅
      end
    ∧ ∃ lv, cube_vars t !! DataVars.V = Some lv
            ∧ cv_coords lv = (batch_x (ds self), batch_y (ds self)).
Proof.
  intros Ht Hd.
  revert Ht. unfold build_layers. cbv beta iota zeta. intros H. inv_binds H.
  apply Ok_inj in H. subst t. cbv beta iota delta [cube_vars].
  lazymatch goal with
  | Hv : mapM (λ d, ds_array d DataVars.V) ?xs0 ≫= concat = Ok ?cv0,
    Hc : mapM (λ d, get_data_var ?L d DataVars.V_ERROR) ?xs ≫= concat = Ok ?cv
    |- _ =>
      pose proof (concat_v_coords xs0 cv0 Hv) as Hcoords;
      assert (HL : ∃ lv, L !! DataVars.V = Some lv ∧ cv_slices lv = cv_slices cv0)
        by (destruct is_first_write; slices_at_tac);
      assert (Hd' : xs !! i
                    = Some (drop_vars DataVars.INTERP_MASK
                             (drop_vars DataVars.CHIP_SIZE_WIDTH
                               (drop_vars DataVars.CHIP_SIZE_HEIGHT
                                 (drop_vars DataVars.VY
                                   (drop_vars DataVars.VX
                                     (drop_vars DataVars.V d)))))))
        by (repeat apply lookup_drop_vars; exact Hd);
      assert (Hxs : batch_x xs = batch_x (ds self)
                    ∧ batch_y xs = batch_y (ds self) ∧ xs ≠ [])
        by (rewrite !batch_x_drop, !batch_y_drop; split; [done|split; [done|]];
            intros Hnil; by rewrite Hnil in Hd');
      apply bind_Ok in Hc as (arrays & Harr & Hcv);
      revert Harr HL Hd' Hxs; generalize L xs; intros L0 xs1 Harr HL Hd' Hxs
  end.
  destruct HL as (lv & HLv & Hlv). destruct Hxs as (Hbx & Hby & Hne1).
  assert (Hlvc : cv_coords lv = (batch_x (ds self), batch_y (ds self))).
  { unfold cv_coords. rewrite Hlv. exact Hcoords. }
  pose proof (get_data_var_arrays _ _ _ _ _ HLv Harr) as HF.
  rewrite Hlvc in HF. cbn [fst snd] in HF.
  assert (HUx : ⋃ (da_x <$> arrays) = batch_x (ds self)).
  { apply (union_list_labels _ _ xs1 (λ d, list_to_set (ds_x d)));
      [done | by rewrite <- Hbx |].
    apply Forall2_fmap_r. eapply Forall2_impl; [exact HF|].
    intros d1 a1 Ha1. cbv beta in Ha1.
    destruct (data_vars d1 !! DataVars.V_ERROR); subst a1; [by left | by right]. }
  assert (HUy : ⋃ (da_y <$> arrays) = batch_y (ds self)).
  { apply (union_list_labels _ _ xs1 (λ d, list_to_set (ds_y d)));
      [done | by rewrite <- Hby |].
    apply Forall2_fmap_r. eapply Forall2_impl; [exact HF|].
    intros d1 a1 Ha1. cbv beta in Ha1.
    destruct (data_vars d1 !! DataVars.V_ERROR); subst a1; [by left | by right]. }
  destruct (Forall2_lookup_l _ _ _ _ _ HF Hd') as (a & Hai & Ha).
  cbn [drop_vars data_vars ds_x ds_y] in Ha.
  rewrite !lookup_delete_ne in Ha by str_ne.
  exists (da_cells a). split; [|split].
  - destruct is_first_write; slice_at_tac;
      rewrite (concat_slices _ _ Hcv), list_lookup_fmap, Hai, HUx, HUy; done.
  - destruct (data_vars d !! DataVars.V_ERROR); by subst a.
  - assert (Hfin : ∃ lv1, (if is_first_write
               then set_attr_absent DataVars.V_ERROR DataVars.MISSING_VALUE_ATTR
                      DataVars.MISSING_VALUE
                      (<[DataVars.V_ERROR := r15]> L0)
               else <[DataVars.V_ERROR := r15]> L0) !! DataVars.V = Some lv1
             ∧ cv_slices lv1 = cv_slices r).
    { destruct is_first_write; slices_at_tac; by exists lv. }
    destruct Hfin as (lv1 & Hlv1 & Hsl1). exists lv1. split; [exact Hlv1|].
    unfold cv_coords. rewrite Hsl1. exact Hcoords.
Qed.

Lemma v_error_slices_witness :
  ∃ cells,
    slice_at DataVars.V_ERROR 0
      (SGrid (batch_x (ds layered0)) (batch_y (ds layered0)) cells)
      (cube_vars table0)
    ∧ match data_vars (region_of cube0 ds_ok) !! DataVars.V_ERROR with
      | Some v => cells = cells_of (ds_x (region_of cube0 ds_ok))
                            (ds_y (region_of cube0 ds_ok)) (values v)
      | None => cells = ∅
      end
    ∧ ∃ lv, cube_vars table0 !! DataVars.V = Some lv
            ∧ cv_coords lv = (batch_x (ds layered0), batch_y (ds layered0)).
Proof.
  apply (v_error_slices layered0 true table0 0 (region_of cube0 ds_ok)).
  - vm_compute. reflexivity.
  - reflexivity.
Defined.

(** ** The driver over local files *)

Lemma skip_duplicate_granules_clear (self self' : ITSCube) (l kept : list string) :
  skip_duplicate_granules (clear self) l = (Ok kept, self') →
  urls self' = [] ∧ dates self' = [] ∧ ds self' = []
  ∧ skipped_empty_granules self' = [] ∧ skipped_proj_granules self' = ∅.
Proof.
  unfold skip_duplicate_granules, skip_duplicate_granules_with.
  destruct (dedup_loop _ _ _) as [st [e|]]; [done|]. by intros [= _ <-].
Qed.

(** X23.  [create_from_local_no_api] accounts for every file of the
    directory once: when it returns, the time slices of the store, the
    empty granules, the granules of another projection and the doubles add
    up to the number of files listed, which is [num_urls_from_api]; no
    layer is left in the object and the files opened are the names
    returned, in their order. *)
Theorem local_accounts_for_every_file (NUM_GRANULES_TO_WRITE : nat)
    (open_dataset : string → result dataset) (self self' : ITSCube) (w w' : World)
    (dir_listing found_urls : list string) :
  create_from_local_no_api NUM_GRANULES_TO_WRITE open_dataset self w dir_listing
  = Returned found_urls self' w' →
  num_urls_from_api self' = Some (length dir_listing)
  ∧ (stored_count w' + length (skipped_empty_granules self') + sum_projs self'
     + length (skipped_double_granules self') = length dir_listing)%nat
  ∧ (stored_count w' + length (skipped_empty_granules self') + sum_projs self'
     = length found_urls)%nat
  ∧ urls self' = [] ∧ ds self' = [] ∧ dates self' = []
  ∧ opened w' = opened w ++ found_urls
  ∧ dir_listing ≠ [].
Proof.
  unfold create_from_local_no_api.
  destruct (skip_duplicate_granules (clear self) dir_listing)
    as [[found|e] self1] eqn:Ereq; [|done].
  destruct (skip_duplicate_granules_clear _ _ _ _ Ereq) as (Hu & Hd & Hds & He & Hp).
  apply skip_duplicate_granules_counts in Ereq as (_ & HN & HNeq).
  destruct (create_loop NUM_GRANULES_TO_WRITE open_dataset self1
              (mk_World None (opened w)) true found) as [b self2 w2|e w2] eqn:Eloop;
    [|done].
  apply create_loop_tally in Eloop as (Hcnt & [Hal1 Hal2] & Hop & Hdbl & Hnum);
    [|by unfold aligned; rewrite Hu, Hd, Hds].
  unfold sum_projs in Hcnt at 2. rewrite Hu, He, Hp in Hcnt.
  rewrite map_fold_empty in Hcnt. simpl in Hcnt, Hop.
  change (stored_count (mk_World None (opened w))) with 0%nat in Hcnt.
  assert (Hstats : ∀ s, num_urls_from_api s = Some (length dir_listing) →
                        is_Ok (format_stats s) → dir_listing ≠ []).
  { intros s Hs [[] Hok] ->. unfold format_stats in Hok. by rewrite Hs in Hok. }
  case_decide as Hrem.
  - destruct (combine_layers self2 b w2) as [[] self3 w3|e w3] eqn:Ec; [|done].
    apply combine_layers_tally in Ec as (-> & Hst & Hop3 & _).
    destruct (format_stats (clear_vars self2)) as [[]|] eqn:Ef; [|done].
    intros [= <- <- <-]. simpl.
    change (sum_projs (clear_vars self2)) with (sum_projs self2).
    rewrite Hnum, HN, Hdbl, Hop3, Hop.
    split; [done|]. split; [lia|]. split; [lia|].
    repeat (split; [done|]).
    apply (Hstats (clear_vars self2)); [simpl; congruence | by eexists].
  - destruct (format_stats self2) as [[]|] eqn:Ef; [|done].
    intros [= <- <- <-].
    assert (Hu2 : urls self2 = []).
    { apply nil_length_inv.
      destruct (decide (length (urls self2) = 0%nat)); [done | by destruct Hrem]. }
    rewrite Hu2 in *. simpl in *.
    rewrite Hnum, HN, Hdbl.
    split; [done|]. split; [lia|]. split; [lia|]. split; [done|].
    split; [by apply nil_length_inv|]. split; [by apply nil_length_inv|].
    split; [done|].
    apply (Hstats self2); [congruence | by eexists].
Qed.

Lemma local_accounts_for_every_file_witness :
  num_urls_from_api after_local0.1 = Some 4%nat
  ∧ (stored_count after_local0.2 + length (skipped_empty_granules after_local0.1)
     + sum_projs after_local0.1
     + length (skipped_double_granules after_local0.1) = 4)%nat
  ∧ opened after_local0.2
    = [under "data" gB; under "data" gC; under "data" gD].
Proof.
  destruct (local_accounts_for_every_file 2 local_open cube0 after_local0.1
              world0 after_local0.2
              [under "data" gA; under "data" gB; under "data" gC; under "data" gD]
              [under "data" gB; under "data" gC; under "data" gD]
              ltac:(vm_compute; reflexivity))
    as (Hn & Hsum & _ & _ & _ & _ & Hop & _).
  split; [exact Hn|]. split; [exact Hsum | exact Hop].
Defined.

(** X24.  On a directory without granule files [create_from_local_no_api]
    removes the output directory, opens nothing and raises
    ZeroDivisionError from [format_stats], where [create] on an empty
    search result raises RuntimeError before it examines anything. *)
Theorem local_empty_directory (NUM_GRANULES_TO_WRITE : nat)
    (open_dataset : string → result dataset) (self : ITSCube) (w : World)
    (num_granules : option Z) :
  create_from_local_no_api NUM_GRANULES_TO_WRITE open_dataset self w []
  = Raised ZeroDivisionError (mk_World None (opened w))
  ∧ create NUM_GRANULES_TO_WRITE open_dataset self w [] num_granules
    = Raised RuntimeError (mk_World None (opened w)).
Proof. split; reflexivity. Qed.
